(** * xpec: hardware inventory helpers, detection chains and summaries

    A shallow embedding of [xpec.py].

    Conventions of the embedding.
    - A Python [str] is a [list ascii]; a character is a code point below
      256.  On that range the Unicode-aware predicates of Python coincide
      with the ones below: [\d] and [[0-9]] are the ten ASCII digits,
      [\s] and [str.strip] use the white space of [is_space].  Case
      mappings are those of the ASCII letters.
    - A Python [dict] whose values are strings is a [gmap string (list ascii)].
    - A Python [float] is the exact rational it denotes (or infinity),
      every operation rounding to binary64, ties to even.
    - Calls into the operating system (registry, WMI, subprocesses, files)
      are inputs of the model: each one yields a value or raises. *)

From Stdlib Require Import ZArith QArith Qround Qabs Qpower Lia Lqa.
From Stdlib Require Import Ascii String List Bool DecimalN SpecFloat Qcanon.
From stdpp Require Import base list strings gmap.

Open Scope Z_scope.

(** ** Characters and strings *)

Abbreviation pystr := (list ascii).

Definition str (s : string) : pystr := list_ascii_of_string s.
Arguments str : simpl never.

Definition code (c : ascii) : N := N_of_ascii c.

(** [str.isspace] on one character, restricted to code points below 256. *)
Definition is_space (c : ascii) : bool :=
  let n := code c in
  ((9 <=? n) && (n <=? 13) || (28 <=? n) && (n <=? 32)
   || (n =? 133) || (n =? 160))%N.

Definition is_digit (c : ascii) : bool :=
  let n := code c in ((48 <=? n) && (n <=? 57))%N.

Definition is_lower (c : ascii) : bool :=
  let n := code c in ((97 <=? n) && (n <=? 122))%N.

Definition is_upper (c : ascii) : bool :=
  let n := code c in ((65 <=? n) && (n <=? 90))%N.

Definition upper_char (c : ascii) : ascii :=
  if is_lower c then ascii_of_N (code c - 32) else c.

Definition lower_char (c : ascii) : ascii :=
  if is_upper c then ascii_of_N (code c + 32) else c.

Definition ascii_eqb (a b : ascii) : bool := Ascii.eqb a b.

(** Equality of two characters under [re.I]. *)
Definition ci_eqb (a b : ascii) : bool := ascii_eqb (lower_char a) (lower_char b).

Fixpoint str_eqb (a b : pystr) : bool :=
  match a, b with
  | [], [] => true
  | x :: a', y :: b' => ascii_eqb x y && str_eqb a' b'
  | _, _ => false
  end.

(** [s.upper()] *)
Definition py_upper (s : pystr) : pystr := map upper_char s.

Fixpoint lstrip (s : pystr) : pystr :=
  match s with
  | c :: s' => if is_space c then lstrip s' else s
  | [] => []
  end.

Definition rstrip (s : pystr) : pystr := rev (lstrip (rev s)).

(** [s.strip()] *)
Definition py_strip (s : pystr) : pystr := rstrip (lstrip s).

(** [s.startswith(p)] *)
Fixpoint startswith (p s : pystr) : bool :=
  match p, s with
  | [], _ => true
  | x :: p', y :: s' => ascii_eqb x y && startswith p' s'
  | _ :: _, [] => false
  end.

(** [sub in s] *)
Fixpoint contains (sub s : pystr) : bool :=
  startswith sub s ||
  match s with
  | [] => false
  | _ :: s' => contains sub s'
  end.

(** [s.replace(old, new)] for a non-empty [old]: the occurrences of [old]
    are found from left to right and do not overlap.  [skip] counts the
    characters of an occurrence that are still to be dropped. *)
Fixpoint replace_from (old new : pystr) (skip : nat) (s : pystr) : pystr :=
  match s with
  | [] => []
  | c :: s' =>
      match skip with
      | S k => replace_from old new k s'
      | O =>
          if startswith old s
          then new ++ replace_from old new (Nat.pred (length old)) s'
          else c :: replace_from old new O s'
      end
  end.

Definition py_replace (old new s : pystr) : pystr := replace_from old new O s.

(** [sep.join(parts)] *)
Fixpoint py_join (sep : pystr) (parts : list pystr) : pystr :=
  match parts with
  | [] => []
  | [p] => p
  | p :: rest => p ++ sep ++ py_join sep rest
  end.

(** The truth value of a string: [bool(s)]. *)
Definition truthy_str (s : pystr) : bool :=
  match s with [] => false | _ => true end.

(** [a or b] on strings. *)
Definition str_or (a b : pystr) : pystr := if truthy_str a then a else b.

(** ** A fragment of [re]: backtracking matching

    The patterns of xpec use character classes, literals, sequencing,
    a greedy optional, greedy repetition of a class, one capturing group
    and the anchor [$].  [m r s cap k] matches [r] at the head of [s] and
    hands the rest of the text and the capture to the continuation [k];
    the alternatives are tried in the order of Python's matcher (greedy
    first), the first success wins. *)

Inductive regex : Type :=
  | CC (p : ascii -> bool)          (* one character of a class *)
  | Eps                             (* the empty pattern *)
  | Seq (r1 r2 : regex)
  | Opt (r : regex)                 (* r?   *)
  | Star (p : ascii -> bool)        (* [class]*  *)
  | Grp (r : regex)                 (* ( r ), group 1 *)
  | Eos.                            (* $ *)

Definition Plus (p : ascii -> bool) : regex := Seq (CC p) (Star p).

(** A literal text; with [ci] it is matched as under [re.I]. *)
Fixpoint Lit (ci : bool) (t : pystr) : regex :=
  match t with
  | [] => Eps
  | c :: t' => Seq (CC (if ci then ci_eqb c else ascii_eqb c)) (Lit ci t')
  end.

Section Matcher.
Context {R : Type}.
Abbreviation cont := (pystr -> option pystr -> option R).

Fixpoint m_star (p : ascii -> bool) (s : pystr) (cap : option pystr)
    (k : cont) : option R :=
  match s with
  | c :: s' =>
      if p c then
        match m_star p s' cap k with
        | Some x => Some x
        | None => k s cap
        end
      else k s cap
  | [] => k s cap
  end.

(** [$] without [re.M]: at the end of the text, or before a final
    newline. *)
Definition at_eos (s : pystr) : bool :=
  match s with
  | [] => true
  | [c] => (code c =? 10)%N
  | _ => false
  end.

Fixpoint m (r : regex) (s : pystr) (cap : option pystr) (k : cont)
    : option R :=
  match r with
  | CC p =>
      match s with
      | c :: s' => if p c then k s' cap else None
      | [] => None
      end
  | Eps => k s cap
  | Seq r1 r2 => m r1 s cap (fun s1 cap1 => m r2 s1 cap1 k)
  | Opt r1 =>
      match m r1 s cap k with
      | Some x => Some x
      | None => k s cap
      end
  | Star p => m_star p s cap k
  | Grp r1 =>
      m r1 s cap
        (fun s1 _ => k s1 (Some (take (length s - length s1) s)))
  | Eos => if at_eos s then k s cap else None
  end.
End Matcher.

(** A match at the head of [s]: the text after the match, and group 1. *)
Definition match_here (r : regex) (s : pystr) : option (pystr * option pystr) :=
  m r s None (fun s1 cap => Some (s1, cap)).

(** [re.search(r, s)]: the first start position with a match wins. *)
Fixpoint re_search (r : regex) (s : pystr) : option (pystr * option pystr) :=
  match match_here r s with
  | Some x => Some x
  | None =>
      match s with
      | [] => None
      | _ :: s' => re_search r s'
      end
  end.

(** [re.sub(r, "", s)]: every match, found from left to right, is deleted.
    With the empty replacement an empty match deletes nothing. *)
Fixpoint sub_from (r : regex) (skip : nat) (s : pystr) : pystr :=
  match s with
  | [] => []
  | c :: s' =>
      match skip with
      | S k => sub_from r k s'
      | O =>
          match match_here r s with
          | Some (rest, _) =>
              match (length s - length rest)%nat with
              | O => c :: sub_from r O s'
              | S k => sub_from r k s'
              end
          | None => c :: sub_from r O s'
          end
      end
  end.

Definition re_sub_empty (r : regex) (s : pystr) : pystr := sub_from r O s.

(** ** xpec.py, string helpers *)

(** [_clean_cpu_model] *)
Definition radeon_re : regex := Lit true (str "with Radeon Graphics").

Definition _clean_cpu_model (name : pystr) : pystr :=
  if negb (truthy_str name) then str "N/A"
  else
    let s := name in
    let s := py_replace (str "  ") (str " ")
               (py_replace (str "CPU") []
                  (py_replace (str "(TM)") []
                     (py_replace (str "(R)") [] s))) in
    let s := re_sub_empty radeon_re s in
    py_strip s.

(** ** Python values, exceptions *)

Inductive exn : Type :=
  | TypeError | ValueError | OverflowError | AttributeError | IndexError
  | FileNotFoundError | PermissionError | OSError | ProviderError.

(** The outcome of an expression that may raise. *)
Inductive result (A : Type) : Type :=
  | Ok (a : A)
  | Raise (e : exn).
Arguments Ok {A} a.
Arguments Raise {A} e.

Definition rbind {A B : Type} (x : result A) (f : A -> result B) : result B :=
  match x with
  | Ok a => f a
  | Raise e => Raise e
  end.

#[global] Instance result_bind : MBind result := fun A B f x => rbind x f.
#[global] Instance result_ret : MRet result := fun A a => Ok a.

(** [try: c  except Exception: h] *)
Definition try_except {A : Type} (c : result A) (h : result A) : result A :=
  match c with
  | Ok a => Ok a
  | Raise _ => h
  end.

(** The attribute values the providers hand out: [None], an integer, a
    string, or some other object (true, and neither a number nor a
    string). *)
Inductive pyval : Type :=
  | PNone
  | PInt (z : Z)
  | PStr (s : pystr)
  | PObj.

Definition truthy (v : pyval) : bool :=
  match v with
  | PNone => false
  | PInt z => negb (z =? 0)
  | PStr s => truthy_str s
  | PObj => true
  end.

(** [a or b] *)
Definition py_or (a b : pyval) : pyval := if truthy a then a else b.

Definition digit_val (c : ascii) : Z := Z.of_N (code c) - 48.

(** The number written by a run of digits. *)
Definition digits_value (s : pystr) : Z :=
  fold_left (fun acc c => acc * 10 + digit_val c) s 0.

Definition underscore : ascii := "_"%char.

(** Digits, single underscores allowed between them. *)
Fixpoint int_body_ok (prev_digit : bool) (s : pystr) : bool :=
  match s with
  | [] => prev_digit
  | c :: s' =>
      if is_digit c then int_body_ok true s'
      else if ascii_eqb c underscore then prev_digit && int_body_ok false s'
      else false
  end.

(** [int(s)] on a string: white space around, a sign, decimal digits. *)
Definition int_of_str (s : pystr) : result Z :=
  let t := py_strip s in
  let '(neg, body) :=
    match t with
    | c :: t' =>
        if ascii_eqb c "-"%char then (true, t')
        else if ascii_eqb c "+"%char then (false, t')
        else (false, t)
    | [] => (false, t)
    end in
  if int_body_ok false body
  then
    let v := digits_value (filter (fun c => is_digit c = true) body) in
    Ok (if neg then - v else v)
  else Raise ValueError.

(** [int(v)] *)
Definition py_int (v : pyval) : result Z :=
  match v with
  | PInt z => Ok z
  | PStr s => int_of_str s
  | PNone | PObj => Raise TypeError
  end.

(** [v.strip()] where [v] is expected to be a string. *)
Definition val_strip (v : pyval) : result pystr :=
  match v with
  | PStr s => Ok (py_strip s)
  | _ => Raise AttributeError
  end.

(** ** binary64

    A finite float is the rational it denotes.  [rne] rounds a rational
    to the nearest integer, ties to even; [round_mag] rounds a
    non-negative rational to the nearest binary64 value (53 bits of
    precision, least exponent -1074), or gives [None] when the rounded
    value reaches 2^1024.  Every float of xpec's helpers is non-negative:
    it is read from a run of digits, the quotient of a non-negative
    integer, or a sum of such.  [round_mag] and [to_float] are meant for
    these values only (they send a negative rational to zero); the
    quotients of the detection code, which may be negative, are rounded
    by [round_b64]. *)

Inductive pyfloat : Type :=
  | Fin (q : Q)
  | Inf.

Definition rne (x : Q) : Z :=
  let f := Qfloor x in
  match Qcompare (x - inject_Z f) (1 # 2) with
  | Lt => f
  | Gt => f + 1
  | Eq => if Z.even f then f else f + 1
  end.

Definition pow2 (e : Z) : Q := Qpower 2 e.

(** For [0 < q]: the exponent [e] with [2^e <= q < 2^(e+1)]. *)
Definition ilog2 (q : Q) : Z :=
  let d := Z.log2 (Qnum q) - Z.log2 (Zpos (Qden q)) in
  if Qle_bool (pow2 d) q then d else d - 1.

Definition round_mag (q : Q) : option Q :=
  if Qle_bool q 0 then Some 0%Q
  else
    let e := ilog2 q in
    let u := Z.max (e - 52) (-1074) in
    let v := (inject_Z (rne (q / pow2 u)) * pow2 u)%Q in
    if Qle_bool (pow2 1024) v then None else Some (Qred v).

Definition to_float (q : Q) : pyfloat :=
  match round_mag q with
  | Some v => Fin v
  | None => Inf
  end.

(** [a / b] on integers, for [0 < b]: correctly rounded, and
    [OverflowError] beyond the range of a float. *)
Definition round_b64 (q : Q) : option Q :=
  if Qle_bool 0 q then round_mag q
  else option_map Qopp (round_mag (- q)).

Definition int_truediv (a b : Z) : result pyfloat :=
  match round_b64 (inject_Z a / inject_Z b) with
  | Some v => Ok (Fin v)
  | None => Raise OverflowError
  end.

(** [x + y] *)
Definition fadd (x y : pyfloat) : pyfloat :=
  match x, y with
  | Fin a, Fin b => to_float (a + b)
  | _, _ => Inf
  end.

(** [x < y], [x > y], [x == y] *)
Definition fltb (x y : pyfloat) : bool :=
  match x, y with
  | Fin a, Fin b => negb (Qle_bool b a)
  | Fin _, Inf => true
  | Inf, _ => false
  end.

Definition fgtb (x y : pyfloat) : bool := fltb y x.

Definition feqb (x y : pyfloat) : bool :=
  match x, y with
  | Fin a, Fin b => Qeq_bool a b
  | Inf, Inf => true
  | _, _ => false
  end.

(** [abs(x)] *)
Definition fabs (x : pyfloat) : pyfloat :=
  match x with
  | Fin a => Fin (Qabs a)
  | Inf => Inf
  end.

(** [bool(x)] *)
Definition truthy_float (x : pyfloat) : bool := negb (feqb x (Fin 0)).

Definition dot : ascii := "."%char.

(** The text before the first point, and the text after it. *)
Fixpoint split_dot (s : pystr) : pystr * pystr :=
  match s with
  | [] => ([], [])
  | c :: s' =>
      if ascii_eqb c dot then ([], s')
      else let '(a, b) := split_dot s' in (c :: a, b)
  end.

(** The rational written by [digits] or [digits.digits]. *)
Definition decimal_value (t : pystr) : Q :=
  let '(ip, fp) := split_dot t in
  (inject_Z (digits_value (ip ++ fp)) / inject_Z (10 ^ Z.of_nat (length fp)))%Q.

(** [float(t)] for a text [t] of the shape [digits] or [digits.digits],
    the only texts xpec passes to [float]. *)
Definition py_float (t : pystr) : pyfloat := to_float (decimal_value t).

(** ** Rendering numbers *)

Fixpoint chars_of_uint (d : Decimal.uint) : pystr :=
  match d with
  | Decimal.Nil => []
  | Decimal.D0 d' => "0"%char :: chars_of_uint d'
  | Decimal.D1 d' => "1"%char :: chars_of_uint d'
  | Decimal.D2 d' => "2"%char :: chars_of_uint d'
  | Decimal.D3 d' => "3"%char :: chars_of_uint d'
  | Decimal.D4 d' => "4"%char :: chars_of_uint d'
  | Decimal.D5 d' => "5"%char :: chars_of_uint d'
  | Decimal.D6 d' => "6"%char :: chars_of_uint d'
  | Decimal.D7 d' => "7"%char :: chars_of_uint d'
  | Decimal.D8 d' => "8"%char :: chars_of_uint d'
  | Decimal.D9 d' => "9"%char :: chars_of_uint d'
  end.

(** [str(n)] for [0 <= n] *)
Definition str_of_nonneg (n : Z) : pystr :=
  match chars_of_uint (N.to_uint (Z.to_N n)) with
  | [] => ["0"%char]
  | cs => cs
  end.

(** [str(z)] on an integer *)
Definition py_str_int (z : Z) : pystr :=
  if z <? 0 then "-"%char :: str_of_nonneg (- z) else str_of_nonneg z.

(** The [d] decimal digits of [t mod 10^d], most significant first. *)
Fixpoint frac_digits (d : nat) (t : Z) : pystr :=
  match d with
  | O => []
  | S k =>
      ascii_of_N (Z.to_N ((t / 10 ^ Z.of_nat k) mod 10) + 48)
        :: frac_digits k t
  end.

(** The fixed-point text of [t / 10^d] for an integer [0 <= t]. *)
Definition fixed_text (d : nat) (t : Z) : pystr :=
  str_of_nonneg (t / 10 ^ Z.of_nat d) ++
  match d with
  | O => []
  | _ => dot :: frac_digits d t
  end.

(** The number of [10^-d] units in the rendering of [q] with [d]
    decimals. *)
Definition fixed_units (d : nat) (q : Q) : Z :=
  rne (Qabs q * inject_Z (10 ^ Z.of_nat d)).

(** [f"{x:.<d>f}"]: correctly rounded, ties to even. *)
Definition format_fixed (d : nat) (x : pyfloat) : pystr :=
  match x with
  | Inf => str "inf"
  | Fin q =>
      let body := fixed_text d (fixed_units d q) in
      if Qle_bool 0 q then body else "-"%char :: body
  end.

(** ** xpec.py, helpers for the condensed share card *)

(** [_short_vendor] *)
Definition _short_vendor (name : pystr) : pystr :=
  let s := py_strip name in
  let u := py_upper s in
  if contains (str "MICRO-STAR") u || startswith (str "MSI") u
     || startswith (str "MS-") u then str "MSI"
  else if contains (str "ASUSTEK") u || contains (str "ASUS") u then str "ASUS"
  else if contains (str "GIGABYTE") u then str "Gigabyte"
  else if contains (str "ASROCK") u then str "ASRock"
  else if contains (str "LENOVO") u then str "Lenovo"
  else if contains (str "HEWLETT-PACKARD") u || startswith (str "HP") u
  then str "HP"
  else if contains (str "DELL") u then str "Dell"
  else str_or s (str "N/A").

(** The pattern of [_parse_gb]: [([0-9]+(?:\.[0-9]+)?)\s*GB] under [re.I]. *)
Definition gb_re : regex :=
  Seq (Grp (Seq (Plus is_digit) (Opt (Seq (CC (ascii_eqb dot)) (Plus is_digit)))))
      (Seq (Star is_space) (Lit true (str "GB"))).

(** [_parse_gb] *)
Definition _parse_gb (text : pystr) : pyfloat :=
  if negb (truthy_str text) then Fin 0
  else
    match re_search gb_re text with
    | Some (_, Some g) => py_float g
    | _ => Fin 0
    end.

(** [_fmt_gb_from_bytes] *)
Definition _fmt_gb_from_bytes (b : pyval) : result pystr :=
  match py_int b with
  | Raise _ => Ok (str "N/A")
  | Ok n =>
      let n := if n <? 0 then 0 else n in
      gb ← int_truediv n (1024 ^ 3);
      let gb := if fltb (fabs gb) (py_float (str "0.05")) then Fin 0 else gb in
      Ok (format_fixed 1 gb ++ str " GB")
  end.

(** ** xpec.py, the summaries of the share card *)

Abbreviation dict := (gmap string pystr).

(** [d.get(k, dflt)] *)
Definition dict_get (d : dict) (k : string) (dflt : pystr) : pystr :=
  default dflt (d !! k).

(** [ram_info]: the value of ["Total RAM"] and of ["Modules"], when the
    key is present. *)
Record ram_info : Type := {
  total_ram : option pystr;
  modules : option (list dict)
}.

(** The elements of a Python [set] built from a list: one representative
    of each class of equal elements. *)
Fixpoint py_set {A : Type} (eqb : A -> A -> bool) (l : list A) : list A :=
  match l with
  | [] => []
  | x :: l' => if existsb (eqb x) l' then py_set eqb l' else x :: py_set eqb l'
  end.

(** The pattern [(\d+)] *)
Definition digits_re : regex := Grp (Plus is_digit).

(** [int(sm.group(1)) if sm else None] for [sm = re.search("(\d+)", sp)] *)
Definition speed_of (sp : pystr) : option Z :=
  match re_search digits_re sp with
  | Some (_, Some g) => Some (digits_value g)
  | _ => None
  end.

(** [[s for s in speeds if s]] *)
Definition filter_speeds (speeds : list (option Z)) : list Z :=
  omap (fun s => match s with
                 | Some z => if z =? 0 then None else Some z
                 | None => None
                 end) speeds.

Definition ram_sizes (mods : list dict) : list pyfloat :=
  map (fun m => _parse_gb (dict_get m "Capacity" [])) mods.

Definition ram_speeds (mods : list dict) : list (option Z) :=
  map (fun m => speed_of (dict_get m "Speed" [])) mods.

Definition uniq_speed_of (mods : list dict) : option Z :=
  let filtered := filter_speeds (ram_speeds mods) in
  if negb (Nat.eqb (length filtered) 0)
     && Nat.eqb (length (py_set Z.eqb filtered)) 1
  then head filtered else None.

Definition per_size_of (mods : list dict) : option pyfloat :=
  let sizes := ram_sizes mods in
  if negb (Nat.eqb (length mods) 0) && negb (Nat.eqb (length sizes) 0)
     && forallb (fun x => fgtb x (Fin 0)) sizes
  then
    if Nat.eqb (length (py_set feqb sizes)) 1 then head sizes else None
  else None.

(** The list [parts] of [_summarize_ram]. *)
Definition ram_parts (r : ram_info) : list pystr :=
  let total := default (str "N/A") (total_ram r) in
  let mods := default [] (modules r) in
  let count := length mods in
  let uniq_speed := uniq_speed_of mods in
  let per_size := per_size_of mods in
  [str "Total: " ++ total]
  ++ (if negb (Nat.eqb count 0) then
        match per_size with
        | Some sz =>
            if truthy_float sz
            then [str "(" ++ py_str_int (Z.of_nat count) ++ str "x"
                    ++ format_fixed 0 sz ++ str " GB)"]
            else [str "(" ++ py_str_int (Z.of_nat count) ++ str " modules)"]
        | None => [str "(" ++ py_str_int (Z.of_nat count) ++ str " modules)"]
        end
      else [])
  ++ (match uniq_speed with
      | Some sp =>
          if negb (sp =? 0)
          then [str "@ " ++ py_str_int sp ++ str " MHz"]
          else []
      | None => []
      end).

(** [_summarize_ram] *)
Definition _summarize_ram (r : ram_info) : pystr :=
  py_join (str " ") (ram_parts r).

(** [max(l, key=key)] on a non-empty list, from its head [best]: a later
    element replaces the current one only when its key is greater. *)
Fixpoint max_from {A : Type} (key : A -> pyfloat) (best : A) (l : list A) : A :=
  match l with
  | [] => best
  | x :: l' =>
      if fgtb (key x) (key best) then max_from key x l'
      else max_from key best l'
  end.

Definition gpu_key (g : dict) : pyfloat :=
  _parse_gb (dict_get g "VRAM" (str "0 GB")).

Definition na_gpu : dict :=
  <["Model" := str "N/A"]> (<["VRAM" := str "N/A"]> ∅).

(** [_choose_primary_gpu] *)
Definition _choose_primary_gpu (gpu_info : list dict) : dict :=
  match gpu_info with
  | [] => na_gpu
  | g :: rest => max_from gpu_key g rest
  end.

(** [total_gb] of [_summarize_storage] *)
Definition total_gb (items : list dict) : pyfloat :=
  fold_left (fun tot it => fadd tot (_parse_gb (dict_get it "Size" (str "0 GB"))))
    items (Fin 0).

Definition has_type (t : pystr) (d : dict) : bool :=
  match d !! "Type" with
  | Some v => str_eqb v t
  | None => false
  end.

Definition storage_part (kind : pystr) (items : list dict) : pystr :=
  py_str_int (Z.of_nat (length items)) ++ str "x " ++ kind ++ str " ("
  ++ format_fixed 1 (total_gb items) ++ str " GB)".

Definition storage_parts (disk_info : list dict) : list pystr :=
  let ssd := filter (fun d => has_type (str "SSD") d = true) disk_info in
  let hdd := filter (fun d => has_type (str "HDD") d = true) disk_info in
  (if negb (Nat.eqb (length ssd) 0) then [storage_part (str "SSD") ssd] else [])
  ++ (if negb (Nat.eqb (length hdd) 0) then [storage_part (str "HDD") hdd] else []).

(** [_summarize_storage] *)
Definition _summarize_storage (disk_info : list dict) : pystr :=
  match disk_info with
  | [] => str "N/A"
  | _ => py_join (str ", ") (storage_parts disk_info)
  end.

(** ** xpec.py, detection: the motherboard *)

(** [v.upper()] where [v] is expected to be a string. *)
Definition val_upper (v : pyval) : result pystr :=
  match v with
  | PStr s => Ok (py_upper s)
  | _ => Raise AttributeError
  end.

Definition bad_tokens : list pystr :=
  [str "TO BE FILLED BY O.E.M."; str "SYSTEM PRODUCT NAME"; str "DEFAULT STRING";
   str "NOT SPECIFIED"; str "UNKNOWN"; str "N/A"].

Definition in_tokens (tokens : list pystr) (s : pystr) : bool :=
  existsb (str_eqb s) tokens.

Definition is_hex_ci (c : ascii) : bool :=
  is_digit c ||
  let n := code (lower_char c) in ((97 <=? n) && (n <=? 102))%N.

(** The pattern [\s*\(MS-[0-9A-F]+\)$] under [re.I]. *)
Definition ms_re : regex :=
  Seq (Star is_space)
    (Seq (Lit true (str "(MS-"))
       (Seq (Plus is_hex_ci) (Seq (CC (ascii_eqb ")"%char)) Eos))).

(** The values under [HARDWARE\DESCRIPTION\System\BIOS]; each query
    yields a value or raises. *)
Record bios_key : Type := {
  BaseBoardManufacturer : result pyval;
  BaseBoardProduct : result pyval;
  SystemProductName : result pyval;
  SystemManufacturer : result pyval
}.

(** A [Win32_BaseBoard] instance. *)
Record base_board : Type := {
  bb_Manufacturer : pyval;
  bb_Product : pyval;
  bb_Version : pyval
}.

(** What the host answers to the board detection. *)
Record board_env : Type := {
  platform_system : pystr;
  platform_release : pystr;
  debug : bool;                              (* [_is_debug()] *)
  open_bios_key : result bios_key;           (* [winreg.OpenKey] *)
  win32_baseboard : result (list base_board);(* [wmi.WMI().Win32_BaseBoard()] *)
  read_file : string -> result pystr         (* [open(path).read()] *)
}.

(** [platform.system() == "Windows"] *)
Definition is_windows (env : board_env) : bool :=
  str_eqb (platform_system env) (str "Windows").

(** [(v or "").strip()] *)
Definition or_empty_strip (v : pyval) : result pystr :=
  val_strip (py_or v (PStr [])).

(** [try: x = c  except Exception: x = None] *)
Definition try_option {A : Type} (c : result A) : option A :=
  match c with
  | Ok a => Some a
  | Raise _ => None
  end.

(** The local variables the two Windows strategies leave behind. *)
Record mobo_state : Type := {
  mobo_name : option pystr;
  debug_source : option pystr;
  debug_reg_manu : option pystr;
  debug_reg_product : option pystr;
  debug_reg_sysmanu : option pystr;
  debug_reg_sysprod : option pystr;
  debug_product_pretty : option pystr;
  debug_vendor_short : option pystr;
  debug_wmi_manufacturer : option pystr;
  debug_wmi_product : option pystr;
  debug_wmi_version : option pystr
}.

Definition mobo_init : mobo_state :=
  {| mobo_name := None; debug_source := None; debug_reg_manu := None;
     debug_reg_product := None; debug_reg_sysmanu := None;
     debug_reg_sysprod := None; debug_product_pretty := None;
     debug_vendor_short := None; debug_wmi_manufacturer := None;
     debug_wmi_product := None; debug_wmi_version := None |}.

(** [product if product and product.upper() not in bad_tokens else (sysprod or "")],
    then the chipset code is cut off. *)
Definition product_pretty_of (product : pystr) (sysprod : option pystr) : pystr :=
  let pp :=
    if truthy_str product && negb (in_tokens bad_tokens (py_upper product))
    then product
    else str_or (default [] sysprod) [] in
  if truthy_str pp then re_sub_empty ms_re pp else pp.

(** The body of the first [try] of [get_system_info]: the registry. *)
Definition registry_strategy (env : board_env) (st : mobo_state)
    : result mobo_state :=
  key ← open_bios_key env;
  m0 ← BaseBoardManufacturer key;
  manu ← or_empty_strip m0;
  p0 ← BaseBoardProduct key;
  product ← or_empty_strip p0;
  let sysprod := try_option (v ← SystemProductName key; or_empty_strip v) in
  let sysmanu := try_option (v ← SystemManufacturer key; or_empty_strip v) in
  let product_pretty := product_pretty_of product sysprod in
  if truthy_str manu || truthy_str product then
    let vendor := _short_vendor manu in
    Ok {| mobo_name := Some (py_strip (vendor ++ str " " ++ product_pretty));
          debug_source := Some (str "registry");
          debug_reg_manu := Some manu;
          debug_reg_product := Some product;
          debug_reg_sysmanu := sysmanu;
          debug_reg_sysprod := sysprod;
          debug_product_pretty := Some product_pretty;
          debug_vendor_short := Some vendor;
          debug_wmi_manufacturer := debug_wmi_manufacturer st;
          debug_wmi_product := debug_wmi_product st;
          debug_wmi_version := debug_wmi_version st |}
  else Ok st.

(** The body of the second [try]: [Win32_BaseBoard].  The version is
    read into its debug variable before the name is decided, and stays
    there even when nothing else is found. *)
Definition wmi_strategy (env : board_env) (st : mobo_state)
    : mobo_state :=
  match win32_baseboard env with
  | Raise _ => st
  | Ok [] => st                                (* [][0] raises IndexError *)
  | Ok (bb :: _) =>
      match or_empty_strip (bb_Manufacturer bb) with
      | Raise _ => st
      | Ok manu =>
          match or_empty_strip (bb_Product bb) with
          | Raise _ => st
          | Ok product =>
              let ver := try_option (or_empty_strip (bb_Version bb)) in
              let st1 :=
                {| mobo_name := mobo_name st;
                   debug_source := debug_source st;
                   debug_reg_manu := debug_reg_manu st;
                   debug_reg_product := debug_reg_product st;
                   debug_reg_sysmanu := debug_reg_sysmanu st;
                   debug_reg_sysprod := debug_reg_sysprod st;
                   debug_product_pretty := debug_product_pretty st;
                   debug_vendor_short := debug_vendor_short st;
                   debug_wmi_manufacturer := debug_wmi_manufacturer st;
                   debug_wmi_product := debug_wmi_product st;
                   debug_wmi_version := ver |} in
              if truthy_str manu || truthy_str product then
                {| mobo_name :=
                     Some (py_strip (_short_vendor manu ++ str " " ++ product));
                   debug_source := Some (str "wmi");
                   debug_reg_manu := debug_reg_manu st1;
                   debug_reg_product := debug_reg_product st1;
                   debug_reg_sysmanu := debug_reg_sysmanu st1;
                   debug_reg_sysprod := debug_reg_sysprod st1;
                   debug_product_pretty := debug_product_pretty st1;
                   debug_vendor_short := debug_vendor_short st1;
                   debug_wmi_manufacturer := Some manu;
                   debug_wmi_product := Some product;
                   debug_wmi_version := ver |}
              else st1
          end
      end
  end.

(** [x or "N/A"] for a variable that is [None] or a string. *)
Definition or_na (x : option pystr) : pystr := str_or (default [] x) (str "N/A").

Definition windows_board (env : board_env) : mobo_state :=
  let st1 :=
    match registry_strategy env mobo_init with
    | Ok st => st
    | Raise _ => mobo_init                     (* [except Exception: pass] *)
    end in
  if negb (truthy_str (default [] (mobo_name st1)))
  then wmi_strategy env st1
  else st1.

Definition windows_debug_fields (st : mobo_state) (d : dict) : dict :=
  <["Debug: WMI BaseBoard.Version" := or_na (debug_wmi_version st)]>
  (<["Debug: WMI BaseBoard.Product" := or_na (debug_wmi_product st)]>
  (<["Debug: WMI BaseBoard.Manufacturer" := or_na (debug_wmi_manufacturer st)]>
  (<["Debug: Vendor Short" := or_na (debug_vendor_short st)]>
  (<["Debug: Reg Product Pretty" := or_na (debug_product_pretty st)]>
  (<["Debug: Reg SystemProductName" := or_na (debug_reg_sysprod st)]>
  (<["Debug: Reg SystemManufacturer" := or_na (debug_reg_sysmanu st)]>
  (<["Debug: Reg BaseBoardProduct" := or_na (debug_reg_product st)]>
  (<["Debug: Reg BaseBoardManufacturer" := or_na (debug_reg_manu st)]>
  (<["Debug: Source" := or_na (debug_source st)]> d))))))))).

(** The Linux branch: only [FileNotFoundError] is handled. *)
Definition linux_board (env : board_env) : result dict :=
  let body : result dict :=
    manu0 ← read_file env "/sys/devices/virtual/dmi/id/board_vendor";
    let manu := py_strip manu0 in
    product0 ← read_file env "/sys/devices/virtual/dmi/id/board_name";
    let product := py_strip product0 in
    let d : dict := <["Motherboard" := py_strip (manu ++ str " " ++ product)]> ∅ in
    if debug env then
      Ok (<["Debug: Linux board_name" := str_or product (str "N/A")]>
          (<["Debug: Linux board_vendor" := str_or manu (str "N/A")]> d))
    else Ok d in
  match body with
  | Ok d => Ok d
  | Raise FileNotFoundError => Ok (<["Motherboard" := str "N/A"]> ∅)
  | Raise e => Raise e
  end.

(** [get_system_info] *)
Definition get_system_info (env : board_env) : result dict :=
  system_info ←
    (if is_windows env then
       let st := windows_board env in
       let d : dict := <["Motherboard" := or_na (mobo_name st)]> ∅ in
       Ok (if debug env then windows_debug_fields st d else d)
     else linux_board env);
  Ok (<["OS" := platform_system env ++ str " " ++ platform_release env]>
        system_info).

(** ** xpec.py, detection: graphics adapters (the Windows branch) *)

(** An element of [dxgi_gpus] or [nvml_gpus]. *)
Record gpu_entry : Type := {
  g_model : pystr;
  g_vram : pystr;
  g_bytes : Z
}.

(** [{"Model": g["Model"], "VRAM": g["VRAM"]}] *)
Definition gpu_dict (model vram : pystr) : dict :=
  <["Model" := model]> (<["VRAM" := vram]> ∅).

Definition entry_dict (g : gpu_entry) : dict := gpu_dict (g_model g) (g_vram g).

(** [DXGI_ADAPTER_DESC] as far as it is read. *)
Record dxgi_desc : Type := {
  Description : pyval;
  DedicatedVideoMemory : pyval
}.

(** A device of NVML: its name, and the [total] of its memory info. *)
Record nvml_dev : Type := {
  nv_name : pystr;
  nv_total : pyval
}.

(** A [Win32_VideoController] instance; [vc_AdapterRAM] is [None] when
    the attribute does not exist. *)
Record video_controller : Type := {
  vc_Name : pyval;
  vc_AdapterRAM : option pyval
}.

(** What the host answers to the GPU detection. *)
Record gpu_env : Type := {
  (* [None]: comtypes is missing; otherwise the factory, and for each
     adapter [EnumAdapters] delivers the outcome of [GetDesc()]. *)
  dxgi_factory : option (result (list (result dxgi_desc)));
  (* [nvmlInit] and the device count, then each device in turn. *)
  nvml_devices : result (list (result nvml_dev));
  (* [wmi.WMI().Win32_VideoController()] *)
  win32_videocontroller : result (list video_controller)
}.

(** The body of the loop over the DXGI adapters; a failure skips the
    adapter. *)
Definition dxgi_adapter (a : result dxgi_desc) : list gpu_entry :=
  let r : result gpu_entry :=
    desc ← a;
    let mem_bytes :=
      match py_int (DedicatedVideoMemory desc) with
      | Ok z => z
      | Raise _ => 0
      end in
    vram_str ← _fmt_gb_from_bytes (PInt mem_bytes);
    model ← val_strip (Description desc);
    Ok {| g_model := model; g_vram := vram_str; g_bytes := mem_bytes |} in
  match r with
  | Ok e => [e]
  | Raise _ => []
  end.

Definition dxgi_gpus_of (env : gpu_env) : list gpu_entry :=
  match dxgi_factory env with
  | Some (Ok adapters) => concat (map dxgi_adapter adapters)
  | _ => []
  end.

(** The loop over the NVML devices; a failure ends the loop and keeps
    what was collected. *)
Fixpoint nvml_loop (devs : list (result nvml_dev)) (acc : list gpu_entry)
    : list gpu_entry :=
  match devs with
  | [] => acc
  | d :: rest =>
      let r : result gpu_entry :=
        dev ← d;
        mem ← py_int (nv_total dev);
        vram_str ← _fmt_gb_from_bytes (PInt mem);
        Ok {| g_model := nv_name dev; g_vram := vram_str; g_bytes := mem |} in
      match r with
      | Ok e => nvml_loop rest (acc ++ [e])
      | Raise _ => acc
      end
  end.

Definition nvml_gpus_of (env : gpu_env) : list gpu_entry :=
  match nvml_devices env with
  | Ok devs => nvml_loop devs []
  | Raise _ => []
  end.

(** [g["Model"] in name or name in g["Model"]] *)
Definition name_match (name : pystr) (g : gpu_entry) : bool :=
  contains (g_model g) name || contains name (g_model g).

(** [bool(vram)] for a variable that is [None] or a string. *)
Definition truthy_opt (v : option pystr) : bool :=
  match v with
  | Some s => truthy_str s
  | None => false
  end.

(** The body of the loop over [Win32_VideoController]: the entries it
    appends to [wmi_list] (none when the adapter is skipped). *)
Definition wmi_adapter (nvml_gpus dxgi_gpus : list gpu_entry)
    (gpu : video_controller) : result (list dict) :=
  if negb (truthy (vc_Name gpu)) then Ok []
  else
    match vc_Name gpu with
    | PStr name =>
        if contains (str "Microsoft") name then Ok []
        else
          let vram : option pystr := None in
          let vram :=
            match find (name_match name) nvml_gpus with
            | Some g => Some (g_vram g)
            | None => vram
            end in
          let vram :=
            if negb (truthy_opt vram) then
              match find (name_match name) dxgi_gpus with
              | Some g => Some (g_vram g)
              | None => vram
              end
            else vram in
          let vram :=
            if negb (truthy_opt vram)
               && truthy (default PNone (vc_AdapterRAM gpu))
            then
              try_option (mem ← py_int (default PNone (vc_AdapterRAM gpu));
                          _fmt_gb_from_bytes (PInt mem))
            else vram in
          Ok [gpu_dict name (str_or (default [] vram) (str "N/A"))]
    | _ => Raise TypeError        (* ["Microsoft" in name] on a non-string *)
    end.

(** A loop that appends to a local list; an exception abandons it. *)
Fixpoint collect {I : Type} (f : I -> result (list dict)) (items : list I)
    : result (list dict) :=
  match items with
  | [] => Ok []
  | it :: rest =>
      ds ← f it;
      more ← collect f rest;
      Ok (ds ++ more)
  end.

Definition nonempty {A : Type} (l : list A) : bool :=
  match l with [] => false | _ => true end.

(** [get_gpu_info], the Windows branch (the debug log is left out). *)
Definition get_gpu_info (env : gpu_env) : list dict :=
  let dxgi_gpus := dxgi_gpus_of env in
  let nvml_gpus := nvml_gpus_of env in
  let fallback :=
    if nonempty nvml_gpus then map entry_dict nvml_gpus
    else map entry_dict dxgi_gpus in
  match (gpus ← win32_videocontroller env;
         collect (wmi_adapter nvml_gpus dxgi_gpus) gpus) with
  | Ok wmi_list => if nonempty wmi_list then wmi_list else fallback
  | Raise _ => fallback
  end.

(** ** xpec.py, detection: disks (the Windows branch) *)

(** An [MSFT_PhysicalDisk] instance; a field is [None] when the
    attribute does not exist. *)
Record physical_disk : Type := {
  pd_Size : option pyval;
  pd_MediaType : option pyval;
  pd_SpindleSpeed : option pyval;
  pd_FriendlyName : option pyval;
  pd_Model : option pyval
}.

(** An object of the JSON printed by [Get-PhysicalDisk]; a field is
    [PNone] when the key is missing. *)
Record ps_disk : Type := {
  ps_FriendlyName : pyval;
  ps_MediaType : pyval;
  ps_Size : pyval
}.

(** A [Win32_DiskDrive] instance. *)
Record disk_drive : Type := {
  dd_Size : pyval;
  dd_Model : pyval;
  dd_PNPDeviceID : option pyval;
  dd_SerialNumber : option pyval
}.

(** What the host answers to the disk detection. *)
Record disk_env : Type := {
  (* [wmi.WMI(namespace=...Storage).MSFT_PhysicalDisk()] *)
  msft_physicaldisk : result (list physical_disk);
  (* the PowerShell command, its output read by [json.loads], a single
     object wrapped into a list *)
  get_physicaldisk : result (list ps_disk);
  (* [wmi.WMI().Win32_DiskDrive()] *)
  win32_diskdrive : result (list disk_drive)
}.

Definition disk_dict (model size type : pystr) : dict :=
  <["Model" := model]> (<["Size" := size]> (<["Type" := type]> ∅)).

(** [f"{size_val / (1024**3):.1f} GB" if size_val is not None else "N/A"] *)
Definition size_str_of (size_val : option Z) : result pystr :=
  match size_val with
  | Some v =>
      gb ← int_truediv v (1024 ^ 3);
      Ok (format_fixed 1 gb ++ str " GB")
  | None => Ok (str "N/A")
  end.

(** Tier 1, the body of the loop. *)
Definition tier1_item (pd : physical_disk) : result (list dict) :=
  let size_val : option Z :=
    match (if truthy (default PNone (pd_Size pd))
           then z ← py_int (default PNone (pd_Size pd)); Ok (Some z)
           else Ok None) with
    | Ok v => v
    | Raise _ => None
    end in
  size_str ← size_str_of size_val;
  let disk_type := str "N/A" in
  let disk_type :=
    match py_int (default (PInt 0) (pd_MediaType pd)) with
    | Ok mt =>
        if mt =? 3 then str "HDD"
        else if (mt =? 4) || (mt =? 5) then str "SSD"
        else disk_type
    | Raise _ => disk_type
    end in
  let disk_type :=
    if str_eqb disk_type (str "N/A") then
      match py_int (default (PInt 0) (pd_SpindleSpeed pd)) with
      | Ok sp =>
          if 0 <? sp then str "HDD"
          else if sp =? 0 then str "SSD"
          else disk_type
      | Raise _ => disk_type
      end
    else disk_type in
  name ← val_strip (py_or (py_or (default PNone (pd_FriendlyName pd))
                                 (default PNone (pd_Model pd)))
                          (PStr (str "N/A")));
  Ok [disk_dict name size_str disk_type].

(** Tier 2, the body of the loop. *)
Definition tier2_item (it : ps_disk) : result (list dict) :=
  name ← val_strip (py_or (ps_FriendlyName it) (PStr (str "N/A")));
  let size_val : option Z :=
    match ps_Size it with
    | PNone => None
    | v => try_option (py_int v)
    end in
  size_str ← size_str_of size_val;
  mt0 ← val_strip (py_or (ps_MediaType it) (PStr []));
  let mt := py_upper mt0 in
  let disk_type :=
    if str_eqb mt (str "SSD") || str_eqb mt (str "SCM") then str "SSD"
    else if str_eqb mt (str "HDD") then str "HDD"
    else str "N/A" in
  Ok [disk_dict name size_str disk_type].

(** Tier 3, the body of the loop. *)
Definition tier3_item (disk : disk_drive) : result (list dict) :=
  if truthy (dd_Size disk) then
    sz ← py_int (dd_Size disk);
    size_gb ← int_truediv sz (1024 ^ 3);
    model ← val_strip (py_or (dd_Model disk) (PStr []));
    pnp ← val_upper (py_or (default (PStr []) (dd_PNPDeviceID disk)) (PStr []));
    serial ← val_upper (py_or (default (PStr []) (dd_SerialNumber disk)) (PStr []));
    let mdl_u := py_upper model in
    let disk_type :=
      if contains (str "NVME") pnp || contains (str "NVME") mdl_u
         || contains (str "NVME") serial then str "SSD"
      else if contains (str "SSD") mdl_u then str "SSD"
      else str "HDD" in
    Ok [disk_dict (str_or model (str "N/A"))
          (format_fixed 1 size_gb ++ str " GB") disk_type]
  else Ok [].

(** A loop that appends to the shared list [disk_info]: what the list
    holds when the loop ends, and whether it ended by an exception. *)
Fixpoint append_loop {I : Type} (f : I -> result (list dict)) (items : list I)
    (disk_info : list dict) : list dict * bool :=
  match items with
  | [] => (disk_info, false)
  | it :: rest =>
      match f it with
      | Ok ds => append_loop f rest (disk_info ++ ds)
      | Raise _ => (disk_info, true)
      end
  end.

Definition run_tier {I : Type} (f : I -> result (list dict))
    (provider : result (list I)) (disk_info : list dict) : list dict * bool :=
  match provider with
  | Ok items => append_loop f items disk_info
  | Raise _ => (disk_info, true)
  end.

(** The providers of the three tiers, as they are called. *)
Inductive tier : Type := MSFT_PhysicalDisk | Get_PhysicalDisk | Win32_DiskDrive.

(** The third tier and the final [return disk_info]. *)
Definition last_resort (env : disk_env) (calls : list tier)
    (disk_info : list dict) : list tier * list dict :=
  (calls ++ [Win32_DiskDrive],
   fst (run_tier tier3_item (win32_diskdrive env) disk_info)).

(** [get_disk_info], the Windows branch: the providers called, in the
    order of the calls, and the list returned. *)
Definition get_disk_info (env : disk_env) : list tier * list dict :=
  let '(disk_info, raised1) := run_tier tier1_item (msft_physicaldisk env) [] in
  if raised1 then
    (* the [except] clause of the first tier *)
    let '(disk_info, raised2) :=
      run_tier tier2_item (get_physicaldisk env) disk_info in
    if negb raised2 && nonempty disk_info
    then ([MSFT_PhysicalDisk; Get_PhysicalDisk], disk_info)
    else last_resort env [MSFT_PhysicalDisk; Get_PhysicalDisk] disk_info
  else if nonempty disk_info then ([MSFT_PhysicalDisk], disk_info)
  else last_resort env [MSFT_PhysicalDisk] disk_info.

(** ** Specification-side definitions

    The definitions below follow the wording of the specification; the
    properties compare them with the functions above. *)

(** The text made from [AdapterRAM], when the attribute has a true value
    that converts. *)
Definition adapter_ram_text (gpu : video_controller) : option pystr :=
  if truthy (default PNone (vc_AdapterRAM gpu))
  then try_option (mem ← py_int (default PNone (vc_AdapterRAM gpu));
                   _fmt_gb_from_bytes (PInt mem))
  else None.

(** [a] occurs in [b]: [b] is some text, then [a], then some text.  The
    characters are compared as they are, so case matters. *)
Definition substring (a b : pystr) : Prop :=
  exists pre post, b = pre ++ a ++ post.

(** The name of an adapter and the name of an entry match when one of
    the two contains the other. *)
Definition names_match (name : pystr) (g : gpu_entry) : Prop :=
  substring (g_model g) name \/ substring name (g_model g).

(** [startswith] and [contains] decide the two relations. *)
Lemma startswith_spec (p s : pystr) :
  startswith p s = true <-> exists post, s = p ++ post.
Proof.
  revert s. induction p as [|x p IH]; intros s; simpl.
  - split; [intros _; exists s; reflexivity | reflexivity].
  - destruct s as [|y s].
    + split; [discriminate | intros (post & H); discriminate H].
    + rewrite andb_true_iff, IH. unfold ascii_eqb. rewrite Ascii.eqb_eq.
      split.
      * intros (-> & post & ->). exists post. reflexivity.
      * intros (post & H). injection H as -> ->. split; [reflexivity | eauto].
Qed.

Lemma contains_spec (sub s : pystr) :
  contains sub s = true <-> substring sub s.
Proof.
  unfold substring. induction s as [|c s IH].
  - simpl. rewrite orb_false_r, startswith_spec. split.
    + intros (post & H). exists [], post. exact H.
    + intros (pre & post & H). destruct pre as [|x pre]; [|discriminate H].
      exists post. exact H.
  - cbn [contains]. rewrite orb_true_iff, startswith_spec, IH. split.
    + intros [(post & H) | (pre & post & H)].
      * exists [], post. exact H.
      * exists (c :: pre), post. rewrite H. reflexivity.
    + intros (pre & post & H). destruct pre as [|x pre].
      * left. exists post. exact H.
      * right. injection H as _ H. exists pre, post. exact H.
Qed.

#[global] Instance substring_dec (a b : pystr) : Decision (substring a b).
Proof.
  destruct (contains a b) eqn:E.
  - left. apply contains_spec. exact E.
  - right. intros H. apply contains_spec in H. congruence.
Defined.

#[global] Instance names_match_dec (name : pystr) (g : gpu_entry) :
  Decision (names_match name g).
Proof. unfold names_match. apply _. Defined.

(** The merge policy in the words of the specification: the first NVML
    entry whose name contains the adapter's name or is contained in it,
    else the first such DXGI entry, else the text of [AdapterRAM], else
    ["N/A"]. *)
Definition spec_vram (nvml_gpus dxgi_gpus : list gpu_entry)
    (name : pystr) (gpu : video_controller) : pystr :=
  match find (fun g => bool_decide (names_match name g)) nvml_gpus with
  | Some g => g_vram g
  | None =>
      match find (fun g => bool_decide (names_match name g)) dxgi_gpus with
      | Some g => g_vram g
      | None =>
          match adapter_ram_text gpu with
          | Some v => v
          | None => str "N/A"
          end
      end
  end.

(** The entry of a listed adapter: none for an adapter without a name or
    with ["Microsoft"] in its name. *)
Definition spec_adapter (nvml_gpus dxgi_gpus : list gpu_entry)
    (gpu : video_controller) : list dict :=
  match vc_Name gpu with
  | PStr [] => []
  | PStr name =>
      if bool_decide (substring (str "Microsoft") name) then []
      else [gpu_dict name (spec_vram nvml_gpus dxgi_gpus name gpu)]
  | _ => []
  end.

(** The name of an adapter is a string or [None]. *)
Definition name_is_text (gpu : video_controller) : Prop :=
  match vc_Name gpu with
  | PStr _ | PNone => True
  | _ => False
  end.

(** Hosts for the examples. *)
Definition a_ps_disk : ps_disk :=
  {| ps_FriendlyName := PStr (str "Samsung SSD 970 EVO");
     ps_MediaType := PStr (str "SSD");
     ps_Size := PInt 500107862016 |}.

Definition quiet_storage_env : disk_env :=
  {| msft_physicaldisk := Ok [];
     get_physicaldisk := Ok [a_ps_disk];
     win32_diskdrive := Ok [] |}.

Definition failing_storage_env : disk_env :=
  {| msft_physicaldisk := Raise ProviderError;
     get_physicaldisk := Ok [a_ps_disk];
     win32_diskdrive := Ok [] |}.

Definition rtx_env : gpu_env :=
  {| dxgi_factory := None;
     nvml_devices :=
       Ok [Ok {| nv_name := str "NVIDIA GeForce RTX 3080";
                 nv_total := PInt 10737418240 |}];
     win32_videocontroller :=
       Ok [ {| vc_Name := PStr (str "NVIDIA GeForce RTX 3080");
               vc_AdapterRAM := Some (PInt 4293918720) |};
            {| vc_Name := PStr (str "Microsoft Basic Render Driver");
               vc_AdapterRAM := Some (PInt 0) |} ] |}.

(** A Linux host on which the DMI files cannot be read by the user. *)
Definition denied_linux_env : board_env :=
  {| platform_system := str "Linux";
     platform_release := str "6.8.0";
     debug := false;
     open_bios_key := Raise OSError;
     win32_baseboard := Raise OSError;
     read_file := fun _ => Raise PermissionError |}.

(** A Windows host whose registry cannot be read and whose WMI answers. *)
Definition wmi_only_env : board_env :=
  {| platform_system := str "Windows";
     platform_release := str "11";
     debug := false;
     open_bios_key := Raise PermissionError;
     win32_baseboard :=
       Ok [ {| bb_Manufacturer := PStr (str "ASUSTeK COMPUTER INC.");
               bb_Product := PStr (str "ROG STRIX B550-F GAMING");
               bb_Version := PStr (str "Rev X.0x") |} ];
     read_file := fun _ => Raise FileNotFoundError |}.

(** Memory modules for the examples. *)
Definition ram_module (capacity speed : string) : dict :=
  <["Capacity" := str capacity]> (<["Speed" := str speed]> ∅).

Definition ram_one_speed_unknown : ram_info :=
  {| total_ram := Some (str "16.0 GB");
     modules := Some [ram_module "8.0 GB" "3200 MHz"; ram_module "8.0 GB" "N/A"] |}.

Definition ram_mixed_sizes : ram_info :=
  {| total_ram := Some (str "24.0 GB");
     modules := Some [ram_module "8.0 GB" "3200 MHz";
                      ram_module "16.0 GB" "3200 MHz"] |}.

(** The capacity and the speed of a module, as [_summarize_ram] reads
    them. *)
Definition capacity_of (m : dict) : pyfloat := _parse_gb (dict_get m "Capacity" []).

Definition module_speed (m : dict) : option Z := speed_of (dict_get m "Speed" []).

(** [True] when the speed of the module is determined: a number other
    than zero was read. *)
Definition speed_determined (m : dict) : Prop :=
  exists z, module_speed m = Some z /\ z <> 0.

Definition size_detail (count : nat) (sz : pyfloat) : pystr :=
  str "(" ++ py_str_int (Z.of_nat count) ++ str "x" ++ format_fixed 0 sz
  ++ str " GB)".

Definition generic_count (count : nat) : pystr :=
  str "(" ++ py_str_int (Z.of_nat count) ++ str " modules)".

Definition speed_detail (sp : Z) : pystr :=
  str "@ " ++ py_str_int sp ++ str " MHz".

(** What the summary says about the sizes: nothing for no module; the
    size of one module when all capacities are positive and equal; the
    plain count otherwise. *)
Definition size_spec (mods : list dict) (part : list pystr) : Prop :=
  (mods = [] /\ part = [])
  \/ (exists m0 rest,
        mods = m0 :: rest
        /\ fltb (Fin 0) (capacity_of m0) = true
        /\ Forall (fun m => feqb (capacity_of m) (capacity_of m0) = true) rest
        /\ part = [size_detail (length mods) (capacity_of m0)])
  \/ (((exists m, In m mods /\ fltb (Fin 0) (capacity_of m) = false)
       \/ (exists m m', In m mods /\ In m' mods
                        /\ feqb (capacity_of m) (capacity_of m') = false))
      /\ part = [generic_count (length mods)]).

(** What the summary says about the speed: the one speed shared by all
    the modules whose speed is determined, when there is such a module;
    nothing when no speed is determined or two determined speeds
    differ. *)
Definition speed_spec (mods : list dict) (part : list pystr) : Prop :=
  (exists s,
      s <> 0
      /\ (exists m, In m mods /\ module_speed m = Some s)
      /\ (forall m z, In m mods -> module_speed m = Some z -> z = 0 \/ z = s)
      /\ part = [speed_detail s])
  \/ (((forall m, In m mods -> ~ speed_determined m)
       \/ (exists m m' z z', In m mods /\ In m' mods
             /\ module_speed m = Some z /\ module_speed m' = Some z'
             /\ z <> 0 /\ z' <> 0 /\ z <> z'))
      /\ part = []).

(** The texts a pattern matches: [Matches r t rest cap cap'] says that
    [r] matches the text [t] when [rest] follows it, and turns the
    capture [cap] into [cap']. *)
Inductive Matches : regex -> pystr -> pystr -> option pystr -> option pystr -> Prop :=
  | M_CC (p : ascii -> bool) c rest cap :
      p c = true -> Matches (CC p) [c] rest cap cap
  | M_Eps rest cap : Matches Eps [] rest cap cap
  | M_Seq r1 r2 t1 t2 rest cap cap1 cap2 :
      Matches r1 t1 (t2 ++ rest) cap cap1 ->
      Matches r2 t2 rest cap1 cap2 ->
      Matches (Seq r1 r2) (t1 ++ t2) rest cap cap2
  | M_OptSome r t rest cap cap1 :
      Matches r t rest cap cap1 -> Matches (Opt r) t rest cap cap1
  | M_OptNone r rest cap : Matches (Opt r) [] rest cap cap
  | M_Star (p : ascii -> bool) t rest cap :
      Forall (fun c => p c = true) t -> Matches (Star p) t rest cap cap
  | M_Grp r t rest cap cap1 :
      Matches r t rest cap cap1 -> Matches (Grp r) t rest cap (Some t)
  | M_Eos rest cap : at_eos rest = true -> Matches Eos [] rest cap cap.

(** A non-empty run of digits. *)
Definition digits (t : pystr) : Prop :=
  t <> [] /\ Forall (fun c => is_digit c = true) t.

(** A decimal number: digits, or digits, a point and digits. *)
Definition is_decimal (t : pystr) : Prop :=
  digits t \/ exists ip fp, t = ip ++ dot :: fp /\ digits ip /\ digits fp.

(** The token [GB], in either case. *)
Definition gb_token (g : pystr) : Prop :=
  exists a b, g = [a; b] /\ ci_eqb "G"%char a = true /\ ci_eqb "B"%char b = true.

(** At position [i] of [s] stands the decimal number [num], followed by
    white space, if any, and the token GB. *)
Definition number_before_gb (s : pystr) (i : nat) (num : pystr) : Prop :=
  exists ws g post,
    drop i s = num ++ ws ++ g ++ post
    /\ is_decimal num
    /\ Forall (fun c => is_space c = true) ws
    /\ gb_token g.

(** The baseboard product is empty or one of the placeholders, compared
    without regard to case. *)
Definition placeholder_or_empty (product : pystr) : Prop :=
  product = [] \/ In (py_upper product) bad_tokens.

(** The text does not end in white space. *)
Definition no_trailing_space (t : pystr) : Prop :=
  t = [] \/ exists p c, t = p ++ [c] /\ is_space c = false.

(** A Windows host whose registry has no baseboard values but a system
    product name, and whose WMI does not answer. *)
Definition bare_registry_env : board_env :=
  {| platform_system := str "Windows";
     platform_release := str "10";
     debug := false;
     open_bios_key :=
       Ok {| BaseBoardManufacturer := Ok (PStr []);
             BaseBoardProduct := Ok (PStr []);
             SystemProductName := Ok (PStr (str "ROG STRIX B550"));
             SystemManufacturer := Ok (PStr []) |};
     win32_baseboard := Raise ProviderError;
     read_file := fun _ => Raise FileNotFoundError |}.

(** The host [env] with another outcome of opening the registry key. *)
Definition with_bios_key (env : board_env) (k : result bios_key) : board_env :=
  {| platform_system := platform_system env;
     platform_release := platform_release env;
     debug := debug env;
     open_bios_key := k;
     win32_baseboard := win32_baseboard env;
     read_file := read_file env |}.

(** A Windows host whose registry has empty baseboard values and a
    system product name, and whose WMI answers. *)
Definition empty_registry_key : bios_key :=
  {| BaseBoardManufacturer := Ok (PStr (str "  "));
     BaseBoardProduct := Ok PNone;
     SystemProductName := Ok (PStr (str "ROG STRIX B550"));
     SystemManufacturer := Ok (PStr (str "ASUS")) |}.

Definition empty_registry_env : board_env :=
  {| platform_system := str "Windows";
     platform_release := str "11";
     debug := true;
     open_bios_key := Ok empty_registry_key;
     win32_baseboard :=
       Ok [ {| bb_Manufacturer := PStr (str "Gigabyte Technology Co., Ltd.");
               bb_Product := PStr (str "B550 AORUS ELITE");
               bb_Version := PStr (str "x.x") |} ];
     read_file := fun _ => Raise FileNotFoundError |}.

(** A Windows host whose baseboard product is a placeholder. *)
Definition oem_registry_key : bios_key :=
  {| BaseBoardManufacturer := Ok (PStr (str "ASUSTeK COMPUTER INC."));
     BaseBoardProduct := Ok (PStr (str "To Be Filled By O.E.M."));
     SystemProductName := Ok (PStr (str "ROG STRIX B550"));
     SystemManufacturer := Ok (PStr (str "ASUS")) |}.

Definition oem_registry_env : board_env :=
  {| platform_system := str "Windows";
     platform_release := str "10";
     debug := false;
     open_bios_key := Ok oem_registry_key;
     win32_baseboard := Raise ProviderError;
     read_file := fun _ => Raise FileNotFoundError |}.

(** The float written [0.05]. *)
Definition c005 : Q := 3602879701896397 # 72057594037927936.

(** The value that [_fmt_gb_from_bytes] renders for the quotient [v]: a
    float below 0.05 counts as zero. *)
Definition shown (v : Q) : Q := if Qle_bool c005 (Qabs v) then v else 0%Q.

(** The rational denoted by a float of the Standard Library's
    specification of IEEE 754, used to compare [round_mag] with
    [binary_normalize] at precision 53 and maximal exponent 1024. *)
Definition sf_value (x : spec_float) : option Q :=
  match x with
  | S754_zero _ => Some 0%Q
  | S754_finite s m e =>
      Some (Qred ((if s then -1 else 1) * inject_Z (Zpos m) * pow2 e)%Q)
  | _ => None
  end.

Definition agrees_with_spec_float (m e : Z) : bool :=
  match sf_value (binary_normalize 53 1024 m e false),
        round_mag (inject_Z m * pow2 e) with
  | Some x, Some y => Qeq_bool x y
  | None, None => true
  | _, _ => false
  end.

(** Disks and adapters for the examples. *)
Definition a_disk (size type : string) : dict :=
  <["Model" := str "disk"]> (<["Size" := str size]> (<["Type" := str type]> ∅)).

(** The host [env] with another answer of [Win32_BaseBoard]. *)
Definition with_baseboard (env : board_env)
    (bb : result (list base_board)) : board_env :=
  {| platform_system := platform_system env;
     platform_release := platform_release env;
     debug := debug env;
     open_bios_key := open_bios_key env;
     win32_baseboard := bb;
     read_file := read_file env |}.

(** A Windows host with a genuine baseboard product in the registry. *)
Definition msi_registry_key : bios_key :=
  {| BaseBoardManufacturer := Ok (PStr (str "Micro-Star International Co., Ltd."));
     BaseBoardProduct := Ok (PStr (str "MAG B650 TOMAHAWK WIFI"));
     SystemProductName := Ok (PStr (str "MS-7E49"));
     SystemManufacturer := Ok (PStr (str "Micro-Star International Co., Ltd.")) |}.

Definition msi_registry_env : board_env :=
  {| platform_system := str "Windows";
     platform_release := str "11";
     debug := false;
     open_bios_key := Ok msi_registry_key;
     win32_baseboard :=
       Ok [ {| bb_Manufacturer := PStr (str "Other");
               bb_Product := PStr (str "Other board");
               bb_Version := PNone |} ];
     read_file := fun _ => Raise FileNotFoundError |}.

(** A name that a strategy sets is the result of a [strip]. *)
Definition name_is_stripped (st : mobo_state) : Prop :=
  mobo_name st = None \/ exists t, mobo_name st = Some (py_strip t).

(** A well-formed entry of [disk_info]: the three keys, a type that is
    ["SSD"], ["HDD"] or ["N/A"], and a size that is ["N/A"] or ends in
    [" GB"]. *)
Definition disk_entry_ok (d : dict) : Prop :=
  exists model size type,
    d = disk_dict model size type
    /\ (type = str "SSD" \/ type = str "HDD" \/ type = str "N/A")
    /\ (size = str "N/A" \/ exists x, size = x ++ str " GB").

(** The type of a disk entry is determined. *)
Definition disk_type_known (d : dict) : Prop :=
  d !! "Type" = Some (str "SSD") \/ d !! "Type" = Some (str "HDD").

(** A well-formed entry of [gpu_info]: the two keys, and a VRAM text that
    is not empty. *)
Definition gpu_entry_ok (d : dict) : Prop :=
  exists model vram, d = gpu_dict model vram /\ vram <> [].

(** A host whose first tier lists one disk and fails at the second. *)
Definition a_physical_disk : physical_disk :=
  {| pd_Size := Some (PStr (str "500107862016"));
     pd_MediaType := Some (PInt 4);
     pd_SpindleSpeed := Some (PInt 0);
     pd_FriendlyName := Some (PStr (str "Samsung SSD 970 EVO"));
     pd_Model := None |}.

Definition a_broken_physical_disk : physical_disk :=
  {| pd_Size := None;
     pd_MediaType := None;
     pd_SpindleSpeed := None;
     pd_FriendlyName := Some PObj;
     pd_Model := None |}.

Definition stumbling_storage_env : disk_env :=
  {| msft_physicaldisk := Ok [a_physical_disk; a_broken_physical_disk];
     get_physicaldisk := Ok [a_ps_disk];
     win32_diskdrive := Ok [] |}.

(** A physical disk that says nothing about its medium. *)
Definition a_silent_physical_disk : physical_disk :=
  {| pd_Size := Some (PStr (str "1000204886016"));
     pd_MediaType := Some (PInt 0);
     pd_SpindleSpeed := None;
     pd_FriendlyName := Some (PStr (str "WDC WD10EZEX"));
     pd_Model := None |}.

(** An NVMe drive as [Win32_DiskDrive] shows it. *)
Definition an_nvme_drive : disk_drive :=
  {| dd_Size := PStr (str "1000202273280");
     dd_Model := PStr (str "KINGSTON SNV2S1000G");
     dd_PNPDeviceID := Some (PStr (str "SCSI\DISK&VEN_NVME&PROD_KINGSTON_SNV2S10"));
     dd_SerialNumber := Some (PStr (str "0000_0000_0000_0000.")) |}.

(** ** xpec.py, detection: memory *)

Definition newline : ascii := "010"%char.
Definition colon : ascii := ":"%char.

(** [s.split(sep)] for a separator of one character. *)
Fixpoint py_split (sep : ascii) (s : pystr) : list pystr :=
  match s with
  | [] => [[]]
  | c :: s' =>
      if ascii_eqb c sep then [] :: py_split sep s'
      else
        match py_split sep s' with
        | p :: ps => (c :: p) :: ps
        | [] => [[c]]
        end
  end.

(** [enumerate(l, start)] *)
Fixpoint enumerate {A : Type} (start : Z) (l : list A) : list (Z * A) :=
  match l with
  | [] => []
  | x :: l' => (start, x) :: enumerate (start + 1) l'
  end.

(** A [Win32_PhysicalMemory] instance: what reading each attribute
    yields. *)
Record physical_memory : Type := {
  pm_Manufacturer : result pyval;
  pm_ConfiguredClockSpeed : result pyval;
  pm_Speed : result pyval;
  pm_PartNumber : result pyval;
  pm_Capacity : result pyval
}.

(** What the host answers to the memory detection. *)
Record ram_env : Type := {
  ram_platform_system : pystr;                 (* [platform.system()] *)
  virtual_memory_total : result Z;             (* [psutil.virtual_memory().total] *)
  (* [wmi.WMI().Win32_PhysicalMemory()] *)
  win32_physicalmemory : result (list physical_memory);
  (* the output of [sudo dmidecode --type 17] *)
  dmidecode : result pystr
}.

(** An element of [ram_info["Modules"]]. *)
Record ram_module_entry : Type := {
  rm_Module : Z;
  rm_Manufacturer : pystr;
  rm_Capacity : pystr;
  rm_Speed : pystr;
  rm_PartNumber : pystr
}.

(** The dict that [get_ram_info] returns. *)
Record ram_report : Type := {
  Total_RAM : pystr;
  Modules : list ram_module_entry
}.

Definition ram_bad_tokens : list pystr :=
  [str "UNKNOWN"; str "N/A"; str "UNDEFINED"; str "NOT SPECIFIED"; str "INVALID"].

(** [try: v = int(x) if x else None  except Exception: v = None] *)
Definition clock_of (attr : result pyval) : option Z :=
  match (x ← attr; if truthy x then z ← py_int x; Ok (Some z) else Ok None) with
  | Ok v => v
  | Raise _ => None
  end.

(** [bool(speed_val)] *)
Definition truthy_int (v : option Z) : bool :=
  match v with
  | Some z => negb (z =? 0)
  | None => false
  end.

(** The body of the loop over [Win32_PhysicalMemory]. *)
Definition win_module (i : Z) (module : physical_memory)
    : result ram_module_entry :=
  manu ← (v ← pm_Manufacturer module; or_empty_strip v);
  let manu :=
    if negb (truthy_str manu) || in_tokens ram_bad_tokens (py_upper manu)
    then str "N/A" else manu in
  let speed_val := clock_of (pm_ConfiguredClockSpeed module) in
  let speed_val :=
    if negb (truthy_int speed_val) then clock_of (pm_Speed module)
    else speed_val in
  let speed_str :=
    match speed_val with
    | Some z => if negb (z =? 0) then py_str_int z ++ str " MHz" else str "N/A"
    | None => str "N/A"
    end in
  part ← (v ← pm_PartNumber module; or_empty_strip v);
  let part := str_or part (str "N/A") in
  let cap_gb :=
    match (v ← pm_Capacity module;
           n ← py_int v;
           gb ← int_truediv n (1024 ^ 3);
           Ok (format_fixed 1 gb ++ str " GB")) with
    | Ok s => s
    | Raise _ => str "N/A"
    end in
  Ok {| rm_Module := i; rm_Manufacturer := manu; rm_Capacity := cap_gb;
        rm_Speed := speed_str; rm_PartNumber := part |}.

(** The loop over [enumerate(modules, 1)]: an exception ends it and keeps
    what was appended. *)
Fixpoint win_modules (ms : list (Z * physical_memory))
    (acc : list ram_module_entry) : list ram_module_entry :=
  match ms with
  | [] => acc
  | (i, module) :: rest =>
      match win_module i module with
      | Ok e => win_modules rest (acc ++ [e])
      | Raise _ => acc
      end
  end.

(** [line.split(":")[1].strip()] *)
Definition field_value (line : pystr) : result pystr :=
  match py_split colon line !! 1%nat with
  | Some v => Ok (py_strip v)
  | None => Raise IndexError
  end.

(** One line of the output of dmidecode, on [modules] and
    [current_module]. *)
Definition dmi_line (st : list dict * dict) (line : pystr)
    : result (list dict * dict) :=
  let '(mods, cur) := st in
  if contains (str "Size:") line
     && negb (contains (str "No Module Installed") line)
  then v ← field_value line; Ok (mods, <["Capacity" := v]> cur)
  else if contains (str "Speed:") line
  then v ← field_value line; Ok (mods, <["Speed" := v]> cur)
  else if contains (str "Part Number:") line
  then v ← field_value line; Ok (mods, <["Part Number" := v]> cur)
  else if contains (str "Manufacturer:") line
  then v ← field_value line; Ok (mods, <["Manufacturer" := v]> cur)
  else if contains (str "Memory Device") line && negb (bool_decide (cur = ∅))
  then Ok (mods ++ [cur], ∅)
  else Ok st.

Fixpoint dmi_lines (lines : list pystr) (st : list dict * dict)
    : result (list dict * dict) :=
  match lines with
  | [] => Ok st
  | line :: rest => st' ← dmi_line st line; dmi_lines rest st'
  end.

Definition linux_module (im : Z * dict) : ram_module_entry :=
  let '(i, module) := im in
  {| rm_Module := i;
     rm_Manufacturer := dict_get module "Manufacturer" (str "N/A");
     rm_Capacity := dict_get module "Capacity" (str "N/A");
     rm_Speed := dict_get module "Speed" (str "N/A");
     rm_PartNumber := dict_get module "Part Number" (str "N/A") |}.

(** [get_ram_info] *)
Definition get_ram_info (env : ram_env) : result ram_report :=
  total ← virtual_memory_total env;
  gb ← int_truediv total (1024 ^ 3);
  let total_ram := format_fixed 1 gb ++ str " GB" in
  let mods :=
    if str_eqb (ram_platform_system env) (str "Windows") then
      match win32_physicalmemory env with
      | Ok modules => win_modules (enumerate 1 modules) []
      | Raise _ => []
      end
    else
      match (out ← dmidecode env;
             dmi_lines (py_split newline out) ([], ∅)) with
      | Ok (modules, _) => map linux_module (enumerate 1 modules)
      | Raise _ => []
      end in
  Ok {| Total_RAM := total_ram; Modules := mods |}.

(** The string entries of a module, as [_summarize_ram] reads them with
    [m.get]. *)
Definition module_dict (e : ram_module_entry) : dict :=
  <["Manufacturer" := rm_Manufacturer e]>
    (<["Capacity" := rm_Capacity e]>
       (<["Speed" := rm_Speed e]>
          (<["Part Number" := rm_PartNumber e]> ∅))).

(** The report as the argument of [_summarize_ram]. *)
Definition ram_info_of (r : ram_report) : ram_info :=
  {| total_ram := Some (Total_RAM r);
     modules := Some (map module_dict (Modules r)) |}.

(** ** xpec.py, detection: graphics adapters and disks (the other branch) *)

(** The loop over the lines of [lspci]; an exception ends it and keeps
    what was appended. *)
Fixpoint lspci_lines (lines : list pystr) (acc : list dict) : list dict :=
  match lines with
  | [] => acc
  | line :: rest =>
      if truthy_str (py_strip line) then
        match py_split colon line !! 2%nat with
        | Some m => lspci_lines rest (acc ++ [gpu_dict (py_strip m) (str "N/A")])
        | None => acc
        end
      else lspci_lines rest acc
  end.

(** [get_gpu_info] off Windows, on the outcome of
    [subprocess.check_output("lspci | grep -i 'vga|3d|display'", ...)]. *)
Definition get_gpu_info_linux (lspci : result pystr) : list dict :=
  match lspci with
  | Ok out => lspci_lines (py_split newline out) []
  | Raise _ => []
  end.

(** [s.split()]: the maximal runs of characters that are not white
    space. *)
Fixpoint py_split_ws (s : pystr) : list pystr :=
  match s with
  | [] => []
  | c :: s' =>
      if is_space c then py_split_ws s'
      else
        match s' with
        | [] => [[c]]
        | d :: _ =>
            if is_space d then [c] :: py_split_ws s'
            else
              match py_split_ws s' with
              | p :: ps => (c :: p) :: ps
              | [] => [[c]]
              end
        end
  end.

(** One line of [lsblk -d -o NAME,MODEL,SIZE,ROTA]. *)
Definition lsblk_line (line : pystr) : list dict :=
  if truthy_str (py_strip line) then
    let parts := py_split_ws line in
    if (3 <=? length parts)%nat then
      (* [parts[1:-2]], [parts[-2]], [parts[-1]] *)
      let model := py_join (str " ") (take (length parts - 3) (drop 1 parts)) in
      let size := default [] (parts !! (length parts - 2)%nat) in
      let disk_type :=
        if str_eqb (default [] (last parts)) (str "0")
        then str "SSD" else str "HDD" in
      [disk_dict model size disk_type]
    else []
  else [].

(** [get_disk_info] off Windows, on the outcome of the [lsblk] command. *)
Definition get_disk_info_linux (lsblk : result pystr) : list dict :=
  match lsblk with
  | Ok out => concat (map lsblk_line (drop 1 (py_split newline out)))
  | Raise _ => []
  end.

(** Example hosts. *)
Definition a_dimm (speed : Z) : physical_memory :=
  {| pm_Manufacturer := Ok (PStr (str "Kingston "));
     pm_ConfiguredClockSpeed := Ok (PInt speed);
     pm_Speed := Ok (PInt 2133);
     pm_PartNumber := Ok (PStr (str "KF432C16BB/8   "));
     pm_Capacity := Ok (PStr (str "8589934592")) |}.

Definition a_broken_dimm : physical_memory :=
  {| pm_Manufacturer := Raise AttributeError;
     pm_ConfiguredClockSpeed := Ok PNone;
     pm_Speed := Ok PNone;
     pm_PartNumber := Ok PNone;
     pm_Capacity := Ok PNone |}.

Definition windows_ram_env : ram_env :=
  {| ram_platform_system := str "Windows";
     virtual_memory_total := Ok 17179869184;
     win32_physicalmemory := Ok [a_dimm 3200; a_broken_dimm; a_dimm 3200];
     dmidecode := Raise ProviderError |}.

Definition nl : string := String newline EmptyString.

Definition one_dimm_output : pystr :=
  str ("Handle 0x0039, DMI type 17, 92 bytes" ++ nl ++
       "Memory Device" ++ nl ++
       "	Size: 8 GB" ++ nl ++
       "	Speed: 3200 MT/s" ++ nl ++
       "	Manufacturer: Kingston" ++ nl ++
       "	Part Number: KF432C16BB/8" ++ nl).

Definition linux_ram_env (out : pystr) : ram_env :=
  {| ram_platform_system := str "Linux";
     virtual_memory_total := Ok 17179869184;
     win32_physicalmemory := Raise ProviderError;
     dmidecode := Ok out |}.
(** The same host with another answer of the memory providers. *)
Definition with_physicalmemory (env : ram_env)
    (ms : result (list physical_memory)) : ram_env :=
  {| ram_platform_system := ram_platform_system env;
     virtual_memory_total := virtual_memory_total env;
     win32_physicalmemory := ms;
     dmidecode := dmidecode env |}.

Definition with_dmidecode (env : ram_env) (out : result pystr) : ram_env :=
  {| ram_platform_system := ram_platform_system env;
     virtual_memory_total := virtual_memory_total env;
     win32_physicalmemory := win32_physicalmemory env;
     dmidecode := out |}.

(** [platform.system() == "Windows"] in [get_ram_info] *)
Definition ram_on_windows (env : ram_env) : bool :=
  str_eqb (ram_platform_system env) (str "Windows").

(** The numbers [1, 2, ..., n]. *)
Definition one_to (n : nat) : list Z := map Z.of_nat (seq 1 n).

(** A speed text: the placeholder, or an integer other than zero and the
    unit. *)
Definition ram_speed_ok (s : pystr) : Prop :=
  s = str "N/A" \/ exists z, z <> 0 /\ s = py_str_int z ++ str " MHz".

(** A well-formed module of the Windows branch. *)
Definition ram_entry_ok (e : ram_module_entry) : Prop :=
  rm_Manufacturer e <> []
  /\ py_strip (rm_Manufacturer e) = rm_Manufacturer e
  /\ (rm_Manufacturer e = str "N/A"
      \/ in_tokens ram_bad_tokens (py_upper (rm_Manufacturer e)) = false)
  /\ ram_speed_ok (rm_Speed e)
  /\ rm_PartNumber e <> []
  /\ py_strip (rm_PartNumber e) = rm_PartNumber e
  /\ (rm_Capacity e = str "N/A" \/ exists x, rm_Capacity e = x ++ str " GB").

(** The module cannot be read: its manufacturer or its part number
    raises, or is an object without [strip]. *)
Definition module_unreadable (module : physical_memory) : Prop :=
  (exists e, (v ← pm_Manufacturer module; or_empty_strip v) = Raise e)
  \/ (exists e, (v ← pm_PartNumber module; or_empty_strip v) = Raise e).

(** The summary reads the speed of the module back: nothing for the
    placeholder, the magnitude of the number otherwise. *)
Definition speed_read_back (e : ram_module_entry) : Prop :=
  (rm_Speed e = str "N/A" /\ module_speed (module_dict e) = None)
  \/ (exists z, z <> 0 /\ rm_Speed e = py_str_int z ++ str " MHz"
                /\ module_speed (module_dict e) = Some (Z.abs z)).

(** A line that does not close a memory device. *)
Definition no_device_marker (line : pystr) : Prop :=
  contains (str "Memory Device") line = false.

(** An entry of the disk list off Windows: the three keys, a type that is
    ["SSD"] or ["HDD"], and a size that is one token. *)
Definition linux_disk_ok (d : dict) : Prop :=
  exists model size type,
    d = disk_dict model size type
    /\ (type = str "SSD" \/ type = str "HDD")
    /\ size <> []
    /\ Forall (fun c => is_space c = false) size.

(** An output of dmidecode that describes two devices. *)
Definition two_dimm_head : pystr :=
  one_dimm_output ++ str "Handle 0x003A, DMI type 17, 92 bytes" ++ [newline]
  ++ str "Memory Device".

Definition second_dimm_fields : pystr :=
  str ("	Size: 16 GB" ++ nl ++ "	Speed: 2666 MT/s" ++ nl).

(** An entry of the adapter list off Windows: the VRAM is not
    determined. *)
Definition linux_gpu_ok (d : dict) : Prop :=
  exists model, d = gpu_dict model (str "N/A").

(** The number of disks that [_summarize_storage] counts under a type. *)
Definition counted_as (kind : pystr) (disk_info : list dict) : nat :=
  length (filter (fun d => has_type kind d = true) disk_info).

(** ** xpec.py, the configuration of the share card *)

(** A value as [json.load] returns it.  The entries of an object are in
    the order of the dict. *)
#[warnings="-register-all"] Inductive json : Type :=
  | JNull
  | JBool (b : bool)
  | JInt (z : Z)
  | JFloat (x : pyfloat)
  | JNegInf
  | JNaN
  | JStr (s : pystr)
  | JList (items : list json)
  | JDict (entries : list (string * json)).

Abbreviation entries := (list (string * json)).

(** [bool(v)] *)
Definition json_truthy (v : json) : bool :=
  match v with
  | JNull => false
  | JBool b => b
  | JInt z => negb (z =? 0)
  | JFloat x => truthy_float x
  | JNegInf | JNaN => true
  | JStr s => truthy_str s
  | JList items => nonempty items
  | JDict es => nonempty es
  end.

(** [d.get(k)] *)
Fixpoint entries_get (k : string) (d : entries) : option json :=
  match d with
  | [] => None
  | (k', v) :: d' => if String.eqb k k' then Some v else entries_get k d'
  end.

(** [d[k] = v]: a key that is present keeps its place, a new key goes to
    the end. *)
Fixpoint entries_set (k : string) (v : json) (d : entries) : entries :=
  match d with
  | [] => [(k, v)]
  | (k', v') :: d' =>
      if String.eqb k k' then (k, v) :: d' else (k', v') :: entries_set k v d'
  end.

(** The body of the loop of [_deep_update]; [rec] is the function
    itself. *)
Definition update_entry (rec : json -> entries -> entries) (base : entries)
    (kv : string * json) : entries :=
  let '(k, v) := kv in
  match v, entries_get k base with
  | JDict _, Some (JDict bv) => entries_set k (JDict (rec v bv)) base
  | _, _ => entries_set k v base
  end.

(** [_deep_update(base, override)] for an [override] that is a dict,
    empty or not; any other [override] is dealt with below. *)
Fixpoint deep_update_with (override : json) (base : entries) {struct override}
    : entries :=
  match override with
  | JDict ov => fold_left (update_entry deep_update_with) ov base
  | _ => base
  end.

(** [_deep_update]: [(override or {}).items()] raises for a true value
    that is not a dict. *)
Definition _deep_update (base : entries) (override : json) : result entries :=
  if negb (json_truthy override) then Ok base
  else
    match override with
    | JDict _ => Ok (deep_update_with override base)
    | _ => Raise AttributeError
    end.

(** [_default_config] *)
Definition _default_config : entries :=
  let ints := fun l : list Z => JList (map JInt l) in
  [ ("image_size"%string, ints [1200; 675]);
    ("background_image"%string, JStr (str "bg.jpg"));
    ("background_fit"%string, JStr (str "cover"));
    ("background_overlay"%string,
       JDict [ ("color"%string, ints [0; 0; 0]);
               ("opacity"%string, JFloat (py_float (str "0.4"))) ]);
    ("background_color"%string, ints [26; 26; 26]);
    ("accent_color"%string, ints [0; 255; 157]);
    ("sub_color"%string, ints [0; 204; 255]);
    ("text_color"%string, ints [240; 240; 240]);
    ("dim_color"%string, ints [160; 160; 160]);
    ("font_paths"%string,
       JDict [ ("title"%string, JStr []); ("h2"%string, JStr []);
               ("body"%string, JStr []); ("small"%string, JStr []) ]);
    ("font_sizes"%string,
       JDict [ ("title"%string, JInt 56); ("h2"%string, JInt 36);
               ("body"%string, JInt 28); ("small"%string, JInt 24) ]) ].

(** One of the two candidate paths of [load_config]: [os.path.exists],
    and what opening the file and [json.load] yield. *)
Record candidate : Type := {
  path_exists : bool;
  json_load : result json
}.

(** What the host answers to [load_config]: the file next to the program
    and the file in the working directory. *)
Record config_env : Type := {
  next_to_program : candidate;
  in_working_dir : candidate
}.

(** The loop over [paths]: the first file that exists and loads ends
    it.  [None] is the initial [user_cfg = None]. *)
Fixpoint first_loaded (paths : list candidate) : option json :=
  match paths with
  | [] => None
  | c :: rest =>
      if path_exists c then
        match json_load c with
        | Ok v => Some v
        | Raise _ => first_loaded rest
        end
      else first_loaded rest
  end.

(** What [load_config] gives: the configuration, and whether it tried to
    write the defaults to the first path. *)
Record loaded_config : Type := {
  cfg : entries;
  default_written : bool
}.

(** [load_config] *)
Definition load_config (env : config_env) : result loaded_config :=
  let user_cfg := first_loaded [next_to_program env; in_working_dir env] in
  if json_truthy (default JNull user_cfg) then
    c ← _deep_update _default_config (default JNull user_cfg);
    Ok {| cfg := c; default_written := false |}
  else Ok {| cfg := _default_config; default_written := true |}.

(** [int(v)] on a value of the configuration. *)
Definition json_int (v : json) : result Z :=
  match v with
  | JInt z => Ok z
  | JBool b => Ok (if b then 1 else 0)
  | JFloat (Fin q) => Ok (Z.quot (Qnum q) (Z.pos (Qden q)))
  | JFloat Inf | JNegInf => Raise OverflowError
  | JNaN => Raise ValueError
  | JStr s => int_of_str s
  | JNull | JList _ | JDict _ => Raise TypeError
  end.

(** [r{n}] *)
Fixpoint Rep (n : nat) (r : regex) : regex :=
  match n with
  | O => Eps
  | S k => Seq r (Rep k r)
  end.

(** The pattern [#?([0-9a-fA-F]{6})] *)
Definition rgb_re : regex :=
  Seq (Opt (CC (ascii_eqb "#"%char))) (Grp (Rep 6 (CC is_hex_ci))).

Definition hex_val (c : ascii) : Z :=
  if is_digit c then digit_val c else Z.of_N (code (lower_char c)) - 87.

(** [int(s, 16)] for a text [s] of hexadecimal digits. *)
Definition int16 (s : pystr) : Z :=
  fold_left (fun acc c => acc * 16 + hex_val c) s 0.

Abbreviation rgb := (Z * Z * Z)%type.

(** [_as_rgb] *)
Definition _as_rgb (val : json) (dflt : rgb) : rgb :=
  let attempt : result (option rgb) :=
    match val with
    | JList items =>
        if (3 <=? length items)%nat then
          r ← json_int (default JNull (items !! 0%nat));
          g ← json_int (default JNull (items !! 1%nat));
          b ← json_int (default JNull (items !! 2%nat));
          Ok (Some (r, g, b))
        else Ok None
    | JStr s =>
        (* [re.match]: a match at the start of the text *)
        match match_here rgb_re s with
        | Some (_, Some hexv) =>
            Ok (Some (int16 (take 2 hexv),
                      int16 (take 2 (drop 2 hexv)),
                      int16 (take 2 (drop 4 hexv))))
        | _ => Ok None
        end
    | _ => Ok None
    end in
  match attempt with
  | Ok (Some c) => c
  | _ => dflt
  end.
(** The keys of a dict, in its order. *)
Definition keys (d : entries) : list string := map fst d.

(** The value that [_deep_update] leaves under a key of [override]: the
    merge [_deep_update(base[k], v)] when both values are dicts, and [v]
    otherwise. *)
Definition merged_value (v : json) (old : option json) : json :=
  match v, old with
  | JDict _, Some (JDict bv) => JDict (deep_update_with v bv)
  | _, _ => v
  end.

(** A user configuration for the examples. *)
Definition a_user_config : json :=
  JDict [ ("font_sizes"%string, JDict [ ("title"%string, JInt 80) ]);
          ("accent_color"%string, JStr (str "#ff00aa"));
          ("watermark"%string, JBool true) ].

Definition a_config_env : config_env :=
  {| next_to_program := {| path_exists := true; json_load := Raise ValueError |};
     in_working_dir := {| path_exists := true; json_load := Ok a_user_config |} |}.

Definition a_loaded_config : loaded_config :=
  {| cfg := deep_update_with a_user_config _default_config;
     default_written := false |}.

(** The hexadecimal digit of a number below 16, in lower case, and the
    two digits of a number below 256. *)
Definition hex_digit (n : Z) : ascii :=
  nth (Z.to_nat n) (str "0123456789abcdef") "0"%char.

Definition hex2 (n : Z) : pystr := [hex_digit (n / 16); hex_digit (n mod 16)].

Definition is_byte (n : Z) : Prop := 0 <= n <= 255.

(** ** xpec.py, detection: the processor *)


















(** * Properties *)

(** ** The order of floats *)

Lemma fltb_Fin (a b : Q) : fltb (Fin a) (Fin b) = true <-> (a < b)%Q.
Proof.
  simpl. rewrite negb_true_iff. split; intros H.
  - apply Qnot_le_lt. intros Hle. apply Qle_bool_iff in Hle. congruence.
  - destruct (Qle_bool b a) eqn:E; [|reflexivity].
    apply Qle_bool_iff in E. exfalso. apply (Qlt_not_le _ _ H E).
Qed.

Lemma fltb_Fin_false (a b : Q) : fltb (Fin a) (Fin b) = false <-> (b <= a)%Q.
Proof.
  simpl. rewrite negb_false_iff. apply Qle_bool_iff.
Qed.

Lemma fltb_trans (x y z : pyfloat) :
  fltb x y = true -> fltb y z = true -> fltb x z = true.
Proof.
  destruct x as [a|], y as [b|], z as [c|]; simpl; try congruence.
  intros H1 H2. apply fltb_Fin. apply fltb_Fin in H1, H2.
  eapply Qlt_trans; eassumption.
Qed.

Lemma fle_flt_trans (x y z : pyfloat) :
  fltb y x = false -> fltb y z = true -> fltb x z = true.
Proof.
  destruct x as [a|], y as [b|], z as [c|]; simpl; try congruence.
  intros H1 H2. apply fltb_Fin. apply fltb_Fin in H2.
  apply fltb_Fin_false in H1. eapply Qle_lt_trans; eassumption.
Qed.

Lemma fle_trans (x y z : pyfloat) :
  fltb y x = false -> fltb z y = false -> fltb z x = false.
Proof.
  destruct x as [a|], y as [b|], z as [c|]; simpl; try congruence.
  intros H1 H2. apply fltb_Fin_false.
  apply fltb_Fin_false in H1, H2. eapply Qle_trans; eassumption.
Qed.

Lemma flt_fle (x y : pyfloat) : fltb x y = true -> fltb y x = false.
Proof.
  destruct x as [a|], y as [b|]; simpl; try congruence.
  intros H. apply fltb_Fin in H. apply fltb_Fin_false. apply Qlt_le_weak, H.
Qed.

(** ** [_choose_primary_gpu] *)

(** [max_from] returns the first element of greatest key: every element
    before it has a smaller key, no element after it has a greater one. *)
Lemma max_from_first_max {A : Type} (key : A -> pyfloat) (l : list A) :
  forall best : A,
    exists pre post : list A,
      best :: l = pre ++ max_from key best l :: post
      /\ Forall (fun x => fltb (key x) (key (max_from key best l)) = true) pre
      /\ Forall (fun x => fltb (key (max_from key best l)) (key x) = false) post
      /\ fltb (key (max_from key best l)) (key best) = false.
Proof.
  induction l as [|x l IH]; intros best; simpl.
  - exists [], []. repeat split; auto.
    destruct (key best) as [a|]; simpl; [|reflexivity].
    apply fltb_Fin_false. apply Qle_refl.
  - unfold fgtb. destruct (fltb (key best) (key x)) eqn:E.
    + destruct (IH x) as (pre & post & Heq & Hpre & Hpost & Hx).
      remember (max_from key x l) as r eqn:Er. clear Er IH.
      destruct pre as [|p pre]; simpl in Heq; injection Heq as -> ->.
      * exists [best], post. repeat split; auto using flt_fle.
      * inversion Hpre as [|? ? Hxr Hpre']; subst.
        exists (best :: p :: pre), post. repeat split; auto.
        -- constructor; [|constructor; assumption].
           eapply fltb_trans; eassumption.
        -- apply flt_fle. eapply fltb_trans; eassumption.
    + destruct (IH best) as (pre & post & Heq & Hpre & Hpost & Hb).
      remember (max_from key best l) as r eqn:Er. clear Er IH.
      destruct pre as [|p pre]; simpl in Heq; injection Heq as -> ->.
      * exists [], (x :: post). repeat split; auto.
      * inversion Hpre as [|? ? Hbr Hpre']; subst.
        exists (p :: x :: pre), post. repeat split; auto.
        constructor; [assumption|]. constructor; [|assumption].
        eapply fle_flt_trans; eassumption.
Qed.

(** C6. [_choose_primary_gpu] returns the sentinel
    [{"Model": "N/A", "VRAM": "N/A"}] on the empty list; on a non-empty
    list it returns an element of the list whose VRAM text has the
    greatest value under [_parse_gb], and among several such elements the
    first one: every element before it has a smaller value, no element
    after it has a greater one. *)
Theorem choose_primary_gpu_first_max (gpu_info : list dict) :
  (gpu_info = []
   /\ _choose_primary_gpu gpu_info
      = <["Model" := str "N/A"]> (<["VRAM" := str "N/A"]> ∅))
  \/ (exists pre post : list dict,
        gpu_info = pre ++ _choose_primary_gpu gpu_info :: post
        /\ Forall (fun g =>
             fltb (_parse_gb (dict_get g "VRAM" (str "0 GB")))
                  (_parse_gb (dict_get (_choose_primary_gpu gpu_info) "VRAM"
                                (str "0 GB"))) = true) pre
        /\ Forall (fun g =>
             fltb (_parse_gb (dict_get (_choose_primary_gpu gpu_info) "VRAM"
                                (str "0 GB")))
                  (_parse_gb (dict_get g "VRAM" (str "0 GB"))) = false) post).
Proof.
  destruct gpu_info as [|g rest].
  - left. split; reflexivity.
  - right. simpl.
    destruct (max_from_first_max gpu_key rest g) as (pre & post & Heq & H1 & H2 & _).
    exists pre, post. repeat split; assumption.
Qed.

Example choose_primary_gpu_8gb :
  _choose_primary_gpu [gpu_dict (str "A") (str "4 GB");
                       gpu_dict (str "B") (str "8 GB");
                       gpu_dict (str "C") (str "8.0 GB")]
  = gpu_dict (str "B") (str "8 GB").
Proof. vm_compute. reflexivity. Qed.

(** ** [_summarize_storage] *)

Lemma ascii_eqb_eq (a b : ascii) : ascii_eqb a b = true <-> a = b.
Proof. unfold ascii_eqb. apply Ascii.eqb_eq. Qed.

Lemma str_eqb_eq (a b : pystr) : str_eqb a b = true <-> a = b.
Proof.
  revert b. induction a as [|x a IH]; intros [|y b]; simpl; split;
    try congruence; try reflexivity.
  - intros H. apply andb_true_iff in H as [H1 H2].
    apply ascii_eqb_eq in H1. apply IH in H2. congruence.
  - intros H. injection H as -> ->. apply andb_true_iff. split.
    + apply ascii_eqb_eq. reflexivity.
    + apply IH. reflexivity.
Qed.

Lemma has_type_spec (t : pystr) (d : dict) :
  has_type t d = true <-> d !! "Type" = Some t.
Proof.
  unfold has_type. destruct (d !! "Type") as [v|]; [|split; congruence].
  rewrite str_eqb_eq. split; congruence.
Qed.

Lemma chars_of_uint_digits (u : Decimal.uint) :
  Forall (fun c => is_digit c = true) (chars_of_uint u).
Proof. induction u; simpl; constructor; auto. Qed.

Lemma str_of_nonneg_head (z : Z) :
  exists c rest, str_of_nonneg z = c :: rest /\ is_digit c = true.
Proof.
  unfold str_of_nonneg.
  pose proof (chars_of_uint_digits (N.to_uint (Z.to_N z))) as H.
  destruct (chars_of_uint (N.to_uint (Z.to_N z))) as [|c rest].
  - exists "0"%char, []. split; reflexivity.
  - exists c, rest. split; [reflexivity|]. inversion H; assumption.
Qed.

Lemma py_str_int_nat_head (n : nat) :
  exists c rest, py_str_int (Z.of_nat n) = c :: rest /\ is_digit c = true.
Proof.
  unfold py_str_int. destruct (Z.of_nat n <? 0) eqn:E.
  - apply Z.ltb_lt in E. lia.
  - apply str_of_nonneg_head.
Qed.

Lemma py_join_head (sep p : pystr) (rest : list pystr) :
  exists t, py_join sep (p :: rest) = p ++ t.
Proof.
  destruct rest as [|q rest]; simpl.
  - exists []. rewrite app_nil_r. reflexivity.
  - eexists. reflexivity.
Qed.

Lemma storage_part_head (kind : pystr) (items : list dict) :
  exists c rest, storage_part kind items = c :: rest /\ is_digit c = true.
Proof.
  unfold storage_part.
  destruct (py_str_int_nat_head (length items)) as (c & rest & -> & Hc).
  simpl. eauto.
Qed.

Lemma py_join_digit_head (sep p : pystr) (rest : list pystr) :
  (exists c t, p = c :: t /\ is_digit c = true) ->
  exists c t, py_join sep (p :: rest) = c :: t /\ is_digit c = true.
Proof.
  intros (c & t & -> & Hc).
  destruct (py_join_head sep (c :: t) rest) as (u & ->).
  simpl. eauto.
Qed.

Lemma storage_parts_head (disk_info : list dict) :
  storage_parts disk_info = []
  \/ exists c rest, py_join (str ", ") (storage_parts disk_info) = c :: rest
                    /\ is_digit c = true.
Proof.
  unfold storage_parts.
  set (ssd := filter _ disk_info). set (hdd := filter _ disk_info).
  destruct (negb (length ssd =? 0)%nat).
  - right. apply py_join_digit_head, storage_part_head.
  - destruct (negb (length hdd =? 0)%nat).
    + right. apply py_join_digit_head, storage_part_head.
    + left. reflexivity.
Qed.

Lemma filter_none {A : Type} (P : A -> Prop) `{forall x, Decision (P x)}
    (l : list A) :
  Forall (fun x => ~ P x) l -> filter P l = [].
Proof.
  induction 1 as [|x l Hx _ IH]; [reflexivity|].
  rewrite filter_cons. destruct (decide (P x)); [contradiction | exact IH].
Qed.

(** C10. [_summarize_storage] returns ["N/A"] for the empty disk list and
    for no other list; for a non-empty list in which no disk has the type
    ["SSD"] or ["HDD"] it returns the empty string. *)
Theorem summarize_storage_untyped_disks (disk_info : list dict) :
  (disk_info = [] /\ _summarize_storage disk_info = str "N/A")
  \/ (disk_info <> []
      /\ _summarize_storage disk_info <> str "N/A"
      /\ (Forall (fun d => d !! "Type" <> Some (str "SSD")
                           /\ d !! "Type" <> Some (str "HDD")) disk_info ->
          _summarize_storage disk_info = [])).
Proof.
  destruct disk_info as [|d rest].
  - left. split; reflexivity.
  - right. split; [discriminate|]. split.
    + unfold _summarize_storage.
      destruct (storage_parts_head (d :: rest)) as [-> | (c & t & -> & Hc)].
      * discriminate.
      * intros Heq. injection Heq as -> _. discriminate.
    + intros Hall. unfold _summarize_storage, storage_parts.
      rewrite !filter_none; [reflexivity | |].
      * eapply Forall_impl; [exact Hall|]. intros x [_ Hx] Ht.
        apply has_type_spec in Ht. contradiction.
      * eapply Forall_impl; [exact Hall|]. intros x [Hx _] Ht.
        apply has_type_spec in Ht. contradiction.
Qed.

(** C10 at a list of one disk of undetermined type. *)
Lemma summarize_storage_untyped_disks_witness :
  _summarize_storage [a_disk "500 GB" "N/A"] = [].
Proof.
  destruct (summarize_storage_untyped_disks [a_disk "500 GB" "N/A"])
    as [[H _] | (_ & _ & H)]; [discriminate H|].
  apply H. constructor; [|constructor].
  split; vm_compute; discriminate.
Defined.

Example summarize_storage_ssd_hdd :
  _summarize_storage [a_disk "500 GB" "SSD"; a_disk "1000 GB" "HDD"]
  = str "1x SSD (500.0 GB), 1x HDD (1000.0 GB)".
Proof. vm_compute. reflexivity. Qed.

(** ** [get_disk_info] *)

(** C2, as stated, fails: on a host whose first tier completes without
    an exception and lists no disk, the second tier is never called, and
    the third tier is called right after the first, although the second
    tier would have listed a disk. *)
Lemma disk_tier2_skipped_after_quiet_tier1 :
  run_tier tier1_item (msft_physicaldisk quiet_storage_env) [] = ([], false)
  /\ nonempty (fst (run_tier tier2_item (get_physicaldisk quiet_storage_env) []))
     = true
  /\ get_disk_info quiet_storage_env
     = ([MSFT_PhysicalDisk; Win32_DiskDrive], [])
  /\ ~ In Get_PhysicalDisk (fst (get_disk_info quiet_storage_env)).
Proof.
  repeat split; try reflexivity.
  vm_compute. intros [H|[H|[]]]; discriminate.
Qed.

(** C2, amended. The first tier is always called.  The second tier is
    called exactly when the first tier raised an exception.  The third
    tier is called exactly when no earlier tier ran to its end with a
    non-empty list: after a first tier that completed with zero disks, or
    after a first tier that raised and a second tier that raised or left
    the list empty.  The calls follow the order of the tiers, and when the
    third tier is not called the list of the last tier called is
    returned. *)
Theorem disk_tiers_fallback (env : disk_env) :
  let t1 := run_tier tier1_item (msft_physicaldisk env) [] in
  let t2 := run_tier tier2_item (get_physicaldisk env) (fst t1) in
  let calls := fst (get_disk_info env) in
  (exists rest, calls = MSFT_PhysicalDisk :: rest)
  /\ (In Get_PhysicalDisk calls <-> snd t1 = true)
  /\ (In Win32_DiskDrive calls <->
        (snd t1 = false /\ fst t1 = [])
        \/ (snd t1 = true /\ (snd t2 = true \/ fst t2 = [])))
  /\ sublist calls [MSFT_PhysicalDisk; Get_PhysicalDisk; Win32_DiskDrive]
  /\ (~ In Win32_DiskDrive calls ->
      snd (get_disk_info env) = if snd t1 then fst t2 else fst t1).
Proof.
  unfold get_disk_info, last_resort.
  destruct (run_tier tier1_item (msft_physicaldisk env) []) as [d1 r1].
  cbn [fst snd].
  destruct r1.
  - destruct (run_tier tier2_item (get_physicaldisk env) d1) as [d2 r2].
    cbn [fst snd].
    destruct r2, d2 as [|x d2]; cbn [negb andb nonempty fst snd app];
      repeat apply conj; try (eexists; reflexivity);
      try (repeat constructor; fail);
      simpl; intuition (try discriminate; auto).
  - destruct d1 as [|x d1]; cbn [negb andb nonempty fst snd app];
      repeat apply conj; try (eexists; reflexivity);
      try (repeat constructor; fail);
      simpl; intuition (try discriminate; auto).
Qed.

(** The amended C2 at a host whose first tier raises: the second tier is
    called and its disk is returned. *)
Lemma disk_tiers_fallback_witness :
  In Get_PhysicalDisk (fst (get_disk_info failing_storage_env))
  /\ ~ In Win32_DiskDrive (fst (get_disk_info failing_storage_env))
  /\ snd (get_disk_info failing_storage_env)
     = [disk_dict (str "Samsung SSD 970 EVO") (str "465.8 GB") (str "SSD")].
Proof.
  pose proof (disk_tiers_fallback failing_storage_env) as H.
  cbv zeta in H. destruct H as (_ & H2 & H3 & _ & H5).
  assert (H1 : snd (run_tier tier1_item
                      (msft_physicaldisk failing_storage_env) []) = true)
    by reflexivity.
  split; [exact (proj2 H2 H1)|].
  assert (Hn : ~ In Win32_DiskDrive (fst (get_disk_info failing_storage_env))).
  { intros H. destruct (proj1 H3 H) as [[H0 _]|[_ [H0|H0]]];
      try (apply (f_equal nonempty) in H0); vm_compute in H0; discriminate. }
  split; [exact Hn|].
  rewrite (H5 Hn). vm_compute. reflexivity.
Defined.

(** ** [get_gpu_info] *)

Lemma truthy_app_r (a b : pystr) : truthy_str b = true -> truthy_str (a ++ b) = true.
Proof. destruct a; simpl; auto. Qed.

Lemma fmt_gb_nonempty (b : pyval) (s : pystr) :
  _fmt_gb_from_bytes b = Ok s -> truthy_str s = true.
Proof.
  unfold _fmt_gb_from_bytes. destruct (py_int b) as [n|e].
  - destruct (int_truediv _ _) as [gb|e]; simpl; [|discriminate].
    intros H. injection H as <-. apply truthy_app_r. reflexivity.
  - intros H. injection H as <-. reflexivity.
Qed.

Definition vram_ok (g : gpu_entry) : Prop := truthy_str (g_vram g) = true.

Lemma nvml_loop_vram_ok (devs : list (result nvml_dev)) :
  forall acc, Forall vram_ok acc -> Forall vram_ok (nvml_loop devs acc).
Proof.
  induction devs as [|d devs IH]; intros acc Hacc; simpl; [exact Hacc|].
  destruct d as [dev|e]; simpl; [|exact Hacc].
  destruct (py_int (nv_total dev)) as [mem|e]; simpl; [|exact Hacc].
  destruct (_fmt_gb_from_bytes (PInt mem)) as [v|e] eqn:E; simpl; [|exact Hacc].
  apply IH. apply Forall_app. split; [exact Hacc|].
  constructor; [|constructor]. unfold vram_ok. simpl.
  eapply fmt_gb_nonempty, E.
Qed.

Lemma nvml_gpus_vram_ok (env : gpu_env) : Forall vram_ok (nvml_gpus_of env).
Proof.
  unfold nvml_gpus_of. destruct (nvml_devices env); [|constructor].
  apply nvml_loop_vram_ok. constructor.
Qed.

Lemma dxgi_adapter_vram_ok (a : result dxgi_desc) : Forall vram_ok (dxgi_adapter a).
Proof.
  unfold dxgi_adapter. destruct a as [desc|e]; simpl; [|constructor].
  destruct (_fmt_gb_from_bytes _) as [v|e] eqn:E; simpl; [|constructor].
  destruct (val_strip (Description desc)) as [model|e]; simpl; [|constructor].
  constructor; [|constructor]. unfold vram_ok. simpl.
  eapply fmt_gb_nonempty, E.
Qed.

Lemma dxgi_gpus_vram_ok (env : gpu_env) : Forall vram_ok (dxgi_gpus_of env).
Proof.
  unfold dxgi_gpus_of. destruct (dxgi_factory env) as [[adapters|e]|];
    try constructor.
  induction adapters as [|a adapters IH]; simpl; [constructor|].
  apply Forall_app. split; [apply dxgi_adapter_vram_ok | exact IH].
Qed.

Lemma find_vram_ok (name : pystr) (l : list gpu_entry) (g : gpu_entry) :
  Forall vram_ok l -> find (name_match name) l = Some g -> vram_ok g.
Proof.
  induction 1 as [|x l Hx _ IH]; simpl; [discriminate|].
  destruct (name_match name x); [|exact IH].
  intros H. injection H as <-. exact Hx.
Qed.

Lemma str_or_truthy (a b : pystr) : truthy_str a = true -> str_or a b = a.
Proof. unfold str_or. intros ->. reflexivity. Qed.

Lemma adapter_ram_text_truthy (gpu : video_controller) (v : pystr) :
  try_option (mem ← py_int (default PNone (vc_AdapterRAM gpu));
              _fmt_gb_from_bytes (PInt mem)) = Some v ->
  truthy_str v = true.
Proof.
  destruct (py_int _) as [mem|e]; simpl; [|discriminate].
  destruct (_fmt_gb_from_bytes (PInt mem)) as [w|e] eqn:E; simpl; [|discriminate].
  intros H. injection H as <-. eapply fmt_gb_nonempty, E.
Qed.

(** The test of the code, [g["Model"] in name or name in g["Model"]],
    holds exactly when one of the two names is a part of the other. *)
Lemma name_match_spec (name : pystr) (g : gpu_entry) :
  name_match name g = bool_decide (names_match name g).
Proof.
  unfold name_match, names_match.
  destruct (contains (g_model g) name) eqn:E1.
  - symmetry. apply bool_decide_eq_true. left. apply contains_spec, E1.
  - destruct (contains name (g_model g)) eqn:E2.
    + symmetry. apply bool_decide_eq_true. right. apply contains_spec, E2.
    + symmetry. apply bool_decide_eq_false.
      intros [H|H]; apply contains_spec in H; congruence.
Qed.

Lemma find_name_match (name : pystr) (l : list gpu_entry) :
  find (name_match name) l = find (fun g => bool_decide (names_match name g)) l.
Proof.
  induction l as [|g l IH]; simpl; [reflexivity|].
  rewrite name_match_spec, IH. reflexivity.
Qed.

Lemma contains_decide (sub s : pystr) :
  contains sub s = bool_decide (substring sub s).
Proof.
  destruct (contains sub s) eqn:E; symmetry.
  - apply bool_decide_eq_true, contains_spec, E.
  - apply bool_decide_eq_false. intros H. apply contains_spec in H. congruence.
Qed.

(** On an adapter whose name is a string or [None], the loop body of
    [get_gpu_info] appends what the merge policy says. *)
Lemma wmi_adapter_spec (nvml_gpus dxgi_gpus : list gpu_entry)
    (gpu : video_controller) :
  Forall vram_ok nvml_gpus -> Forall vram_ok dxgi_gpus ->
  name_is_text gpu ->
  wmi_adapter nvml_gpus dxgi_gpus gpu = Ok (spec_adapter nvml_gpus dxgi_gpus gpu).
Proof.
  intros Hn Hd Hname. unfold wmi_adapter, spec_adapter, name_is_text in *.
  destruct (vc_Name gpu) as [|z|name|]; try contradiction; [reflexivity|].
  cbn [truthy]. destruct name as [|c name]; [reflexivity|].
  cbn [truthy_str negb]. rewrite <- contains_decide.
  destruct (contains (str "Microsoft") (c :: name)); [reflexivity|].
  unfold spec_vram, adapter_ram_text. rewrite <- !find_name_match.
  do 2 f_equal. f_equal.
  destruct (find (name_match (c :: name)) nvml_gpus) as [g|] eqn:En.
  - pose proof (find_vram_ok _ _ _ Hn En) as Hg. unfold vram_ok in Hg.
    repeat (cbn [truthy_opt negb andb default]; rewrite ?Hg).
    apply str_or_truthy, Hg.
  - cbn [truthy_opt negb].
    destruct (find (name_match (c :: name)) dxgi_gpus) as [g|] eqn:Ed.
    + pose proof (find_vram_ok _ _ _ Hd Ed) as Hg. unfold vram_ok in Hg.
      repeat (cbn [truthy_opt negb andb default]; rewrite ?Hg).
      apply str_or_truthy, Hg.
    + cbn [truthy_opt negb andb].
      destruct (truthy (default PNone (vc_AdapterRAM gpu))); [|reflexivity].
      destruct (try_option _) as [v|] eqn:Ev; [|reflexivity].
      cbn [default]. apply str_or_truthy.
      eapply adapter_ram_text_truthy, Ev.
Qed.

Lemma collect_spec (nvml_gpus dxgi_gpus : list gpu_entry)
    (gpus : list video_controller) :
  Forall vram_ok nvml_gpus -> Forall vram_ok dxgi_gpus ->
  Forall name_is_text gpus ->
  collect (wmi_adapter nvml_gpus dxgi_gpus) gpus
  = Ok (concat (map (spec_adapter nvml_gpus dxgi_gpus) gpus)).
Proof.
  intros Hn Hd. induction 1 as [|gpu gpus Hg _ IH]; simpl; [reflexivity|].
  rewrite (wmi_adapter_spec _ _ _ Hn Hd Hg). simpl. rewrite IH. reflexivity.
Qed.

(** C4. When the WMI enumeration delivers its adapters (each name a
    string or [None]), every adapter with a name that does not contain
    ["Microsoft"] is listed with the VRAM of the first NVML entry whose
    name contains the adapter's name or is contained in it, else of the
    first such DXGI entry, else the text of its [AdapterRAM], else
    ["N/A"]; a list without any such adapter gives way to the NVML list,
    then the DXGI list.  Containment is [substring]: one text is a part
    of the other, character by character, so case matters.  When the WMI
    enumeration raises, the result is the NVML list if it is not empty,
    and the DXGI list otherwise. *)
Theorem gpu_merge_policy (env : gpu_env) :
  let nvml_gpus := nvml_gpus_of env in
  let dxgi_gpus := dxgi_gpus_of env in
  let fallback :=
    if nonempty nvml_gpus then map entry_dict nvml_gpus
    else map entry_dict dxgi_gpus in
  (forall gpus : list video_controller,
      win32_videocontroller env = Ok gpus ->
      Forall name_is_text gpus ->
      let wmi_list := concat (map (spec_adapter nvml_gpus dxgi_gpus) gpus) in
      get_gpu_info env = if nonempty wmi_list then wmi_list else fallback)
  /\ (forall e : exn,
      win32_videocontroller env = Raise e -> get_gpu_info env = fallback).
Proof.
  cbv zeta. split.
  - intros gpus Hw Hnames. unfold get_gpu_info. rewrite Hw. simpl.
    rewrite (collect_spec _ _ _ (nvml_gpus_vram_ok env) (dxgi_gpus_vram_ok env)
               Hnames).
    reflexivity.
  - intros e Hw. unfold get_gpu_info. rewrite Hw. reflexivity.
Qed.

(** C4 at a host with one NVIDIA adapter known to NVML and the basic
    render driver of Microsoft: the adapter is listed with the VRAM of
    NVML, not with its [AdapterRAM]. *)
Lemma gpu_merge_policy_witness :
  get_gpu_info rtx_env
  = [gpu_dict (str "NVIDIA GeForce RTX 3080") (str "10.0 GB")].
Proof.
  rewrite (proj1 (gpu_merge_policy rtx_env) _ eq_refl).
  - vm_compute. reflexivity.
  - repeat constructor.
Defined.

(** ** [get_system_info] *)

(** On Windows both strategies end in [except Exception]: the function
    returns whatever the host answers. *)
Lemma get_system_info_windows_returns (env : board_env) :
  is_windows env = true -> exists d, get_system_info env = Ok d.
Proof.
  intros Hw. unfold get_system_info. rewrite Hw. simpl. eauto.
Qed.

(** On Windows, a registry that raises gives way to WMI. *)
Lemma get_system_info_registry_raises :
  get_system_info wmi_only_env
  = Ok (<["OS" := str "Windows 11"]>
        (<["Motherboard" := str "ASUS ROG STRIX B550-F GAMING"]> ∅)).
Proof. vm_compute. reflexivity. Qed.

(** C3, the failing input: on a Linux host where reading
    [/sys/devices/virtual/dmi/id/board_vendor] is denied,
    [get_system_info] raises [PermissionError] instead of returning
    ["N/A"]: its [except] clause names [FileNotFoundError] only. *)
Theorem get_system_info_linux_permission_error_escapes :
  read_file denied_linux_env "/sys/devices/virtual/dmi/id/board_vendor"
  = Raise PermissionError
  /\ get_system_info denied_linux_env = Raise PermissionError.
Proof. split; reflexivity. Qed.

(** ** [_clean_cpu_model] *)

Example clean_cpu_model_intel :
  _clean_cpu_model (str "Intel(R) Core(TM) i7-9700K CPU @ 3.60GHz")
  = str "Intel Core i7-9700K @ 3.60GHz".
Proof. vm_compute. reflexivity. Qed.

Example clean_cpu_model_radeon :
  _clean_cpu_model (str "AMD Ryzen 7 5700G with radeon graphics")
  = str "AMD Ryzen 7 5700G".
Proof. vm_compute. reflexivity. Qed.

(** C8, the failing input: the name of a Core 2 Duo, padded with spaces
    as the processor reports it, keeps a run of three spaces; the one
    pass of [replace("  ", " ")] halves a run of six. *)
Theorem clean_cpu_model_keeps_double_space :
  _clean_cpu_model (str "Intel(R) Core(TM)2 Duo CPU     E8400  @ 3.00GHz")
  = str "Intel Core2 Duo   E8400 @ 3.00GHz"
  /\ contains (str "  ")
       (_clean_cpu_model (str "Intel(R) Core(TM)2 Duo CPU     E8400  @ 3.00GHz"))
     = true.
Proof. split; vm_compute; reflexivity. Qed.

(** Three spaces in, two spaces out. *)
Example clean_cpu_model_three_spaces :
  _clean_cpu_model (str "A   B") = str "A  B".
Proof. vm_compute. reflexivity. Qed.

(** ** [_summarize_ram] *)

(** C1, as stated, fails.  With two modules of 8 GB of which one has no
    determined speed, the summary still carries the size of a module and
    a speed; with two modules of different capacities it still carries
    the speed. *)
Lemma summarize_ram_detail_despite_unknown_speed :
  module_speed (ram_module "8.0 GB" "N/A") = None
  /\ _summarize_ram ram_one_speed_unknown
     = str "Total: 16.0 GB (2x8 GB) @ 3200 MHz"
  /\ _summarize_ram ram_one_speed_unknown <> str "Total: 16.0 GB (2 modules)"
  /\ feqb (capacity_of (ram_module "8.0 GB" "3200 MHz"))
          (capacity_of (ram_module "16.0 GB" "3200 MHz")) = false
  /\ _summarize_ram ram_mixed_sizes
     = str "Total: 24.0 GB (2 modules) @ 3200 MHz".
Proof.
  repeat split; try (vm_compute; reflexivity).
  vm_compute. discriminate.
Qed.

(** The elements of a Python set, for an equality that is an
    equivalence. *)
Section PySet.
Context {A : Type} (eqb : A -> A -> bool).
Hypothesis eqb_sym : forall x y, eqb x y = true -> eqb y x = true.
Hypothesis eqb_trans :
  forall x y z, eqb x y = true -> eqb y z = true -> eqb x z = true.

Lemma py_set_nonempty (l : list A) : l <> [] -> py_set eqb l <> [].
Proof using Type.
  induction l as [|x l IH]; [congruence|]. intros _. simpl.
  destruct (existsb (eqb x) l) eqn:E; [|discriminate].
  apply IH. destruct l; [discriminate | discriminate].
Qed.

Lemma py_set_all_equal (l : list A) :
  forall x, Forall (fun y => eqb y x = true) l ->
            length (py_set eqb (x :: l)) = 1%nat.
Proof using eqb_sym eqb_trans.
  induction l as [|y l IH]; intros x Hall; [reflexivity|].
  inversion Hall as [|? ? Hy Hl]; subst.
  change (py_set eqb (x :: y :: l))
    with (if existsb (eqb x) (y :: l) then py_set eqb (y :: l)
          else x :: py_set eqb (y :: l)).
  assert (E : existsb (eqb x) (y :: l) = true).
  { simpl. rewrite (eqb_sym _ _ Hy). reflexivity. }
  rewrite E. apply IH.
  eapply Forall_impl; [exact Hl|]. intros z Hz. simpl in Hz.
  eapply eqb_trans; [exact Hz | apply eqb_sym, Hy].
Qed.

Lemma py_set_one_all_equal (l : list A) :
  forall x, length (py_set eqb (x :: l)) = 1%nat ->
            Forall (fun y => eqb y x = true) l.
Proof using eqb_sym eqb_trans.
  induction l as [|y l IH]; intros x Hlen; [constructor|].
  change (py_set eqb (x :: y :: l))
    with (if existsb (eqb x) (y :: l) then py_set eqb (y :: l)
          else x :: py_set eqb (y :: l)) in Hlen.
  destruct (existsb (eqb x) (y :: l)) eqn:E.
  - pose proof (IH y Hlen) as Hl.
    apply existsb_exists in E as (z & Hz & Hxz).
    assert (Hxy : eqb x y = true).
    { destruct Hz as [<-|Hz]; [exact Hxz|].
      rewrite Forall_forall in Hl.
      eapply eqb_trans; [exact Hxz|]. apply Hl.
      apply list_elem_of_In, Hz. }
    constructor; [apply eqb_sym, Hxy|].
    eapply Forall_impl; [exact Hl|]. intros w Hw. simpl in Hw.
    eapply eqb_trans; [exact Hw | apply eqb_sym, Hxy].
  - exfalso.
    pose proof (py_set_nonempty (y :: l) ltac:(discriminate)) as Hne.
    destruct (py_set eqb (y :: l)) as [|a s]; [congruence|].
    simpl in Hlen. discriminate.
Qed.
End PySet.

Lemma forallb_true_or_witness {A : Type} (f : A -> bool) (l : list A) :
  Forall (fun x => f x = true) l \/ exists x, In x l /\ f x = false.
Proof.
  induction l as [|x l [IH|(y & Hy & Hf)]].
  - left. constructor.
  - destruct (f x) eqn:E.
    + left. constructor; assumption.
    + right. exists x. split; [left; reflexivity | exact E].
  - right. exists y. split; [right; exact Hy | exact Hf].
Qed.

Lemma forallb_Forall {A : Type} (f : A -> bool) (l : list A) :
  forallb f l = true <-> Forall (fun x => f x = true) l.
Proof.
  induction l as [|x l IH]; simpl.
  - split; [constructor | reflexivity].
  - rewrite andb_true_iff, IH. split.
    + intros [? ?]. constructor; assumption.
    + intros H. inversion H; subst. split; assumption.
Qed.

Lemma feqb_sym (x y : pyfloat) : feqb x y = true -> feqb y x = true.
Proof.
  destruct x, y; simpl; try congruence.
  rewrite !Qeq_bool_iff. intros H. symmetry. exact H.
Qed.

Lemma feqb_trans (x y z : pyfloat) :
  feqb x y = true -> feqb y z = true -> feqb x z = true.
Proof.
  destruct x, y, z; simpl; try congruence.
  rewrite !Qeq_bool_iff. intros H1 H2. rewrite H1. exact H2.
Qed.

Lemma positive_float_truthy (x : pyfloat) :
  fltb (Fin 0) x = true -> truthy_float x = true.
Proof.
  unfold truthy_float. destruct x as [q|]; [|reflexivity].
  intros H. apply fltb_Fin in H. apply negb_true_iff.
  simpl. destruct (Qeq_bool q 0) eqn:E; [|reflexivity].
  apply Qeq_bool_iff in E. rewrite E in H. exfalso.
  apply (Qlt_irrefl 0), H.
Qed.

(** The size part of the summary. *)
Lemma per_size_of_spec (mods : list dict) :
  match per_size_of mods with
  | Some sz =>
      exists m0 rest,
        mods = m0 :: rest /\ sz = capacity_of m0
        /\ fltb (Fin 0) (capacity_of m0) = true
        /\ Forall (fun m => feqb (capacity_of m) (capacity_of m0) = true) rest
  | None =>
      mods = []
      \/ (exists m, In m mods /\ fltb (Fin 0) (capacity_of m) = false)
      \/ (exists m m', In m mods /\ In m' mods
                       /\ feqb (capacity_of m) (capacity_of m') = false)
  end.
Proof.
  unfold per_size_of. destruct mods as [|m0 rest]; [left; reflexivity|].
  cbn [length Nat.eqb negb andb ram_sizes map].
  fold (ram_sizes rest). fold (capacity_of m0).
  destruct (forallb (fun x => fgtb x (Fin 0)) (capacity_of m0 :: ram_sizes rest))
    eqn:Epos.
  - destruct (length (py_set feqb (capacity_of m0 :: ram_sizes rest)) =? 1)%nat
      eqn:Eset.
    + apply Nat.eqb_eq in Eset. cbn [head].
      apply (py_set_one_all_equal feqb feqb_sym feqb_trans) in Eset.
      exists m0, rest. split; [reflexivity|]. split; [reflexivity|]. split.
      * simpl in Epos. apply andb_true_iff in Epos as [H _]. exact H.
      * unfold ram_sizes in Eset. apply Forall_map in Eset. exact Eset.
    + right. right. apply Nat.eqb_neq in Eset.
      destruct (forallb_true_or_witness
                  (fun m => feqb (capacity_of m) (capacity_of m0)) rest)
        as [Hall | (m & Hm & Hne)].
      * exfalso. apply Eset.
        apply (py_set_all_equal feqb feqb_sym feqb_trans).
        unfold ram_sizes. apply Forall_map. exact Hall.
      * exists m, m0. split; [right; exact Hm|]. split; [left; reflexivity|].
        exact Hne.
  - right. left.
    destruct (forallb_true_or_witness (fun m => fltb (Fin 0) (capacity_of m))
                (m0 :: rest)) as [Hall | Hex]; [|exact Hex].
    exfalso. apply not_true_iff_false in Epos. apply Epos.
    apply forallb_Forall.
    change (capacity_of m0 :: ram_sizes rest) with (ram_sizes (m0 :: rest)).
    unfold ram_sizes. apply Forall_map. exact Hall.
Qed.

Lemma filter_speeds_In (mods : list dict) (z : Z) :
  In z (filter_speeds (ram_speeds mods)) <->
  z <> 0 /\ exists m, In m mods /\ module_speed m = Some z.
Proof.
  unfold filter_speeds, ram_speeds.
  induction mods as [|m mods IH]; simpl.
  - split; [intros [] | intros (_ & m & [] & _)].
  - fold (module_speed m).
    destruct (module_speed m) as [s|] eqn:Es.
    + destruct (s =? 0) eqn:E0.
      * apply Z.eqb_eq in E0. subst s. rewrite IH. split.
        -- intros (Hz & m' & Hm' & Hs). split; [exact Hz|].
           exists m'. split; [right; exact Hm' | exact Hs].
        -- intros (Hz & m' & [<-|Hm'] & Hs).
           ++ rewrite Es in Hs. injection Hs as <-. congruence.
           ++ split; [exact Hz|]. exists m'. split; assumption.
      * apply Z.eqb_neq in E0. simpl. rewrite IH. split.
        -- intros [<-|(Hz & m' & Hm' & Hs)].
           ++ split; [exact E0|]. exists m. split; [left; reflexivity|exact Es].
           ++ split; [exact Hz|]. exists m'. split; [right; exact Hm'|exact Hs].
        -- intros (Hz & m' & [<-|Hm'] & Hs).
           ++ rewrite Es in Hs. injection Hs as <-. left. reflexivity.
           ++ right. split; [exact Hz|]. exists m'. split; assumption.
    + rewrite IH. split.
      * intros (Hz & m' & Hm' & Hs). split; [exact Hz|].
        exists m'. split; [right; exact Hm' | exact Hs].
      * intros (Hz & m' & [<-|Hm'] & Hs).
        -- rewrite Es in Hs. discriminate.
        -- split; [exact Hz|]. exists m'. split; assumption.
Qed.

Lemma Zeqb_sym (x y : Z) : (x =? y) = true -> (y =? x) = true.
Proof. rewrite !Z.eqb_eq. congruence. Qed.

Lemma Zeqb_trans (x y z : Z) :
  (x =? y) = true -> (y =? z) = true -> (x =? z) = true.
Proof. rewrite !Z.eqb_eq. congruence. Qed.

(** The speed part of the summary. *)
Lemma uniq_speed_of_spec (mods : list dict) :
  match uniq_speed_of mods with
  | Some s =>
      s <> 0
      /\ (exists m, In m mods /\ module_speed m = Some s)
      /\ (forall m z, In m mods -> module_speed m = Some z -> z = 0 \/ z = s)
  | None =>
      (forall m, In m mods -> ~ speed_determined m)
      \/ (exists m m' z z', In m mods /\ In m' mods
            /\ module_speed m = Some z /\ module_speed m' = Some z'
            /\ z <> 0 /\ z' <> 0 /\ z <> z')
  end.
Proof.
  unfold uniq_speed_of.
  pose proof (filter_speeds_In mods) as Hin.
  destruct (filter_speeds (ram_speeds mods)) as [|s rest].
  - left. intros m Hm (z & Hz & Hnz).
    destruct (proj2 (Hin z)) as []. split; [exact Hnz|]. exists m. auto.
  - cbn [length Nat.eqb negb andb head].
    destruct (length (py_set Z.eqb (s :: rest)) =? 1)%nat eqn:Eset.
    + apply Nat.eqb_eq in Eset.
      apply (py_set_one_all_equal Z.eqb Zeqb_sym Zeqb_trans) in Eset.
      destruct (proj1 (Hin s) (or_introl eq_refl)) as (Hs & Hm).
      split; [exact Hs|]. split; [exact Hm|].
      intros m z Hmin Hz. destruct (Z.eq_dec z 0) as [->|Hnz]; [left; reflexivity|].
      right. assert (Hzin : In z (s :: rest)).
      { apply Hin. split; [exact Hnz|]. exists m. split; assumption. }
      destruct Hzin as [->|Hzin]; [reflexivity|].
      rewrite Forall_forall in Eset.
      apply Z.eqb_eq. apply Eset. apply list_elem_of_In, Hzin.
    + right. apply Nat.eqb_neq in Eset.
      destruct (forallb_true_or_witness (fun y => y =? s) rest)
        as [Hall | (z & Hz & Hne)].
      * exfalso. apply Eset.
        apply (py_set_all_equal Z.eqb Zeqb_sym Zeqb_trans). exact Hall.
      * apply Z.eqb_neq in Hne.
        destruct (proj1 (Hin s) (or_introl eq_refl)) as (Hs & m & Hm & Hms).
        destruct (proj1 (Hin z) (or_intror Hz)) as (Hznz & m' & Hm' & Hmz).
        exists m', m, z, s. repeat split; assumption.
Qed.

(** C1, amended.  The summary is ["Total: <total>"], followed by a part
    on the sizes and a part on the speed, joined by spaces.  The size of
    a module is shown exactly when there is a module, every capacity is
    positive and all capacities are equal, whatever the speeds are; any
    other non-empty list gets the plain count of modules.  The speed is
    shown exactly when some module has a determined speed and all the
    determined speeds are equal: modules without a determined speed are
    passed over, and the capacities play no part. *)
Theorem summarize_ram_parts (r : ram_info) :
  exists size_part speed_part : list pystr,
    _summarize_ram r
    = py_join (str " ")
        ([str "Total: " ++ default (str "N/A") (total_ram r)]
         ++ size_part ++ speed_part)
    /\ size_spec (default [] (modules r)) size_part
    /\ speed_spec (default [] (modules r)) speed_part.
Proof.
  unfold _summarize_ram, ram_parts.
  set (mods := default [] (modules r)).
  pose proof (per_size_of_spec mods) as Hsize.
  pose proof (uniq_speed_of_spec mods) as Hspeed.
  eexists. eexists. split; [reflexivity|]. split.
  - unfold size_spec. destruct (per_size_of mods) as [sz|].
    + destruct Hsize as (m0 & rest & Hmods & -> & Hpos & Hall).
      right. left. exists m0, rest. rewrite Hmods.
      cbn [length Nat.eqb negb]. rewrite (positive_float_truthy _ Hpos).
      repeat split; try assumption.
    + destruct Hsize as [Hnil | Hbad].
      * left. rewrite Hnil. split; reflexivity.
      * right. right. split; [exact Hbad|].
        destruct mods as [|m0 rest]; [|reflexivity].
        exfalso. destruct Hbad as [(m & [] & _) | (m & _ & [] & _)].
  - unfold speed_spec. destruct (uniq_speed_of mods) as [s|].
    + destruct Hspeed as (Hs & Hex & Hall). left. exists s.
      split; [exact Hs|]. split; [exact Hex|]. split; [exact Hall|].
      apply Z.eqb_neq in Hs. rewrite Hs. reflexivity.
    + right. split; [exact Hspeed | reflexivity].
Qed.

(** The amended C1 at the two examples: same sizes and one unknown
    speed; different sizes. *)
Lemma summarize_ram_parts_witness :
  exists size_part speed_part : list pystr,
    _summarize_ram ram_one_speed_unknown
    = py_join (str " ") ([str "Total: 16.0 GB"] ++ size_part ++ speed_part)
    /\ size_spec (default [] (modules ram_one_speed_unknown)) size_part
    /\ speed_spec (default [] (modules ram_one_speed_unknown)) speed_part.
Proof. exact (summarize_ram_parts ram_one_speed_unknown). Defined.

(** ** The matcher and the texts of a pattern *)

Lemma m_star_sound {R : Type} (p : ascii -> bool) (s : pystr)
    (cap : option pystr) (k : pystr -> option pystr -> option R) (x : R) :
  m_star p s cap k = Some x ->
  exists t rest, s = t ++ rest /\ Forall (fun c => p c = true) t
                 /\ k rest cap = Some x.
Proof.
  induction s as [|c s IH]; simpl.
  - intros H. exists [], []. auto.
  - destruct (p c) eqn:Ep.
    + destruct (m_star p s cap k) as [y|] eqn:E.
      * intros H. injection H as ->.
        destruct (IH eq_refl) as (t & rest & -> & Ht & Hk).
        exists (c :: t), rest. auto.
      * intros H. exists [], (c :: s). auto.
    + intros H. exists [], (c :: s). auto.
Qed.

Lemma take_app_diff {A : Type} (t rest : list A) :
  take (length (t ++ rest) - length rest) (t ++ rest) = t.
Proof.
  rewrite length_app. replace (length t + length rest - length rest)%nat
    with (length t) by lia.
  apply take_app_length.
Qed.

(** Whatever the matcher finds is a text of the pattern. *)
Lemma m_sound {R : Type} (r : regex) :
  forall (s : pystr) (cap : option pystr)
         (k : pystr -> option pystr -> option R) (x : R),
    m r s cap k = Some x ->
    exists t rest cap',
      s = t ++ rest /\ Matches r t rest cap cap' /\ k rest cap' = Some x.
Proof.
  induction r as [p| |r1 IH1 r2 IH2|r IH|p|r IH|]; intros s cap k x; simpl.
  - destruct s as [|c s]; [discriminate|].
    destruct (p c) eqn:Ep; [|discriminate].
    intros H. exists [c], s, cap. repeat split; auto. constructor. exact Ep.
  - intros H. exists [], s, cap. repeat split; auto. constructor.
  - intros H. apply IH1 in H as (t1 & rest1 & cap1 & -> & H1 & H).
    apply IH2 in H as (t2 & rest & cap2 & -> & H2 & H).
    exists (t1 ++ t2), rest, cap2. rewrite <- app_assoc.
    repeat split; auto. econstructor; eassumption.
  - destruct (m r s cap k) as [y|] eqn:E.
    + intros H. injection H as ->.
      apply IH in E as (t & rest & cap' & -> & H1 & H).
      exists t, rest, cap'. repeat split; auto. apply M_OptSome, H1.
    + intros H. exists [], s, cap. repeat split; auto. apply M_OptNone.
  - intros H. apply m_star_sound in H as (t & rest & -> & Ht & H).
    exists t, rest, cap. repeat split; auto. constructor. exact Ht.
  - intros H. apply IH in H as (t & rest & cap' & -> & H1 & H).
    rewrite take_app_diff in H.
    exists t, rest, (Some t). repeat split; auto. econstructor. exact H1.
  - destruct (at_eos s) eqn:E; [|discriminate].
    intros H. exists [], s, cap. repeat split; auto. constructor. exact E.
Qed.

(** A greedy repetition stops at the first character outside the
    class, when the continuation accepts there. *)
Definition stops (p : ascii -> bool) (rest : pystr) : Prop :=
  match rest with
  | [] => True
  | c :: _ => p c = false
  end.

Lemma m_star_greedy {R : Type} (p : ascii -> bool) (t rest : pystr)
    (cap : option pystr) (k : pystr -> option pystr -> option R) (x : R) :
  Forall (fun c => p c = true) t -> stops p rest ->
  k rest cap = Some x ->
  m_star p (t ++ rest) cap k = Some x.
Proof.
  intros Ht Hstop Hk. induction Ht as [|c t Hc _ IH]; simpl.
  - destruct rest as [|c rest]; simpl; [exact Hk|].
    simpl in Hstop. rewrite Hstop. exact Hk.
  - rewrite Hc, IH. reflexivity.
Qed.

Lemma m_plus_greedy {R : Type} (p : ascii -> bool) (t rest : pystr)
    (cap : option pystr) (k : pystr -> option pystr -> option R) (x : R) :
  t <> [] -> Forall (fun c => p c = true) t -> stops p rest ->
  k rest cap = Some x ->
  m (Plus p) (t ++ rest) cap k = Some x.
Proof.
  intros Hne Ht Hstop Hk. destruct t as [|c t]; [congruence|].
  inversion Ht as [|? ? Hc Ht']; subst. simpl. rewrite Hc.
  apply m_star_greedy; assumption.
Qed.

(** Searching: the first position with a match. *)
Lemma re_search_unfold (r : regex) (s : pystr) :
  re_search r s
  = match match_here r s with
    | Some x => Some x
    | None => match s with [] => None | _ :: s' => re_search r s' end
    end.
Proof. destruct s; reflexivity. Qed.

Lemma re_search_first (r : regex) (x : pystr * option pystr) :
  forall (i : nat) (s : pystr),
    (forall j, (j < i)%nat -> match_here r (drop j s) = None) ->
    match_here r (drop i s) = Some x ->
    re_search r s = Some x.
Proof.
  induction i as [|i IH]; intros s Hbefore Hat.
  - rewrite drop_0 in Hat. rewrite re_search_unfold, Hat. reflexivity.
  - pose proof (Hbefore 0%nat ltac:(lia)) as H0. rewrite drop_0 in H0.
    rewrite re_search_unfold, H0. destruct s as [|c s].
    + rewrite drop_nil in Hat. congruence.
    + apply IH.
      * intros j Hj. apply (Hbefore (S j)). lia.
      * exact Hat.
Qed.

Lemma re_search_none (r : regex) (s : pystr) :
  (forall j, match_here r (drop j s) = None) -> re_search r s = None.
Proof.
  induction s as [|c s IH]; intros H;
    pose proof (H 0%nat) as H0; rewrite drop_0 in H0;
    rewrite re_search_unfold, H0; [reflexivity|].
  apply IH. intros j. apply (H (S j)).
Qed.

(** ** [_parse_gb] *)

Lemma Lit_GB :
  Lit true (str "GB")
  = Seq (CC (ci_eqb "G"%char)) (Seq (CC (ci_eqb "B"%char)) Eps).
Proof. reflexivity. Qed.

Lemma Matches_plus_digits (p : ascii -> bool) t rest cap cap' :
  Matches (Plus p) t rest cap cap' ->
  cap' = cap /\ t <> [] /\ Forall (fun c => p c = true) t.
Proof.
  unfold Plus. intros H. inv H.
  match goal with H : Matches (CC _) _ _ _ _ |- _ => inv H end.
  match goal with H : Matches (Star _) _ _ _ _ |- _ => inv H end.
  split; [reflexivity|]. split; [discriminate|].
  constructor; assumption.
Qed.

(** A match of the pattern of [_parse_gb] at the head of a text: a
    decimal number, white space, the token GB. *)
Lemma gb_match_sound (t rest : pystr) (cap : option pystr) :
  match_here gb_re t = Some (rest, cap) ->
  exists num ws g,
    t = num ++ ws ++ g ++ rest /\ cap = Some num
    /\ is_decimal num /\ Forall (fun c => is_space c = true) ws /\ gb_token g.
Proof.
  unfold match_here. intros H.
  apply m_sound in H as (t1 & rest1 & cap1 & -> & HM & Hk).
  injection Hk as -> ->.
  unfold gb_re in HM. rewrite Lit_GB in HM.
  inv HM.
  match goal with H : Matches (Grp _) _ _ _ _ |- _ => inv H end.
  match goal with H : Matches (Seq (Star _) _) _ _ _ _ |- _ => inv H end.
  match goal with H : Matches (Star _) _ _ _ _ |- _ => inv H end.
  match goal with H : Matches (Seq (CC _) (Seq _ _)) _ _ _ _ |- _ => inv H end.
  match goal with H : Matches (Seq (CC _) Eps) _ _ _ _ |- _ => inv H end.
  repeat match goal with H : Matches (CC _) _ _ _ _ |- _ => inv H end.
  match goal with H : Matches Eps _ _ _ _ |- _ => inv H end.
  match goal with H : Matches (Seq (Plus _) _) _ _ _ _ |- _ => inv H end.
  match goal with H : Matches (Plus _) _ _ _ _ |- _ =>
    apply Matches_plus_digits in H as (-> & Hne & Hds) end.
  match goal with H : Matches (Opt _) ?t _ _ _ |- _ => rename t into frac; inv H end.
  - (* digits, a point, digits *)
    match goal with H : Matches (Seq (CC _) _) _ _ _ _ |- _ => inv H end.
    match goal with H : Matches (CC _) _ _ _ _ |- _ => inv H end.
    match goal with H : Matches (Plus _) _ _ _ _ |- _ =>
      apply Matches_plus_digits in H as (_ & Hne2 & Hds2) end.
    match goal with H : ascii_eqb dot ?c = true |- _ =>
      apply ascii_eqb_eq in H; subst c end.
    match goal with
    | |- exists num ws g, ((?n ++ ?f) ++ ?w ++ [?a] ++ [?b] ++ []) ++ _ = _ /\ _ =>
        exists (n ++ f), w, [a; b]
    end.
    split; [rewrite <- !app_assoc; reflexivity|].
    split; [reflexivity|]. split; [|split; [assumption|]].
    + right. eexists _, _. split; [reflexivity|]. split; split; assumption.
    + eexists _, _. split; [reflexivity|]. split; assumption.
  - (* digits only *)
    match goal with
    | |- exists num ws g, ((?n ++ ?f) ++ ?w ++ [?a] ++ [?b] ++ []) ++ _ = _ /\ _ =>
        exists (n ++ f), w, [a; b]
    end.
    split; [rewrite <- !app_assoc; reflexivity|].
    split; [reflexivity|]. split; [|split; [assumption|]].
    + left. rewrite app_nil_r. split; assumption.
    + eexists _, _. split; [reflexivity|]. split; assumption.
Qed.

Lemma space_not_digit (c : ascii) : is_space c = true -> is_digit c = false.
Proof.
  destruct c as [[|] [|] [|] [|] [|] [|] [|] [|]]; vm_compute; congruence.
Qed.

Lemma space_not_dot (c : ascii) : is_space c = true -> ascii_eqb dot c = false.
Proof.
  destruct c as [[|] [|] [|] [|] [|] [|] [|] [|]]; vm_compute; congruence.
Qed.

Lemma g_plain (a : ascii) :
  ci_eqb "G"%char a = true ->
  is_digit a = false /\ is_space a = false /\ ascii_eqb dot a = false.
Proof.
  destruct a as [[|] [|] [|] [|] [|] [|] [|] [|]]; vm_compute;
    intros H; try discriminate H; auto.
Qed.

Lemma m_Seq {R : Type} r1 r2 s cap (k : pystr -> option pystr -> option R) :
  m (Seq r1 r2) s cap k = m r1 s cap (fun s1 cap1 => m r2 s1 cap1 k).
Proof. reflexivity. Qed.

Lemma m_Grp {R : Type} r s cap (k : pystr -> option pystr -> option R) :
  m (Grp r) s cap k
  = m r s cap (fun s1 _ => k s1 (Some (take (length s - length s1) s))).
Proof. reflexivity. Qed.

Lemma m_Opt {R : Type} r s cap (k : pystr -> option pystr -> option R) :
  m (Opt r) s cap k
  = match m r s cap k with Some x => Some x | None => k s cap end.
Proof. reflexivity. Qed.

Lemma m_CC_cons {R : Type} p c s cap (k : pystr -> option pystr -> option R) :
  m (CC p) (c :: s) cap k = if p c then k s cap else None.
Proof. reflexivity. Qed.

(** What follows a number before GB starts with a character that is
    neither a digit nor a point. *)
Lemma gb_tail_head (ws g post : pystr) :
  Forall (fun c => is_space c = true) ws -> gb_token g ->
  exists c r, ws ++ g ++ post = c :: r
              /\ is_digit c = false /\ ascii_eqb dot c = false.
Proof.
  intros Hws (a & b & -> & Ha & Hb). destruct Hws as [|c ws Hc _].
  - exists a, (b :: post). destruct (g_plain a Ha) as (? & ? & ?). auto.
  - exists c, (ws ++ [a; b] ++ post).
    auto using space_not_digit, space_not_dot.
Qed.

Lemma gb_tail_match {R : Type} (ws g post : pystr) (cap : option pystr)
    (k : pystr -> option pystr -> option R) (x : R) :
  Forall (fun c => is_space c = true) ws -> gb_token g ->
  k post cap = Some x ->
  m (Seq (Star is_space) (Lit true (str "GB"))) (ws ++ g ++ post) cap k = Some x.
Proof.
  intros Hws (a & b & -> & Ha & Hb) Hk. rewrite m_Seq.
  change (m (Star is_space)) with (m_star (R:=R) is_space).
  apply m_star_greedy; [exact Hws | |].
  - simpl. apply (g_plain a Ha).
  - rewrite Lit_GB. simpl. rewrite Ha, Hb. exact Hk.
Qed.

(** A decimal number before GB at the head of a text is matched, and is
    the group. *)
Lemma gb_match_complete (num ws g post : pystr) :
  is_decimal num -> Forall (fun c => is_space c = true) ws -> gb_token g ->
  match_here gb_re (num ++ ws ++ g ++ post) = Some (post, Some num).
Proof.
  intros Hnum Hws Hg. unfold match_here, gb_re.
  destruct (gb_tail_head ws g post Hws Hg) as (c & r & Hhead & Hc & Hdot).
  rewrite m_Seq, m_Grp, m_Seq.
  destruct Hnum as [[Hne Hds] | (ip & fp & -> & [Hne Hds] & [Hne2 Hds2])].
  - apply m_plus_greedy; [exact Hne | exact Hds | |].
    + rewrite Hhead. exact Hc.
    + rewrite m_Opt, m_Seq. rewrite Hhead at 1. rewrite m_CC_cons, Hdot.
      rewrite take_app_diff.
      apply gb_tail_match; auto.
  - rewrite <- app_assoc.
    apply m_plus_greedy; [exact Hne | exact Hds | reflexivity |].
    rewrite m_Opt, m_Seq.
    change ((dot :: fp) ++ ws ++ g ++ post) with (dot :: (fp ++ ws ++ g ++ post)).
    rewrite m_CC_cons. change (ascii_eqb dot dot) with true. cbv iota.
    rewrite (m_plus_greedy is_digit fp (ws ++ g ++ post) None _
               (post, Some (ip ++ dot :: fp))); [reflexivity| | | |]; auto.
    + rewrite Hhead. exact Hc.
    + replace (ip ++ dot :: fp ++ ws ++ g ++ post)
        with ((ip ++ dot :: fp) ++ ws ++ g ++ post)
        by (rewrite <- app_assoc; reflexivity).
      rewrite take_app_diff. apply gb_tail_match; auto.
Qed.

Lemma is_decimal_nonempty (t : pystr) : is_decimal t -> t <> [].
Proof.
  intros [[H _] | (ip & fp & -> & _ & _)]; [exact H|].
  destruct ip; discriminate.
Qed.

Lemma gb_no_match_before (s : pystr) (j : nat) :
  (forall num', ~ number_before_gb s j num') ->
  match_here gb_re (drop j s) = None.
Proof.
  intros Hno. destruct (match_here gb_re (drop j s)) as [[rest cap]|] eqn:E;
    [|reflexivity].
  apply gb_match_sound in E as (num & ws & g & Hs & _ & Hnum & Hws & Hg).
  exfalso. apply (Hno num). exists ws, g, rest. auto.
Qed.

(** C9. [_parse_gb] returns the value of the first decimal number that
    stands immediately before a GB token (in either case, white space
    allowed in between), and 0.0 when the text has no such number. *)
Theorem parse_gb_first_number :
  (forall (s : pystr) (i : nat) (num : pystr),
      number_before_gb s i num ->
      (forall j num', (j < i)%nat -> ~ number_before_gb s j num') ->
      _parse_gb s = py_float num)
  /\ (forall s : pystr,
      (forall i num, ~ number_before_gb s i num) -> _parse_gb s = Fin 0)
  /\ _parse_gb (str "512 GB") = Fin 512
  /\ _parse_gb (str "N/A") = Fin 0
  /\ _parse_gb (str "1.5GB") = Fin (3 # 2).
Proof.
  split; [|split; [|repeat split; vm_compute; reflexivity]].
  - intros s i num (ws & g & post & Hs & Hnum & Hws & Hg) Hfirst.
    assert (Hsearch : re_search gb_re s = Some (post, Some num)).
    { apply (re_search_first gb_re _ i).
      - intros j Hj. apply gb_no_match_before. intros num'. apply Hfirst, Hj.
      - rewrite Hs. apply gb_match_complete; assumption. }
    unfold _parse_gb. rewrite Hsearch.
    destruct s as [|c s]; [|reflexivity].
    exfalso. rewrite drop_nil in Hs.
    apply (is_decimal_nonempty num Hnum).
    destruct num; [reflexivity | discriminate].
  - intros s Hno. unfold _parse_gb.
    rewrite (re_search_none gb_re s).
    + destruct (negb (truthy_str s)); reflexivity.
    + intros j. apply gb_no_match_before. intros num'. apply Hno.
Qed.

(** C9 at a text with a number before GB at its head. *)
Lemma parse_gb_first_number_witness :
  _parse_gb (str "512 GB free") = Fin 512.
Proof.
  rewrite (proj1 parse_gb_first_number (str "512 GB free") 0%nat (str "512")).
  - vm_compute. reflexivity.
  - exists (str " "), (str "GB"), (str " free").
    split; [reflexivity|]. split; [|split].
    + left. split; [discriminate|]. repeat constructor.
    + repeat constructor.
    + exists "G"%char, "B"%char. repeat split.
  - intros j num' Hj. lia.
Defined.

(** ** Stripping *)

Lemma lstrip_snoc (l : pystr) (c : ascii) :
  is_space c = false -> exists l', lstrip (l ++ [c]) = l' ++ [c].
Proof.
  intros Hc. induction l as [|x l IH]; simpl.
  - rewrite Hc. exists []. reflexivity.
  - destruct (is_space x); [exact IH|]. exists (x :: l). reflexivity.
Qed.

Lemma rstrip_head (c : ascii) (t : pystr) :
  is_space c = false -> exists t', rstrip (c :: t) = c :: t'.
Proof.
  intros Hc. unfold rstrip. simpl rev.
  destruct (lstrip_snoc (rev t) c Hc) as (l' & ->).
  rewrite rev_app_distr. simpl. eauto.
Qed.

Lemma py_strip_head (c : ascii) (t : pystr) :
  is_space c = false -> exists t', py_strip (c :: t) = c :: t'.
Proof.
  intros Hc. unfold py_strip. simpl. rewrite Hc. apply rstrip_head, Hc.
Qed.

Lemma lstrip_head (s : pystr) (c : ascii) (t : pystr) :
  lstrip s = c :: t -> is_space c = false.
Proof.
  induction s as [|x s IH]; simpl; [discriminate|].
  destruct (is_space x) eqn:E; [exact IH|].
  intros H. injection H as <- _. exact E.
Qed.

Lemma py_strip_result_head (s : pystr) (c : ascii) (t : pystr) :
  py_strip s = c :: t -> is_space c = false.
Proof.
  unfold py_strip. destruct (lstrip s) as [|x u] eqn:E.
  - discriminate.
  - pose proof (lstrip_head _ _ _ E) as Hx.
    destruct (rstrip_head x u Hx) as (t' & ->).
    intros H. injection H as <- _. exact Hx.
Qed.

(** The short vendor name is never empty and starts with a visible
    character. *)
Lemma short_vendor_head (name : pystr) :
  exists c t, _short_vendor name = c :: t /\ is_space c = false.
Proof.
  unfold _short_vendor.
  repeat match goal with
         | |- context [if ?b then _ else _] =>
             destruct b; [eexists _, _; split; reflexivity|]
         end.
  unfold str_or. destruct (py_strip name) as [|c t] eqn:E; simpl.
  - eexists _, _. split; reflexivity.
  - exists c, t. split; [reflexivity|]. eapply py_strip_result_head, E.
Qed.

Lemma mobo_name_truthy (vendor rest : pystr) :
  (exists c t, vendor = c :: t /\ is_space c = false) ->
  truthy_str (py_strip (vendor ++ rest)) = true.
Proof.
  intros (c & t & -> & Hc). simpl app.
  destruct (py_strip_head c (t ++ rest) Hc) as (t' & ->). reflexivity.
Qed.

(** ** The motherboard name *)

Lemma in_tokens_In (tokens : list pystr) (s : pystr) :
  in_tokens tokens s = true <-> In s tokens.
Proof.
  unfold in_tokens. rewrite existsb_exists. split.
  - intros (t & Ht & Heq). apply str_eqb_eq in Heq. subst. exact Ht.
  - intros H. exists s. split; [exact H | apply str_eqb_eq; reflexivity].
Qed.

Lemma str_or_nil (a : pystr) : str_or a [] = a.
Proof. destruct a; reflexivity. Qed.

Lemma product_pretty_placeholder (product : pystr) (sysprod : option pystr) :
  placeholder_or_empty product ->
  product_pretty_of product sysprod = re_sub_empty ms_re (default [] sysprod).
Proof.
  intros Hp. unfold product_pretty_of.
  assert (Hc : truthy_str product
               && negb (in_tokens bad_tokens (py_upper product)) = false).
  { destruct Hp as [-> | Hin]; [reflexivity|].
    apply in_tokens_In in Hin. rewrite Hin. apply andb_false_r. }
  rewrite Hc, str_or_nil. destruct (default [] sysprod); reflexivity.
Qed.

Lemma bind_Ok {A B : Type} (a : A) (f : A -> result B) : (Ok a ≫= f) = f a.
Proof. reflexivity. Qed.

Lemma registry_strategy_placeholder (env : board_env) (key : bios_key)
    (m0 p0 : pyval) (manu product : pystr) :
  open_bios_key env = Ok key ->
  BaseBoardManufacturer key = Ok m0 -> or_empty_strip m0 = Ok manu ->
  BaseBoardProduct key = Ok p0 -> or_empty_strip p0 = Ok product ->
  placeholder_or_empty product ->
  manu <> [] \/ product <> [] ->
  exists st,
    registry_strategy env mobo_init = Ok st
    /\ mobo_name st
       = Some (py_strip
                 (_short_vendor manu ++ str " "
                  ++ re_sub_empty ms_re
                       (default []
                          (try_option (v ← SystemProductName key;
                                       or_empty_strip v))))).
Proof.
  intros Hkey Hm0 Hmanu Hp0 Hproduct Hph Hsome.
  unfold registry_strategy.
  rewrite Hkey, bind_Ok, Hm0, bind_Ok, Hmanu, bind_Ok, Hp0, bind_Ok, Hproduct,
    bind_Ok.
  assert (Ht : truthy_str manu || truthy_str product = true).
  { destruct Hsome as [H|H]; [destruct manu | destruct product];
      try congruence; simpl; auto using orb_true_r. }
  rewrite Ht. eexists. split; [reflexivity|]. cbn [mobo_name].
  rewrite (product_pretty_placeholder _ _ Hph). reflexivity.
Qed.

Lemma windows_board_registry (env : board_env) (st : mobo_state)
    (name : pystr) :
  registry_strategy env mobo_init = Ok st ->
  mobo_name st = Some name ->
  truthy_str name = true ->
  windows_board env = st.
Proof.
  intros Hreg Hname Htruthy. unfold windows_board. rewrite Hreg.
  cbv beta iota zeta. rewrite Hname. cbn [default from_option id]. rewrite Htruthy.
  reflexivity.
Qed.

Lemma get_system_info_registry_name (env : board_env) (st : mobo_state)
    (name : pystr) :
  is_windows env = true ->
  registry_strategy env mobo_init = Ok st ->
  mobo_name st = Some name ->
  truthy_str name = true ->
  exists d, get_system_info env = Ok d /\ d !! "Motherboard" = Some name.
Proof.
  intros Hw Hreg Hname Htruthy.
  unfold get_system_info.
  rewrite Hw, (windows_board_registry env st name Hreg Hname Htruthy).
  rewrite bind_Ok. eexists. split; [reflexivity|].
  rewrite lookup_insert_ne by discriminate.
  unfold or_na. rewrite Hname. cbn [default from_option id].
  rewrite (str_or_truthy _ _ Htruthy).
  destruct (debug env).
  - unfold windows_debug_fields.
    rewrite !lookup_insert_ne by discriminate.
    apply lookup_insert_eq.
  - apply lookup_insert_eq.
Qed.

(** ** The chipset code *)

Lemma Lit_MS :
  Lit true (str "(MS-")
  = Seq (CC (ci_eqb "("%char))
      (Seq (CC (ci_eqb "M"%char))
         (Seq (CC (ci_eqb "S"%char)) (Seq (CC (ci_eqb "-"%char)) Eps))).
Proof. reflexivity. Qed.

Lemma at_eos_cases (rest : pystr) :
  at_eos rest = true -> rest = [] \/ exists nl, rest = [nl] /\ code nl = 10%N.
Proof.
  destruct rest as [|c [|d rest]]; simpl; intros H; try discriminate.
  - left. reflexivity.
  - right. exists c. split; [reflexivity|]. apply N.eqb_eq, H.
Qed.

(** A match of the pattern of the chipset code at the head of a text. *)
Lemma ms_match_sound (t rest : pystr) (cap : option pystr) :
  match_here ms_re t = Some (rest, cap) ->
  exists ws o m_ s_ d_ hex cp,
    t = ws ++ [o; m_; s_] ++ [d_] ++ hex ++ [cp] ++ rest
    /\ Forall (fun c => is_space c = true) ws
    /\ ci_eqb "-"%char d_ = true
    /\ Forall (fun c => is_hex_ci c = true) hex
    /\ ascii_eqb ")"%char cp = true
    /\ at_eos rest = true.
Proof.
  unfold match_here. intros H.
  apply m_sound in H as (t1 & rest1 & cap1 & -> & HM & Hk).
  injection Hk as -> ->.
  unfold ms_re in HM. rewrite Lit_MS in HM.
  inv HM.
  match goal with H : Matches (Star _) _ _ _ _ |- _ => inv H end.
  match goal with H : Matches (Seq (Seq _ _) _) _ _ _ _ |- _ => inv H end.
  match goal with H : Matches (Seq (Plus _) _) _ _ _ _ |- _ => inv H end.
  match goal with H : Matches (Plus _) _ _ _ _ |- _ =>
    apply Matches_plus_digits in H as (-> & Hne & Hhex) end.
  match goal with H : Matches (Seq (CC (ascii_eqb _)) Eos) _ _ _ _ |- _ => inv H end.
  match goal with H : Matches Eos _ _ _ _ |- _ => inv H end.
  repeat match goal with H : Matches (Seq (CC _) _) _ _ _ _ |- _ => inv H end.
  repeat match goal with H : Matches (CC _) _ _ _ _ |- _ => inv H end.
  match goal with H : Matches Eps _ _ _ _ |- _ => inv H end.
  match goal with
  | |- exists ws o m_ s_ d_ hex cp,
        (?w ++ ([?x1] ++ [?x2] ++ [?x3] ++ [?x4] ++ []) ++ ?h ++ [?x5] ++ []) ++ _ = _ /\ _ =>
      exists w, x1, x2, x3, x4, h, x5
  end.
  split; [rewrite <- !app_assoc; reflexivity|]. auto.
Qed.

Lemma paren_not_space_hex :
  is_space "("%char = false /\ is_hex_ci ")"%char = false.
Proof. split; reflexivity. Qed.

(** The chipset code, with the white space before it, is matched up to
    the end of the text. *)
Lemma ms_match_complete (ws hex : pystr) :
  Forall (fun c => is_space c = true) ws ->
  hex <> [] -> Forall (fun c => is_hex_ci c = true) hex ->
  match_here ms_re (ws ++ str "(MS-" ++ hex ++ str ")") = Some ([], None).
Proof.
  intros Hws Hne Hhex. unfold match_here, ms_re. rewrite m_Seq.
  change (m (Star is_space)) with (m_star (R:=pystr * option pystr) is_space).
  apply m_star_greedy; [exact Hws | reflexivity |].
  rewrite m_Seq, Lit_MS.
  change (str "(MS-" ++ hex ++ str ")")
    with ("("%char :: "M"%char :: "S"%char :: "-"%char :: hex ++ str ")").
  rewrite !m_Seq, !m_CC_cons.
  change (ci_eqb "(" "(") with true. change (ci_eqb "M" "M") with true.
  change (ci_eqb "S" "S") with true. change (ci_eqb "-" "-") with true.
  cbv iota. cbn [m].
  apply (m_plus_greedy is_hex_ci hex (str ")")); [exact Hne | exact Hhex | reflexivity |].
  reflexivity.
Qed.

Lemma span_unique {A : Type} (P : A -> bool) (l1 l2 : list A) (a b : A)
    (X Y : list A) :
  Forall (fun c => P c = true) l1 -> Forall (fun c => P c = true) l2 ->
  P a = false -> P b = false ->
  l1 ++ a :: X = l2 ++ b :: Y ->
  l1 = l2 /\ a = b /\ X = Y.
Proof.
  intros H1. revert l2. induction H1 as [|x l1 Hx _ IH]; intros l2 H2 Ha Hb E.
  - destruct H2 as [|y l2 Hy _]; simpl in E.
    + injection E as -> ->. auto.
    + injection E as -> _. congruence.
  - destruct H2 as [|y l2 Hy H2]; simpl in E.
    + injection E as -> _. congruence.
    + injection E as -> E. destruct (IH l2 H2 Ha Hb E) as (-> & -> & ->). auto.
Qed.

Lemma dash_only (d : ascii) :
  ci_eqb "-"%char d = true -> is_hex_ci d = false.
Proof.
  destruct d as [[|] [|] [|] [|] [|] [|] [|] [|]]; vm_compute; congruence.
Qed.

(** No match of the chipset pattern starts inside a text that does not
    end in white space, when the code closes the whole text. *)
Lemma ms_no_match_inside (pre ws hex : pystr) (j : nat) :
  no_trailing_space pre ->
  Forall (fun c => is_hex_ci c = true) hex ->
  (j < length pre)%nat ->
  match_here ms_re (drop j (pre ++ ws ++ str "(MS-" ++ hex ++ str ")")) = None.
Proof.
  intros Hpre Hhex Hj.
  destruct (match_here ms_re _) as [[rest cap]|] eqn:E; [|reflexivity].
  exfalso.
  apply ms_match_sound in E
    as (ws' & o & m_ & s_ & d_ & hex' & cp & E & Hws' & Hd & Hhex' & Hcp & Heos).
  destruct Hpre as [-> | (p & c & -> & Hc)]; [simpl in Hj; lia|].
  rewrite length_app in Hj. simpl in Hj.
  rewrite <- app_assoc in E. rewrite drop_app_le in E by lia.
  apply ascii_eqb_eq in Hcp. subst cp.
  set (q0 := drop j p) in E.
  change (str "(MS-" ++ hex ++ str ")")
    with (["("%char; "M"%char; "S"%char] ++ ["-"%char] ++ hex ++ [")"%char]) in E.
  apply at_eos_cases in Heos as [-> | (nl & -> & Hnl)].
  - rewrite app_nil_r in E.
    replace (q0 ++ [c] ++ ws ++ ["("%char; "M"%char; "S"%char] ++ ["-"%char]
             ++ hex ++ [")"%char])
      with ((q0 ++ [c] ++ ws ++ ["("%char; "M"%char; "S"%char] ++ ["-"%char]
             ++ hex) ++ [")"%char]) in E
      by (rewrite <- !app_assoc; reflexivity).
    replace (ws' ++ [o; m_; s_] ++ [d_] ++ hex' ++ [")"%char])
      with ((ws' ++ [o; m_; s_] ++ [d_] ++ hex') ++ [")"%char]) in E
      by (rewrite <- !app_assoc; reflexivity).
    apply app_inj_tail in E as [E _].
    apply (f_equal (@rev ascii)) in E.
    rewrite !rev_app_distr in E. simpl in E. rewrite <- !app_assoc in E.
    simpl in E.
    apply (span_unique is_hex_ci) in E as (_ & _ & E).
    + injection E as _ _ _ E.
      apply (f_equal (@rev ascii)) in E.
      rewrite !rev_app_distr, !rev_involutive in E. simpl in E.
      rewrite rev_involutive in E.
      rewrite <- E in Hws'.
      apply Forall_app in Hws' as [Hws' _].
      apply Forall_app in Hws' as [_ Hws']. inversion Hws'; subst. congruence.
    + apply Forall_rev. exact Hhex.
    + apply Forall_rev. exact Hhex'.
    + reflexivity.
    + apply dash_only, Hd.
  - replace (q0 ++ [c] ++ ws ++ ["("%char; "M"%char; "S"%char] ++ ["-"%char]
             ++ hex ++ [")"%char])
      with ((q0 ++ [c] ++ ws ++ ["("%char; "M"%char; "S"%char] ++ ["-"%char]
             ++ hex) ++ [")"%char]) in E
      by (rewrite <- !app_assoc; reflexivity).
    replace (ws' ++ [o; m_; s_] ++ [d_] ++ hex' ++ [")"%char] ++ [nl])
      with ((ws' ++ [o; m_; s_] ++ [d_] ++ hex' ++ [")"%char]) ++ [nl]) in E
      by (rewrite <- !app_assoc; reflexivity).
    apply app_inj_tail in E as [_ <-]. vm_compute in Hnl. discriminate.
Qed.

Lemma sub_from_cons (r : regex) (c : ascii) (s : pystr) :
  sub_from r O (c :: s)
  = match match_here r (c :: s) with
    | Some (rest, _) =>
        match (length (c :: s) - length rest)%nat with
        | O => c :: sub_from r O s
        | S k => sub_from r k s
        end
    | None => c :: sub_from r O s
    end.
Proof. reflexivity. Qed.

Lemma sub_from_skip (r : regex) (s : pystr) :
  forall k, (length s <= k)%nat -> sub_from r k s = [].
Proof.
  induction s as [|c s IH]; intros k Hk; [reflexivity|].
  destruct k as [|k]; [simpl in Hk; lia|].
  simpl. apply IH. simpl in Hk. lia.
Qed.

Lemma sub_from_prefix (r : regex) (pre t : pystr) :
  (forall j, (j < length pre)%nat -> match_here r (drop j (pre ++ t)) = None) ->
  sub_from r O (pre ++ t) = pre ++ sub_from r O t.
Proof.
  induction pre as [|c pre IH]; intros H; [reflexivity|].
  pose proof (H 0%nat ltac:(simpl; lia)) as H0. rewrite drop_0 in H0.
  change ((c :: pre) ++ t) with (c :: (pre ++ t)) in *.
  rewrite sub_from_cons, H0. simpl app. f_equal. apply IH.
  intros j Hj. apply (H (S j)). simpl. lia.
Qed.

(** The chipset code at the end of a text, and the white space before
    it, are cut off. *)
Lemma ms_code_stripped (pre ws hex : pystr) :
  no_trailing_space pre ->
  Forall (fun c => is_space c = true) ws ->
  hex <> [] -> Forall (fun c => is_hex_ci c = true) hex ->
  re_sub_empty ms_re (pre ++ ws ++ str "(MS-" ++ hex ++ str ")") = pre.
Proof.
  intros Hpre Hws Hne Hhex. unfold re_sub_empty.
  rewrite sub_from_prefix.
  - pose proof (ms_match_complete ws hex Hws Hne Hhex) as Hm.
    destruct (ws ++ str "(MS-" ++ hex ++ str ")") as [|c s] eqn:E.
    + destruct ws; discriminate.
    + rewrite sub_from_cons, Hm. cbn [length Nat.sub].
      rewrite sub_from_skip by lia. apply app_nil_r.
  - intros j Hj. apply ms_no_match_inside; assumption.
Qed.

(** C5, as stated, fails: with an empty baseboard product and an empty
    baseboard manufacturer the registry strategy yields nothing, and the
    name is not built from the system product name although the registry
    holds one. *)
Lemma board_empty_registry_ignores_system_product :
  (exists key,
      open_bios_key bare_registry_env = Ok key
      /\ BaseBoardProduct key = Ok (PStr [])
      /\ SystemProductName key = Ok (PStr (str "ROG STRIX B550")))
  /\ get_system_info bare_registry_env
     = Ok (<["OS" := str "Windows 10"]> (<["Motherboard" := str "N/A"]> ∅)).
Proof.
  split.
  - eexists. split; [reflexivity|]. split; reflexivity.
  - vm_compute. reflexivity.
Qed.

(** What the WMI strategy finds at the first instance of
    [Win32_BaseBoard]. *)
Lemma wmi_strategy_first_board (env : board_env) (bb : base_board)
    (rest : list base_board) (manu product : pystr) :
  win32_baseboard env = Ok (bb :: rest) ->
  or_empty_strip (bb_Manufacturer bb) = Ok manu ->
  or_empty_strip (bb_Product bb) = Ok product ->
  manu <> [] \/ product <> [] ->
  mobo_name (wmi_strategy env mobo_init)
  = Some (py_strip (_short_vendor manu ++ str " " ++ product)).
Proof.
  intros Hbb Hmanu Hproduct Hsome. unfold wmi_strategy.
  rewrite Hbb, Hmanu, Hproduct.
  assert (Ht : truthy_str manu || truthy_str product = true).
  { destruct Hsome as [H|H]; [destruct manu | destruct product];
      try congruence; simpl; auto using orb_true_r. }
  rewrite Ht. reflexivity.
Qed.

(** With both baseboard values empty the registry strategy leaves every
    variable as it was, as if the key could not be opened. *)
Lemma registry_strategy_empty (env : board_env) (key : bios_key)
    (m0 p0 : pyval) :
  open_bios_key env = Ok key ->
  BaseBoardManufacturer key = Ok m0 -> or_empty_strip m0 = Ok [] ->
  BaseBoardProduct key = Ok p0 -> or_empty_strip p0 = Ok [] ->
  registry_strategy env mobo_init = Ok mobo_init.
Proof.
  intros Hkey Hm0 Hmanu Hp0 Hproduct. unfold registry_strategy.
  rewrite Hkey, bind_Ok, Hm0, bind_Ok, Hmanu, bind_Ok, Hp0, bind_Ok, Hproduct,
    bind_Ok.
  reflexivity.
Qed.

Lemma windows_board_empty_registry (env : board_env) (key : bios_key)
    (m0 p0 : pyval) :
  open_bios_key env = Ok key ->
  BaseBoardManufacturer key = Ok m0 -> or_empty_strip m0 = Ok [] ->
  BaseBoardProduct key = Ok p0 -> or_empty_strip p0 = Ok [] ->
  windows_board env = wmi_strategy env mobo_init.
Proof.
  intros Hkey Hm0 Hmanu Hp0 Hproduct. unfold windows_board.
  rewrite (registry_strategy_empty env key m0 p0 Hkey Hm0 Hmanu Hp0 Hproduct).
  reflexivity.
Qed.

Lemma windows_board_unreadable_registry (env : board_env) (e : exn) :
  windows_board (with_bios_key env (Raise e)) = wmi_strategy env mobo_init.
Proof. reflexivity. Qed.

Lemma get_system_info_motherboard (env : board_env) :
  is_windows env = true ->
  exists d,
    get_system_info env = Ok d
    /\ d !! "Motherboard" = Some (or_na (mobo_name (windows_board env))).
Proof.
  intros Hw. unfold get_system_info. rewrite Hw, bind_Ok.
  eexists. split; [reflexivity|].
  rewrite lookup_insert_ne by discriminate.
  destruct (debug env).
  - unfold windows_debug_fields.
    rewrite !lookup_insert_ne by discriminate.
    apply lookup_insert_eq.
  - apply lookup_insert_eq.
Qed.

(** C5, amended.  On Windows, when the registry delivers the baseboard
    manufacturer and product, the product (trimmed) is empty or one of
    the placeholders without regard to case, and the manufacturer or the
    product is not empty, the motherboard name is the short vendor name,
    a space and the system product name (the empty text when it cannot
    be read) with its chipset code cut off, trimmed.  A text that ends in
    white space, ["(MS-"], hexadecimal digits and [")"] loses that code
    and the white space before it.  When both the manufacturer and the
    product are empty, the registry strategy yields nothing: the result
    is that of a host whose registry key cannot be opened, whatever the
    system product name is, and the name is the one that the WMI
    strategy finds, or ["N/A"]: from a first instance of
    [Win32_BaseBoard] with a manufacturer or a product, the short vendor
    name, a space and that product, trimmed. *)
Theorem board_name_from_system_product :
  (forall (env : board_env) (key : bios_key) (m0 p0 : pyval)
          (manu product : pystr),
      is_windows env = true ->
      open_bios_key env = Ok key ->
      BaseBoardManufacturer key = Ok m0 -> or_empty_strip m0 = Ok manu ->
      BaseBoardProduct key = Ok p0 -> or_empty_strip p0 = Ok product ->
      placeholder_or_empty product ->
      manu <> [] \/ product <> [] ->
      exists d,
        get_system_info env = Ok d
        /\ d !! "Motherboard"
           = Some (py_strip
                     (_short_vendor manu ++ str " "
                      ++ re_sub_empty ms_re
                           (default []
                              (try_option (v ← SystemProductName key;
                                           or_empty_strip v))))))
  /\ (forall pre ws hex : pystr,
      no_trailing_space pre ->
      Forall (fun c => is_space c = true) ws ->
      hex <> [] -> Forall (fun c => is_hex_ci c = true) hex ->
      re_sub_empty ms_re (pre ++ ws ++ str "(MS-" ++ hex ++ str ")") = pre)
  /\ (forall (env : board_env) (key : bios_key) (m0 p0 : pyval),
      is_windows env = true ->
      open_bios_key env = Ok key ->
      BaseBoardManufacturer key = Ok m0 -> or_empty_strip m0 = Ok [] ->
      BaseBoardProduct key = Ok p0 -> or_empty_strip p0 = Ok [] ->
      (forall e : exn,
          get_system_info env = get_system_info (with_bios_key env (Raise e)))
      /\ (exists d,
             get_system_info env = Ok d
             /\ d !! "Motherboard"
                = Some (or_na (mobo_name (wmi_strategy env mobo_init))))
      /\ (forall (bb : base_board) (rest : list base_board)
                 (manu product : pystr),
             win32_baseboard env = Ok (bb :: rest) ->
             or_empty_strip (bb_Manufacturer bb) = Ok manu ->
             or_empty_strip (bb_Product bb) = Ok product ->
             manu <> [] \/ product <> [] ->
             exists d,
               get_system_info env = Ok d
               /\ d !! "Motherboard"
                  = Some (py_strip (_short_vendor manu ++ str " " ++ product)))).
Proof.
  split; [|split; [exact ms_code_stripped|]].
  - intros env key m0 p0 manu product Hw Hkey Hm0 Hmanu Hp0 Hproduct Hph Hsome.
    destruct (registry_strategy_placeholder env key m0 p0 manu product
                Hkey Hm0 Hmanu Hp0 Hproduct Hph Hsome) as (st & Hreg & Hname).
    eapply get_system_info_registry_name; [exact Hw | exact Hreg | exact Hname |].
    apply mobo_name_truthy, short_vendor_head.
  - intros env key m0 p0 Hw Hkey Hm0 Hmanu Hp0 Hproduct.
    pose proof (windows_board_empty_registry env key m0 p0
                  Hkey Hm0 Hmanu Hp0 Hproduct) as Hboard.
    split.
    + intros e. unfold get_system_info.
      rewrite (windows_board_unreadable_registry env e), Hboard. reflexivity.
    + destruct (get_system_info_motherboard env Hw) as (d & Hd & Hm).
      split; [exists d; split; [exact Hd|]; rewrite Hm, Hboard; reflexivity|].
      intros bb rest manu product Hbb Hmanu' Hproduct' Hsome.
      exists d. split; [exact Hd|]. rewrite Hm, Hboard.
      rewrite (wmi_strategy_first_board env bb rest manu product
                 Hbb Hmanu' Hproduct' Hsome).
      unfold or_na. cbn [default from_option id].
      apply f_equal, str_or_truthy, mobo_name_truthy, short_vendor_head.
Qed.

(** The amended C5 at the example of the specification: the product is
    ["To Be Filled By O.E.M."], the system product ["ROG STRIX B550"];
    and at a host whose registry holds empty baseboard values beside the
    same system product, where WMI names the board. *)
Lemma board_name_from_system_product_witness :
  (exists d,
      get_system_info oem_registry_env = Ok d
      /\ d !! "Motherboard" = Some (str "ASUS ROG STRIX B550"))
  /\ (exists d,
      get_system_info empty_registry_env = Ok d
      /\ d !! "Motherboard" = Some (str "Gigabyte B550 AORUS ELITE")).
Proof.
  split.
  - destruct (proj1 board_name_from_system_product
                oem_registry_env oem_registry_key
                (PStr (str "ASUSTeK COMPUTER INC."))
                (PStr (str "To Be Filled By O.E.M."))
                (str "ASUSTeK COMPUTER INC.") (str "To Be Filled By O.E.M."))
      as (d & Hd & Hm); try reflexivity.
    + right. vm_compute. auto.
    + left. discriminate.
    + exists d. split; [exact Hd|]. rewrite Hm. vm_compute. reflexivity.
  - destruct (proj2 (proj2 board_name_from_system_product)
                empty_registry_env empty_registry_key (PStr (str "  ")) PNone)
      as (_ & (d & Hd & Hm) & _); try reflexivity.
    exists d. split; [exact Hd|]. rewrite Hm. vm_compute. reflexivity.
Defined.

(** The chipset code of a board of MSI. *)
Example ms_code_stripped_example :
  re_sub_empty ms_re (str "MAG B650 TOMAHAWK WIFI (MS-7E49)")
  = str "MAG B650 TOMAHAWK WIFI".
Proof. vm_compute. reflexivity. Qed.

(** ** Reading a rendered number back *)

Lemma of_uint_acc_fold (d : Decimal.uint) :
  forall acc : positive,
    Zpos (Pos.of_uint_acc d acc)
    = fold_left (fun a c => a * 10 + digit_val c) (chars_of_uint d) (Zpos acc).
Proof.
  induction d; intros acc; simpl; try reflexivity; rewrite IHd; f_equal;
    unfold digit_val; simpl; lia.
Qed.

Lemma of_uint_fold (d : Decimal.uint) :
  Z.of_N (Pos.of_uint d) = digits_value (chars_of_uint d).
Proof.
  unfold digits_value.
  induction d; simpl; try reflexivity; try exact IHd;
    rewrite of_uint_acc_fold; reflexivity.
Qed.

(** The digits of a number read back as the number. *)
Lemma digits_value_str_of_nonneg (z : Z) :
  0 <= z -> digits_value (str_of_nonneg z) = z.
Proof.
  intros Hz. unfold str_of_nonneg.
  pose proof (of_uint_fold (N.to_uint (Z.to_N z))) as H.
  change (Pos.of_uint (N.to_uint (Z.to_N z)))
    with (N.of_uint (N.to_uint (Z.to_N z))) in H.
  rewrite DecimalN.Unsigned.of_to in H.
  rewrite Z2N.id in H by exact Hz.
  destruct (chars_of_uint (N.to_uint (Z.to_N z))) as [|c cs].
  - rewrite H. reflexivity.
  - symmetry. exact H.
Qed.

Lemma str_of_nonneg_digits (z : Z) :
  Forall (fun c => is_digit c = true) (str_of_nonneg z).
Proof.
  unfold str_of_nonneg.
  pose proof (chars_of_uint_digits (N.to_uint (Z.to_N z))) as H.
  destruct (chars_of_uint _); [repeat constructor | exact H].
Qed.

Lemma split_dot_digits (ds fp : pystr) :
  Forall (fun c => is_digit c = true) ds ->
  split_dot (ds ++ dot :: fp) = (ds, fp).
Proof.
  induction 1 as [|c ds Hc _ IH]; simpl; [reflexivity|].
  destruct (ascii_eqb c dot) eqn:E.
  - apply ascii_eqb_eq in E. subst c. discriminate.
  - rewrite IH. reflexivity.
Qed.

Lemma digits_value_snoc (ds : pystr) (c : ascii) :
  digits_value (ds ++ [c]) = digits_value ds * 10 + digit_val c.
Proof. unfold digits_value. rewrite fold_left_app. reflexivity. Qed.

Lemma digit_val_of_digit (k : Z) :
  0 <= k < 10 -> digit_val (ascii_of_N (Z.to_N k + 48)) = k.
Proof.
  intros Hk.
  assert (H : k = 0 \/ k = 1 \/ k = 2 \/ k = 3 \/ k = 4 \/ k = 5 \/ k = 6
              \/ k = 7 \/ k = 8 \/ k = 9) by lia.
  repeat (destruct H as [->|H]; [reflexivity|]). subst k. reflexivity.
Qed.

(** The fixed-point text of [t] tenths reads back as [t / 10]. *)
Lemma fixed_text_value (t : Z) :
  0 <= t -> (decimal_value (fixed_text 1 t) == t # 10)%Q.
Proof.
  intros Ht. unfold decimal_value, fixed_text.
  cbn [frac_digits Z.of_nat Pos.of_succ_nat Pos.succ].
  rewrite (split_dot_digits _ _ (str_of_nonneg_digits _)).
  rewrite digits_value_snoc, digits_value_str_of_nonneg
    by (apply Z.div_pos; lia).
  change (10 ^ 0) with 1. rewrite Z.div_1_r.
  rewrite digit_val_of_digit by (apply Z.mod_pos_bound; lia).
  change (10 ^ Z.of_nat (length [ascii_of_N (Z.to_N (t mod 10) + 48)])) with 10.
  change (10 ^ Z.of_nat 1) with 10.
  replace (t / 10 * 10 + t mod 10) with t
    by (pose proof (Z.div_mod t 10); lia).
  unfold Qdiv, Qeq, Qmult, Qinv, inject_Z. simpl. lia.
Qed.

(** ** Rounding *)

Open Scope Q_scope.

Lemma rne_bounds (x : Q) : (Qfloor x <= rne x <= Qfloor x + 1)%Z.
Proof.
  unfold rne. destruct (Qcompare _ _); [destruct (Z.even _)| |]; lia.
Qed.

Lemma rne_mono (x y : Q) : x <= y -> (rne x <= rne y)%Z.
Proof.
  intros Hxy. pose proof (Qfloor_resp_le x y Hxy) as Hf.
  destruct (Z.eq_dec (Qfloor x) (Qfloor y)) as [E|NE].
  - unfold rne. rewrite <- E.
    destruct (Qcompare_spec (x - inject_Z (Qfloor x)) (1 # 2)) as [Hx|Hx|Hx];
      destruct (Qcompare_spec (y - inject_Z (Qfloor x)) (1 # 2)) as [Hy|Hy|Hy];
      try (destruct (Z.even (Qfloor x))); try lia; exfalso; lra.
  - pose proof (rne_bounds x). pose proof (rne_bounds y). lia.
Qed.

Lemma rne_inject_Z (k : Z) : rne (inject_Z k) = k.
Proof.
  unfold rne. rewrite Qfloor_Z.
  destruct (Qcompare_spec (inject_Z k - inject_Z k) (1 # 2)) as [H|H|H];
    try reflexivity; exfalso; lra.
Qed.

Lemma rne_nonneg (x : Q) : 0 <= x -> (0 <= rne x)%Z.
Proof.
  intros H. rewrite <- (rne_inject_Z 0) at 1. apply rne_mono. exact H.
Qed.

Lemma rne_compat (x y : Q) : x == y -> rne x = rne y.
Proof.
  intros H. apply Z.le_antisymm; apply rne_mono; rewrite H; apply Qle_refl.
Qed.

Lemma pow2_pos (e : Z) : 0 < pow2 e.
Proof. unfold pow2. apply Qpower_0_lt. reflexivity. Qed.

Lemma pow2_plus (a b : Z) : pow2 (a + b) == pow2 a * pow2 b.
Proof. unfold pow2. apply Qpower_plus. discriminate. Qed.

Lemma pow2_Z (k : Z) : (0 <= k)%Z -> pow2 k == inject_Z (2 ^ k).
Proof. intros H. unfold pow2. rewrite Zpower_Qpower by exact H. reflexivity. Qed.

Lemma pow2_le (a b : Z) : (a <= b)%Z -> pow2 a <= pow2 b.
Proof.
  intros H. replace b with (a + (b - a))%Z by lia. rewrite pow2_plus.
  rewrite <- (Qmult_1_r (pow2 a)) at 1.
  apply Qmult_le_l; [apply pow2_pos|].
  rewrite pow2_Z by lia. change 1 with (inject_Z 1). rewrite <- Zle_Qle.
  pose proof (Z.pow_pos_nonneg 2 (b - a)). lia.
Qed.

Lemma pow2_lt_inv (a b : Z) : pow2 a < pow2 b -> (a < b)%Z.
Proof.
  intros H. destruct (Z_lt_le_dec a b) as [Hlt|Hle]; [exact Hlt|].
  exfalso. apply pow2_le in Hle. lra.
Qed.

Lemma Zlog2_pow2_bounds (a : Z) :
  (0 < a)%Z ->
  pow2 (Z.log2 a) <= inject_Z a /\ inject_Z a < 2 * pow2 (Z.log2 a).
Proof.
  intros Ha. destruct (Z.log2_spec a Ha) as [H1 H2].
  pose proof (Z.log2_nonneg a) as Hn.
  rewrite pow2_Z by exact Hn. split.
  - rewrite <- Zle_Qle. exact H1.
  - rewrite Z.pow_succ_r in H2 by exact Hn.
    change 2 with (inject_Z 2). rewrite <- inject_Z_mult, <- Zlt_Qlt. exact H2.
Qed.

(** The exponent of a positive rational. *)
Lemma ilog2_spec (q : Q) :
  0 < q -> pow2 (ilog2 q) <= q /\ q < pow2 (ilog2 q + 1).
Proof.
  intros Hq. unfold ilog2.
  set (a := Qnum q). set (b := Zpos (Qden q)).
  assert (Ha : (0 < a)%Z).
  { unfold a. destruct q as [n d]. unfold Qlt in Hq. simpl in *. lia. }
  assert (Hb : (0 < b)%Z) by (unfold b; lia).
  destruct (Zlog2_pow2_bounds a Ha) as [HA1 HA2].
  destruct (Zlog2_pow2_bounds b Hb) as [HB1 HB2].
  pose proof (pow2_pos (Z.log2 a)) as HPA.
  pose proof (pow2_pos (Z.log2 b)) as HPB.
  set (d := (Z.log2 a - Z.log2 b)%Z).
  assert (HD : pow2 d * pow2 (Z.log2 b) == pow2 (Z.log2 a)).
  { rewrite <- pow2_plus. unfold d. replace (Z.log2 a - Z.log2 b + Z.log2 b)%Z
      with (Z.log2 a) by lia. reflexivity. }
  assert (HqB : q * inject_Z b == inject_Z a).
  { unfold a, b. destruct q as [n dn]. simpl. unfold Qeq, Qmult, inject_Z.
    simpl. lia. }
  pose proof (pow2_pos d) as HDpos.
  assert (Hd1 : pow2 (d + 1) == 2 * pow2 d).
  { rewrite pow2_plus. change (pow2 1) with 2. ring. }
  assert (Hd0 : 2 * pow2 (d - 1) == pow2 d).
  { replace d with ((d - 1) + 1)%Z at 2 by lia. rewrite pow2_plus.
    change (pow2 1) with 2. ring. }
  set (A := inject_Z a) in *. set (B := inject_Z b) in *.
  set (PA := pow2 (Z.log2 a)) in *. set (PB := pow2 (Z.log2 b)) in *.
  set (D := pow2 d) in *.
  destruct (Qle_bool D q) eqn:E.
  - apply Qle_bool_iff in E. split; [exact E|]. rewrite Hd1.
    apply Qnot_le_lt. intros Hge.
    assert (2 * D * PB <= q * B).
    { apply Qle_trans with (2 * D * B).
      - apply Qmult_le_l; [lra | exact HB1].
      - apply Qmult_le_compat_r; [exact Hge | lra]. }
    assert (2 * D * PB == 2 * PA) by (rewrite <- HD; ring).
    lra.
  - assert (Hlt : q < D).
    { apply Qnot_le_lt. intros H. apply Qle_bool_iff in H. congruence. }
    replace (d - 1 + 1)%Z with d by lia. fold D. split; [|exact Hlt].
    apply Qnot_lt_le. intros Hlow.
    set (D' := pow2 (d - 1)) in *.
    assert (q * B < D' * (2 * PB)).
    { apply Qle_lt_trans with (D' * B).
      - apply Qmult_le_compat_r; [lra | lra].
      - apply Qmult_lt_l; [|exact HB2].
        assert (0 < 2 * D') by (rewrite Hd0; exact HDpos). lra. }
    assert (D' * (2 * PB) == PA).
    { rewrite <- HD, <- Hd0. ring. }
    lra.
Qed.

(** Rounding to a multiple of [2^u]. *)
Lemma round_at_mono (u : Z) (q1 q2 : Q) :
  q1 <= q2 ->
  inject_Z (rne (q1 / pow2 u)) * pow2 u <= inject_Z (rne (q2 / pow2 u)) * pow2 u.
Proof.
  intros H. pose proof (pow2_pos u) as Hu.
  apply Qmult_le_compat_r; [|lra].
  rewrite <- Zle_Qle. apply rne_mono.
  unfold Qdiv. apply Qmult_le_compat_r; [exact H|].
  apply Qlt_le_weak, Qinv_lt_0_compat, Hu.
Qed.

Lemma round_at_pow2 (u e : Z) :
  (u <= e)%Z -> inject_Z (rne (pow2 e / pow2 u)) * pow2 u == pow2 e.
Proof.
  intros H. pose proof (pow2_pos u) as Hu.
  assert (E : pow2 e / pow2 u == inject_Z (2 ^ (e - u))).
  { rewrite <- pow2_Z by lia.
    replace e with ((e - u) + u)%Z at 1 by lia. rewrite pow2_plus.
    field. lra. }
  rewrite (rne_compat _ _ E), rne_inject_Z, <- pow2_Z by lia.
  rewrite <- pow2_plus. replace (e - u + u)%Z with e by lia. reflexivity.
Qed.

Lemma ilog2_mono (q1 q2 : Q) : 0 < q1 -> q1 <= q2 -> (ilog2 q1 <= ilog2 q2)%Z.
Proof.
  intros H1 H12. assert (H2 : 0 < q2) by lra.
  destruct (ilog2_spec q1 H1) as [Ha _].
  destruct (ilog2_spec q2 H2) as [_ Hb].
  assert (Hlt : pow2 (ilog2 q1) < pow2 (ilog2 q2 + 1)) by lra.
  apply pow2_lt_inv in Hlt. lia.
Qed.

Lemma round_core_mono (q1 q2 : Q) :
  0 < q1 -> q1 <= q2 ->
  inject_Z (rne (q1 / pow2 (Z.max (ilog2 q1 - 52) (-1074))))
    * pow2 (Z.max (ilog2 q1 - 52) (-1074))
  <= inject_Z (rne (q2 / pow2 (Z.max (ilog2 q2 - 52) (-1074))))
     * pow2 (Z.max (ilog2 q2 - 52) (-1074)).
Proof.
  intros H1 H12. assert (H2 : 0 < q2) by lra.
  pose proof (ilog2_mono q1 q2 H1 H12) as He.
  destruct (ilog2_spec q1 H1) as [_ Hup].
  destruct (ilog2_spec q2 H2) as [Hlow _].
  set (e1 := ilog2 q1) in *. set (e2 := ilog2 q2) in *.
  set (u1 := Z.max (e1 - 52) (-1074)). set (u2 := Z.max (e2 - 52) (-1074)).
  destruct (Z.eq_dec u1 u2) as [E|NE].
  - rewrite E. apply round_at_mono, H12.
  - assert (He12 : (e1 + 1 <= e2)%Z) by (unfold u1, u2 in NE; lia).
    assert (Hu1 : (u1 <= e2)%Z) by (unfold u1, u2 in *; lia).
    assert (Hu2 : (u2 <= e2)%Z) by (unfold u1, u2 in *; lia).
    pose proof (pow2_le _ _ He12) as Hp.
    apply Qle_trans with (pow2 e2).
    + rewrite <- (round_at_pow2 u1 e2 Hu1). apply round_at_mono. lra.
    + rewrite <- (round_at_pow2 u2 e2 Hu2) at 1. apply round_at_mono, Hlow.
Qed.

Lemma round_mag_nonneg (q v : Q) : round_mag q = Some v -> 0 <= v.
Proof.
  unfold round_mag. destruct (Qle_bool q 0) eqn:E0.
  - intros H. injection H as <-. lra.
  - destruct (Qle_bool (pow2 1024) _); [discriminate|].
    intros H. injection H as <-. rewrite Qred_correct.
    assert (Hq : 0 < q).
    { apply Qnot_le_lt. intros H. apply Qle_bool_iff in H. congruence. }
    pose proof (pow2_pos (Z.max (ilog2 q - 52) (-1074))) as Hu.
    apply Qmult_le_0_compat; [|lra].
    change 0 with (inject_Z 0). rewrite <- Zle_Qle. apply rne_nonneg.
    unfold Qdiv. apply Qmult_le_0_compat; [lra|].
    apply Qlt_le_weak, Qinv_lt_0_compat, Hu.
Qed.

(** Rounding to binary64 is monotone, and so is its range. *)
Lemma round_mag_mono (q1 q2 v2 : Q) :
  q1 <= q2 -> round_mag q2 = Some v2 ->
  exists v1, round_mag q1 = Some v1 /\ v1 <= v2.
Proof.
  intros H12 H2. pose proof (round_mag_nonneg _ _ H2) as Hv2.
  unfold round_mag in *. destruct (Qle_bool q1 0) eqn:E1.
  - exists 0. split; [reflexivity | exact Hv2].
  - assert (Hq1 : 0 < q1).
    { apply Qnot_le_lt. intros H. apply Qle_bool_iff in H. congruence. }
    destruct (Qle_bool q2 0) eqn:E2.
    { apply Qle_bool_iff in E2. exfalso. lra. }
    pose proof (round_core_mono q1 q2 Hq1 H12) as Hcore.
    destruct (Qle_bool (pow2 1024) (inject_Z (rne (q2 / _)) * _)) eqn:O2;
      [discriminate|].
    injection H2 as <-.
    destruct (Qle_bool (pow2 1024) (inject_Z (rne (q1 / _)) * _)) eqn:O1.
    + exfalso. apply Qle_bool_iff in O1.
      assert (O2' : Qle_bool (pow2 1024)
                (inject_Z (rne (q2 / pow2 (Z.max (ilog2 q2 - 52) (-1074))))
                 * pow2 (Z.max (ilog2 q2 - 52) (-1074))) = true).
      { apply Qle_bool_iff. eapply Qle_trans; eassumption. }
      congruence.
    + eexists. split; [reflexivity|]. rewrite !Qred_correct. exact Hcore.
Qed.

(** [round_mag] against [binary_normalize] of the Standard Library, at
    the least subnormal, at ties, at the largest finite float and beyond
    it. *)
Example round_mag_agrees_with_spec_float :
  forallb (fun p => agrees_with_spec_float (fst p) (snd p))
    [(1, -1074); (1, -1075); (3, -1076); (3, -1075); (5, -1076);
     (9007199254740993, -1080); (9007199254740993, 0);
     (9007199254740995, 0); (9007199254740997, 10); (1, 1023); (1, 1024);
     (9007199254740991, 971); (18014398509481983, 970);
     (18014398509481982, 970); (18014398509481981, 970);
     (123456789123456789123456789, -100);
     (123456789123456789123456789, -1100); (7, -1077); (1, -1076)]%Z
  = true.
Proof. vm_compute. reflexivity. Qed.

(** ** [_fmt_gb_from_bytes] *)

Lemma py_float_005 : py_float (str "0.05") = Fin c005.
Proof. vm_compute. reflexivity. Qed.

Lemma fmt_gb_of_round (n : Z) (v : Q) :
  round_mag (inject_Z (if (n <? 0)%Z then 0%Z else n) / inject_Z (1024 ^ 3))
  = Some v ->
  _fmt_gb_from_bytes (PInt n)
  = Ok (fixed_text 1 (fixed_units 1 (shown v)) ++ str " GB").
Proof.
  intros Hr. pose proof (round_mag_nonneg _ _ Hr) as Hv.
  unfold _fmt_gb_from_bytes. cbn [py_int].
  set (n' := if (n <? 0)%Z then 0%Z else n) in *.
  assert (Hn' : (0 <= n')%Z) by (unfold n'; destruct (Z.ltb_spec n 0); lia).
  unfold int_truediv, round_b64.
  assert (Hq : Qle_bool 0 (inject_Z n' / inject_Z (1024 ^ 3)) = true).
  { apply Qle_bool_iff. unfold Qdiv. apply Qmult_le_0_compat.
    - change 0 with (inject_Z 0). rewrite <- Zle_Qle. exact Hn'.
    - apply Qlt_le_weak, Qinv_lt_0_compat. reflexivity. }
  rewrite Hq, Hr. rewrite bind_Ok. rewrite py_float_005.
  unfold shown. cbn [fabs fltb].
  destruct (Qle_bool c005 (Qabs v)) eqn:E; cbn [negb].
  - unfold format_fixed.
    assert (Hv' : Qle_bool 0 v = true) by (apply Qle_bool_iff; exact Hv).
    rewrite Hv'. reflexivity.
  - reflexivity.
Qed.

Lemma Qle_bool_abs (c v : Q) : 0 <= v -> Qle_bool c (Qabs v) = Qle_bool c v.
Proof.
  intros Hv. pose proof (Qabs_pos v Hv) as E.
  destruct (Qle_bool c (Qabs v)) eqn:E1; destruct (Qle_bool c v) eqn:E2;
    try reflexivity; exfalso.
  - apply Qle_bool_iff in E1. rewrite E in E1.
    apply Qle_bool_iff in E1. congruence.
  - apply Qle_bool_iff in E2. rewrite <- E in E2.
    apply Qle_bool_iff in E2. congruence.
Qed.

Lemma fixed_units_nonneg_arg (v : Q) :
  0 <= v -> fixed_units 1 v = rne (v * inject_Z (10 ^ 1)).
Proof.
  intros Hv. unfold fixed_units. apply rne_compat.
  rewrite (Qabs_pos v Hv). reflexivity.
Qed.

Lemma fixed_units_mono (v1 v2 : Q) :
  0 <= v1 -> v1 <= v2 ->
  (0 <= fixed_units 1 v1 <= fixed_units 1 v2)%Z.
Proof.
  intros H1 H12.
  rewrite (fixed_units_nonneg_arg v1) by exact H1.
  rewrite (fixed_units_nonneg_arg v2) by lra.
  split.
  - apply rne_nonneg. apply Qmult_le_0_compat; [exact H1 | discriminate].
  - apply rne_mono. apply Qmult_le_compat_r; [exact H12 | discriminate].
Qed.

Lemma shown_mono (v1 v2 : Q) :
  0 <= v1 -> v1 <= v2 -> 0 <= shown v1 /\ shown v1 <= shown v2.
Proof.
  intros H1 H12. unfold shown.
  rewrite (Qle_bool_abs c005 v1) by exact H1.
  rewrite (Qle_bool_abs c005 v2) by lra.
  destruct (Qle_bool c005 v1) eqn:E1; destruct (Qle_bool c005 v2) eqn:E2;
    try (split; lra).
  exfalso. apply Qle_bool_iff in E1.
  assert (Qle_bool c005 v2 = true) by (apply Qle_bool_iff; lra). congruence.
Qed.

Lemma clamped_quotient (n m : Z) :
  (n <= m)%Z ->
  inject_Z (if (n <? 0)%Z then 0%Z else n) / inject_Z (1024 ^ 3)
  <= inject_Z (if (m <? 0)%Z then 0%Z else m) / inject_Z (1024 ^ 3).
Proof.
  intros H. unfold Qdiv. apply Qmult_le_compat_r.
  - rewrite <- Zle_Qle.
    destruct (Z.ltb_spec n 0), (Z.ltb_spec m 0); lia.
  - apply Qlt_le_weak, Qinv_lt_0_compat. reflexivity.
Qed.

Lemma fmt_gb_returns_round (m : Z) (sm : pystr) :
  _fmt_gb_from_bytes (PInt m) = Ok sm ->
  exists v,
    round_mag (inject_Z (if (m <? 0)%Z then 0%Z else m) / inject_Z (1024 ^ 3))
    = Some v.
Proof.
  destruct (round_mag _) as [v|] eqn:E; [eauto|].
  intros H. exfalso. revert H.
  unfold _fmt_gb_from_bytes. cbn [py_int].
  set (m' := if (m <? 0)%Z then 0%Z else m) in *.
  assert (Hm' : (0 <= m')%Z) by (unfold m'; destruct (Z.ltb_spec m 0); lia).
  unfold int_truediv, round_b64.
  assert (Hq : Qle_bool 0 (inject_Z m' / inject_Z (1024 ^ 3)) = true).
  { apply Qle_bool_iff. unfold Qdiv. apply Qmult_le_0_compat.
    - change 0 with (inject_Z 0). rewrite <- Zle_Qle. exact Hm'.
    - apply Qlt_le_weak, Qinv_lt_0_compat. reflexivity. }
  rewrite Hq, E. discriminate.
Qed.

Lemma round_2_1023 :
  round_mag (inject_Z (2 ^ 1053) / inject_Z (1024 ^ 3))
  = Some (inject_Z (2 ^ 1023)).
Proof. vm_compute. reflexivity. Qed.

Lemma round_below_005 :
  round_mag (inject_Z 53687091 / inject_Z (1024 ^ 3))
  = Some (53687091 # 1073741824).
Proof. vm_compute. reflexivity. Qed.

(** C7. [_fmt_gb_from_bytes] on integers: the text is the fixed-point
    rendering of a number [t] of tenths with [0 <= t], followed by
    [" GB"]; a greater input never renders a smaller number, and when
    the function returns for an input it returns for every smaller one;
    it returns for every input below 2^1053; zero and every negative
    input give ["0.0 GB"], and so does every input of less than 0.05
    GB.  The text of [t] tenths reads back as the number [t / 10]. *)
Theorem fmt_gb_monotone_clamped :
  (forall (n m : Z) (sm : pystr),
      (n <= m)%Z ->
      _fmt_gb_from_bytes (PInt m) = Ok sm ->
      exists tn tm : Z,
        _fmt_gb_from_bytes (PInt n) = Ok (fixed_text 1 tn ++ str " GB")
        /\ sm = fixed_text 1 tm ++ str " GB"
        /\ (0 <= tn <= tm)%Z)
  /\ (forall n : Z,
      (n < 2 ^ 1053)%Z ->
      exists t : Z,
        _fmt_gb_from_bytes (PInt n) = Ok (fixed_text 1 t ++ str " GB")
        /\ (0 <= t)%Z)
  /\ _fmt_gb_from_bytes (PInt 0) = Ok (str "0.0 GB")
  /\ (forall n : Z, (n < 0)%Z -> _fmt_gb_from_bytes (PInt n) = Ok (str "0.0 GB"))
  /\ (forall n : Z,
      inject_Z n / inject_Z (1024 ^ 3) < 5 # 100 ->
      _fmt_gb_from_bytes (PInt n) = Ok (str "0.0 GB"))
  /\ (forall t : Z, (0 <= t)%Z -> decimal_value (fixed_text 1 t) == t # 10).
Proof.
  split; [|split; [|split; [|split; [|split; [|exact fixed_text_value]]]]].
  - intros n m sm Hnm Hm.
    destruct (fmt_gb_returns_round m sm Hm) as (v2 & Hr2).
    destruct (round_mag_mono _ _ _ (clamped_quotient n m Hnm) Hr2)
      as (v1 & Hr1 & H12).
    pose proof (round_mag_nonneg _ _ Hr1) as Hv1.
    rewrite (fmt_gb_of_round m v2 Hr2) in Hm. injection Hm as <-.
    rewrite (fmt_gb_of_round n v1 Hr1).
    destruct (shown_mono v1 v2 Hv1 H12) as [Hs1 Hs12].
    eexists _, _. split; [reflexivity|]. split; [reflexivity|].
    apply fixed_units_mono; assumption.
  - intros n Hn.
    assert (Hle : inject_Z (if (n <? 0)%Z then 0%Z else n) / inject_Z (1024 ^ 3)
                  <= inject_Z (2 ^ 1053) / inject_Z (1024 ^ 3)).
    { unfold Qdiv. apply Qmult_le_compat_r.
      - rewrite <- Zle_Qle. destruct (Z.ltb_spec n 0); lia.
      - apply Qlt_le_weak, Qinv_lt_0_compat. reflexivity. }
    destruct (round_mag_mono _ _ _ Hle round_2_1023) as (v1 & Hr1 & _).
    pose proof (round_mag_nonneg _ _ Hr1) as Hv1.
    rewrite (fmt_gb_of_round n v1 Hr1). eexists. split; [reflexivity|].
    destruct (shown_mono v1 v1 Hv1 (Qle_refl v1)) as [Hs _].
    apply (fixed_units_mono (shown v1) (shown v1) Hs (Qle_refl _)).
  - vm_compute. reflexivity.
  - intros n Hn. unfold _fmt_gb_from_bytes. cbn [py_int].
    apply Z.ltb_lt in Hn. rewrite Hn. vm_compute. reflexivity.
  - intros n Hn.
    assert (Hn' : (n <= 53687091)%Z).
    { assert (H : inject_Z n < inject_Z 53687092).
      { assert (E : inject_Z n
                    == inject_Z n / inject_Z (1024 ^ 3) * inject_Z (1024 ^ 3)).
        { field. intros H0. vm_compute in H0. discriminate. }
        rewrite E.
        apply Qlt_le_trans with ((5 # 100) * inject_Z (1024 ^ 3)).
        - apply Qmult_lt_compat_r; [reflexivity | exact Hn].
        - vm_compute. discriminate. }
      rewrite <- Zlt_Qlt in H. lia. }
    assert (Hle : inject_Z (if (n <? 0)%Z then 0%Z else n) / inject_Z (1024 ^ 3)
                  <= inject_Z 53687091 / inject_Z (1024 ^ 3)).
    { unfold Qdiv. apply Qmult_le_compat_r.
      - rewrite <- Zle_Qle. destruct (Z.ltb_spec n 0); lia.
      - apply Qlt_le_weak, Qinv_lt_0_compat. reflexivity. }
    destruct (round_mag_mono _ _ _ Hle round_below_005) as (v1 & Hr1 & Hv).
    pose proof (round_mag_nonneg _ _ Hr1) as Hv1.
    rewrite (fmt_gb_of_round n v1 Hr1). unfold shown.
    rewrite (Qle_bool_abs c005 v1) by exact Hv1.
    assert (E : Qle_bool c005 v1 = false).
    { destruct (Qle_bool c005 v1) eqn:E; [|reflexivity].
      apply Qle_bool_iff in E. exfalso.
      assert (H : (53687091 # 1073741824) < c005) by reflexivity. lra. }
    rewrite E. vm_compute. reflexivity.
Qed.

Close Scope Q_scope.

(** C7 at two sizes of memory: 8 GiB and 16 GiB. *)
Lemma fmt_gb_monotone_clamped_witness :
  exists tn tm : Z,
    _fmt_gb_from_bytes (PInt 8589934592) = Ok (fixed_text 1 tn ++ str " GB")
    /\ str "16.0 GB" = fixed_text 1 tm ++ str " GB"
    /\ 0 <= tn <= tm.
Proof.
  apply (proj1 fmt_gb_monotone_clamped 8589934592 17179869184 (str "16.0 GB")).
  - lia.
  - vm_compute. reflexivity.
Defined.

(** ** [_short_vendor] *)

Example short_vendor_msi :
  _short_vendor (str "Micro-Star International") = str "MSI".
Proof. vm_compute. reflexivity. Qed.

Example short_vendor_empty : _short_vendor [] = str "N/A".
Proof. vm_compute. reflexivity. Qed.

Example short_vendor_unknown : _short_vendor (str "RandomCo") = str "RandomCo".
Proof. vm_compute. reflexivity. Qed.

(** ** Trimmed texts *)

Lemma lstrip_idem (s : pystr) : lstrip (lstrip s) = lstrip s.
Proof.
  induction s as [|c s IH]; simpl; [reflexivity|].
  destruct (is_space c) eqn:E; [exact IH|]. simpl. rewrite E. reflexivity.
Qed.

Lemma rstrip_idem (s : pystr) : rstrip (rstrip s) = rstrip s.
Proof. unfold rstrip. rewrite rev_involutive, lstrip_idem. reflexivity. Qed.

Lemma lstrip_rstrip_fixed (t : pystr) :
  lstrip t = t -> lstrip (rstrip t) = rstrip t.
Proof.
  destruct t as [|c t]; [reflexivity|]. simpl.
  destruct (is_space c) eqn:E.
  - intros H. exfalso.
    assert (Hlen : (length (lstrip t) <= length t)%nat).
    { clear. induction t as [|x t IH]; simpl; [lia|].
      destruct (is_space x); simpl; lia. }
    rewrite H in Hlen. simpl in Hlen. lia.
  - intros _. destruct (rstrip_head c t E) as (t' & ->). simpl. rewrite E.
    reflexivity.
Qed.

(** [strip] gives a text that [strip] leaves alone. *)
Lemma py_strip_idem (s : pystr) : py_strip (py_strip s) = py_strip s.
Proof.
  unfold py_strip.
  rewrite (lstrip_rstrip_fixed (lstrip s) (lstrip_idem s)).
  apply rstrip_idem.
Qed.

(** X1. [_short_vendor] yields a normal form: the result is never empty,
    carries no white space around it, and is left unchanged by a second
    application. *)
Theorem short_vendor_normal_form (name : pystr) :
  _short_vendor name <> []
  /\ py_strip (_short_vendor name) = _short_vendor name
  /\ _short_vendor (_short_vendor name) = _short_vendor name.
Proof.
  remember (_short_vendor name) as v eqn:Ev.
  unfold _short_vendor in Ev.
  set (s := py_strip name) in Ev. set (u := py_upper s) in Ev.
  assert (Hbrand : forall b : pystr,
             In b [str "MSI"; str "ASUS"; str "Gigabyte"; str "ASRock";
                   str "Lenovo"; str "HP"; str "Dell"; str "N/A"] ->
             b <> [] /\ py_strip b = b /\ _short_vendor b = b).
  { intros b Hb. simpl in Hb.
    repeat (destruct Hb as [<-|Hb];
            [split; [discriminate|split; vm_compute; reflexivity]|]).
    destruct Hb. }
  destruct (contains (str "MICRO-STAR") u || startswith (str "MSI") u
            || startswith (str "MS-") u) eqn:E1;
    [subst v; apply Hbrand; simpl; tauto|].
  destruct (contains (str "ASUSTEK") u || contains (str "ASUS") u) eqn:E2;
    [subst v; apply Hbrand; simpl; tauto|].
  destruct (contains (str "GIGABYTE") u) eqn:E3;
    [subst v; apply Hbrand; simpl; tauto|].
  destruct (contains (str "ASROCK") u) eqn:E4;
    [subst v; apply Hbrand; simpl; tauto|].
  destruct (contains (str "LENOVO") u) eqn:E5;
    [subst v; apply Hbrand; simpl; tauto|].
  destruct (contains (str "HEWLETT-PACKARD") u || startswith (str "HP") u) eqn:E6;
    [subst v; apply Hbrand; simpl; tauto|].
  destruct (contains (str "DELL") u) eqn:E7;
    [subst v; apply Hbrand; simpl; tauto|].
  unfold str_or in Ev. destruct s as [|c t] eqn:Es; cbn [truthy_str] in Ev.
  - subst v. apply Hbrand. simpl. tauto.
  - assert (Hs : py_strip (c :: t) = c :: t).
    { rewrite <- Es. unfold s. apply py_strip_idem. }
    subst v. split; [discriminate|]. split; [exact Hs|].
    unfold _short_vendor. rewrite Hs. fold u.
    rewrite E1, E2, E3, E4, E5, E6, E7. reflexivity.
Qed.

(** X2. [_clean_cpu_model] never returns a text with white space at its
    start or at its end. *)
Theorem clean_cpu_model_trimmed (name : pystr) :
  py_strip (_clean_cpu_model name) = _clean_cpu_model name.
Proof.
  unfold _clean_cpu_model. destruct (negb (truthy_str name)).
  - vm_compute. reflexivity.
  - apply py_strip_idem.
Qed.
(** ** The registry strategy *)

Lemma py_strip_result_last (s p : pystr) (c : ascii) :
  py_strip s = p ++ [c] -> is_space c = false.
Proof.
  unfold py_strip, rstrip. intros H.
  apply (f_equal (@rev ascii)) in H.
  rewrite rev_involutive, rev_app_distr in H. simpl in H.
  eapply lstrip_head, H.
Qed.

Lemma or_empty_strip_result (v : pyval) (t : pystr) :
  or_empty_strip v = Ok t -> exists s, t = py_strip s.
Proof.
  unfold or_empty_strip, val_strip. destruct (py_or v (PStr [])); try discriminate.
  intros H. injection H as <-. eauto.
Qed.

(** A text that does not end in [")"] or in a newline has no chipset
    code to cut off. *)
Lemma ms_sub_unchanged (s : pystr) :
  (forall p c, s = p ++ [c] -> c <> ")"%char /\ code c <> 10%N) ->
  re_sub_empty ms_re s = s.
Proof.
  intros Hlast. unfold re_sub_empty.
  rewrite <- (app_nil_r s) at 1. rewrite sub_from_prefix.
  - simpl. apply app_nil_r.
  - intros j Hj. rewrite app_nil_r.
    destruct (match_here ms_re (drop j s)) as [[rest cap]|] eqn:E; [|reflexivity].
    exfalso.
    apply ms_match_sound in E
      as (ws & o & m_ & s_ & d_ & hex & cp & E & _ & _ & _ & Hcp & Heos).
    apply ascii_eqb_eq in Hcp. subst cp.
    assert (Hs : s = take j s ++ drop j s) by (symmetry; apply take_drop).
    rewrite E in Hs.
    apply at_eos_cases in Heos as [-> | (nl & -> & Hnl)].
    + destruct (Hlast (take j s ++ ws ++ [o; m_; s_] ++ [d_] ++ hex) ")"%char)
        as [H _]; [|congruence].
      rewrite Hs at 1. rewrite <- !app_assoc. reflexivity.
    + destruct (Hlast (take j s ++ ws ++ [o; m_; s_] ++ [d_] ++ hex ++ [")"%char]) nl)
        as [_ H]; [|congruence].
      rewrite Hs at 1. rewrite <- !app_assoc. reflexivity.
Qed.

(** What the registry strategy leaves behind when both baseboard values
    are read and one of them is not empty. *)
Lemma registry_strategy_reads (env : board_env) (key : bios_key)
    (m0 p0 : pyval) (manu product : pystr) :
  open_bios_key env = Ok key ->
  BaseBoardManufacturer key = Ok m0 -> or_empty_strip m0 = Ok manu ->
  BaseBoardProduct key = Ok p0 -> or_empty_strip p0 = Ok product ->
  manu <> [] \/ product <> [] ->
  exists st,
    registry_strategy env mobo_init = Ok st
    /\ mobo_name st
       = Some (py_strip
                 (_short_vendor manu ++ str " "
                  ++ product_pretty_of product
                       (try_option (v ← SystemProductName key;
                                    or_empty_strip v)))).
Proof.
  intros Hkey Hm0 Hmanu Hp0 Hproduct Hsome.
  unfold registry_strategy.
  rewrite Hkey, bind_Ok, Hm0, bind_Ok, Hmanu, bind_Ok, Hp0, bind_Ok, Hproduct,
    bind_Ok.
  assert (Ht : truthy_str manu || truthy_str product = true).
  { destruct Hsome as [H|H]; [destruct manu | destruct product];
      try congruence; simpl; auto using orb_true_r. }
  rewrite Ht. eexists. split; reflexivity.
Qed.

Lemma product_pretty_genuine (product : pystr) (sysprod : option pystr) :
  product <> [] -> ~ In (py_upper product) bad_tokens ->
  (forall p c, product = p ++ [c] -> c <> ")"%char /\ code c <> 10%N) ->
  product_pretty_of product sysprod = product.
Proof.
  intros Hne Hbad Hlast. unfold product_pretty_of.
  assert (Ht : truthy_str product = true)
    by (destruct product; [congruence | reflexivity]).
  assert (Hb : in_tokens bad_tokens (py_upper product) = false).
  { destruct (in_tokens bad_tokens (py_upper product)) eqn:E; [|reflexivity].
    apply in_tokens_In in E. contradiction. }
  rewrite Ht, Hb. cbn [negb andb]. rewrite Ht. apply ms_sub_unchanged, Hlast.
Qed.

(** X3. On Windows, a baseboard product read from the registry that is
    not a placeholder and does not end in [")"] is kept as it is: the
    motherboard name is the short vendor name, a space and that product,
    trimmed, whatever the system product name and WMI say. *)
Theorem board_name_from_baseboard_product (env : board_env) (key : bios_key)
    (m0 p0 : pyval) (manu product : pystr) :
  is_windows env = true ->
  open_bios_key env = Ok key ->
  BaseBoardManufacturer key = Ok m0 -> or_empty_strip m0 = Ok manu ->
  BaseBoardProduct key = Ok p0 -> or_empty_strip p0 = Ok product ->
  product <> [] ->
  ~ In (py_upper product) bad_tokens ->
  (forall p, product <> p ++ [")"%char]) ->
  exists d,
    get_system_info env = Ok d
    /\ d !! "Motherboard"
       = Some (py_strip (_short_vendor manu ++ str " " ++ product)).
Proof.
  intros Hw Hkey Hm0 Hmanu Hp0 Hproduct Hne Hbad Hparen.
  destruct (registry_strategy_reads env key m0 p0 manu product
              Hkey Hm0 Hmanu Hp0 Hproduct (or_intror Hne))
    as (st & Hreg & Hname).
  rewrite product_pretty_genuine in Hname; [|exact Hne|exact Hbad|].
  - eapply get_system_info_registry_name; [exact Hw|exact Hreg|exact Hname|].
    apply mobo_name_truthy, short_vendor_head.
  - intros p c Hpc. split.
    + intros ->. apply (Hparen p), Hpc.
    + destruct (or_empty_strip_result _ _ Hproduct) as (s & Hs).
      rewrite Hs in Hpc. apply py_strip_result_last in Hpc.
      intros Hc. destruct c as [[|] [|] [|] [|] [|] [|] [|] [|]];
        vm_compute in Hc; try discriminate Hc. vm_compute in Hpc. discriminate.
Qed.

Lemma board_name_from_baseboard_product_witness :
  exists d,
    get_system_info msi_registry_env = Ok d
    /\ d !! "Motherboard" = Some (str "MSI MAG B650 TOMAHAWK WIFI").
Proof.
  destruct (board_name_from_baseboard_product
              msi_registry_env msi_registry_key
              (PStr (str "Micro-Star International Co., Ltd."))
              (PStr (str "MAG B650 TOMAHAWK WIFI"))
              (str "Micro-Star International Co., Ltd.")
              (str "MAG B650 TOMAHAWK WIFI"))
    as (d & Hd & Hm); try reflexivity.
  - discriminate.
  - vm_compute. intuition discriminate.
  - intros p Hp. apply (f_equal (@rev ascii)) in Hp.
    rewrite rev_app_distr in Hp. vm_compute in Hp. discriminate.
  - exists d. split; [exact Hd|]. rewrite Hm. vm_compute. reflexivity.
Defined.

(** X4. On Windows the registry goes first: when it delivers a baseboard
    manufacturer or product that is not empty, the answer of
    [Win32_BaseBoard] has no influence on the result. *)
Theorem registry_before_wmi (env : board_env) (key : bios_key)
    (m0 p0 : pyval) (manu product : pystr) (bb : result (list base_board)) :
  is_windows env = true ->
  open_bios_key env = Ok key ->
  BaseBoardManufacturer key = Ok m0 -> or_empty_strip m0 = Ok manu ->
  BaseBoardProduct key = Ok p0 -> or_empty_strip p0 = Ok product ->
  manu <> [] \/ product <> [] ->
  get_system_info (with_baseboard env bb) = get_system_info env.
Proof.
  intros Hw Hkey Hm0 Hmanu Hp0 Hproduct Hsome.
  destruct (registry_strategy_reads env key m0 p0 manu product
              Hkey Hm0 Hmanu Hp0 Hproduct Hsome) as (st & Hreg & Hname).
  assert (Ht : truthy_str
                 (py_strip
                    (_short_vendor manu ++ str " "
                     ++ product_pretty_of product
                          (try_option (v ← SystemProductName key;
                                       or_empty_strip v)))) = true)
    by apply mobo_name_truthy, short_vendor_head.
  unfold get_system_info.
  change (is_windows (with_baseboard env bb)) with (is_windows env).
  rewrite Hw.
  rewrite (windows_board_registry env st _ Hreg Hname Ht).
  rewrite (windows_board_registry (with_baseboard env bb) st _ Hreg Hname Ht).
  reflexivity.
Qed.

Lemma registry_before_wmi_witness :
  get_system_info (with_baseboard msi_registry_env (Raise ProviderError))
  = get_system_info msi_registry_env.
Proof.
  apply (registry_before_wmi msi_registry_env msi_registry_key
           (PStr (str "Micro-Star International Co., Ltd."))
           (PStr (str "MAG B650 TOMAHAWK WIFI"))
           (str "Micro-Star International Co., Ltd.")
           (str "MAG B650 TOMAHAWK WIFI")); try reflexivity.
  left. discriminate.
Defined.

(** ** The name of the motherboard on Windows *)

Lemma or_empty_strip_cases (v : pyval) :
  (exists e, or_empty_strip v = Raise e)
  \/ (exists s, or_empty_strip v = Ok (py_strip s)).
Proof.
  unfold or_empty_strip, val_strip.
  destruct (py_or v (PStr [])); eauto.
Qed.

Lemma registry_strategy_stripped (env : board_env) (st : mobo_state) :
  registry_strategy env mobo_init = Ok st -> name_is_stripped st.
Proof.
  unfold registry_strategy.
  destruct (open_bios_key env) as [key|e]; [|discriminate]. rewrite bind_Ok.
  destruct (BaseBoardManufacturer key) as [m0|e]; [|discriminate].
  rewrite bind_Ok.
  destruct (or_empty_strip m0) as [manu|e]; [|discriminate]. rewrite bind_Ok.
  destruct (BaseBoardProduct key) as [p0|e]; [|discriminate]. rewrite bind_Ok.
  destruct (or_empty_strip p0) as [product|e]; [|discriminate]. rewrite bind_Ok.
  destruct (truthy_str manu || truthy_str product); intros H; injection H as <-.
  - right. eexists. reflexivity.
  - left. reflexivity.
Qed.

Lemma wmi_strategy_stripped (env : board_env) (st : mobo_state) :
  name_is_stripped st -> name_is_stripped (wmi_strategy env st).
Proof.
  intros Hst. unfold wmi_strategy.
  destruct (win32_baseboard env) as [[|bb rest]|e]; try exact Hst.
  destruct (or_empty_strip (bb_Manufacturer bb)) as [manu|e]; [|exact Hst].
  destruct (or_empty_strip (bb_Product bb)) as [product|e]; [|exact Hst].
  destruct (truthy_str manu || truthy_str product).
  - right. eexists. reflexivity.
  - exact Hst.
Qed.

Lemma windows_board_stripped (env : board_env) :
  name_is_stripped (windows_board env).
Proof.
  unfold windows_board.
  destruct (registry_strategy env mobo_init) as [st|e] eqn:E.
  - pose proof (registry_strategy_stripped env st E) as Hst.
    destruct (negb (truthy_str (default [] (mobo_name st))));
      [apply wmi_strategy_stripped|]; exact Hst.
  - assert (Hst : name_is_stripped mobo_init) by (left; reflexivity).
    destruct (negb (truthy_str (default [] (mobo_name mobo_init))));
      [apply wmi_strategy_stripped|]; exact Hst.
Qed.

(** X5. On Windows [get_system_info] never raises, and the entry
    ["Motherboard"] of its result is never empty and carries no white
    space around it: it is a trimmed name or the sentinel ["N/A"].  The
    entry ["OS"] is the system name, a space and the release. *)
Theorem windows_system_info_entries (env : board_env) :
  is_windows env = true ->
  exists (d : dict) (m : pystr),
    get_system_info env = Ok d
    /\ d !! "Motherboard" = Some m
    /\ m <> [] /\ py_strip m = m
    /\ d !! "OS" = Some (platform_system env ++ str " " ++ platform_release env).
Proof.
  intros Hw. unfold get_system_info. rewrite Hw, bind_Ok.
  exists (<["OS" := platform_system env ++ str " " ++ platform_release env]>
            (if debug env
             then windows_debug_fields (windows_board env)
                    (<["Motherboard" := or_na (mobo_name (windows_board env))]> ∅)
             else <["Motherboard" := or_na (mobo_name (windows_board env))]> ∅)),
         (or_na (mobo_name (windows_board env))).
  split; [reflexivity|]. split.
  { rewrite lookup_insert_ne by discriminate. destruct (debug env).
    - unfold windows_debug_fields. rewrite !lookup_insert_ne by discriminate.
      apply lookup_insert_eq.
    - apply lookup_insert_eq. }
  split; [|split; [|apply lookup_insert_eq]].
  - unfold or_na, str_or.
    destruct (default [] (mobo_name (windows_board env))); discriminate.
  - destruct (windows_board_stripped env) as [-> | (t & ->)].
    + vm_compute. reflexivity.
    + unfold or_na, str_or. cbn [default from_option id].
      destruct (truthy_str (py_strip t)); [apply py_strip_idem|].
      vm_compute. reflexivity.
Qed.

Lemma windows_system_info_entries_witness :
  exists (d : dict) (m : pystr),
    get_system_info bare_registry_env = Ok d
    /\ d !! "Motherboard" = Some m
    /\ m <> [] /\ py_strip m = m
    /\ d !! "OS" = Some (str "Windows" ++ str " " ++ str "10").
Proof. apply (windows_system_info_entries bare_registry_env). reflexivity. Defined.

(** X6. On Windows, when the registry key cannot be opened, the name comes
    from the first instance of [Win32_BaseBoard]: the short vendor name,
    a space and the product as WMI gives it, trimmed.  The product is
    taken as it is, placeholder or not. *)
Theorem board_name_from_wmi (env : board_env) (e : exn) (bb : base_board)
    (rest : list base_board) (manu product : pystr) :
  is_windows env = true ->
  open_bios_key env = Raise e ->
  win32_baseboard env = Ok (bb :: rest) ->
  or_empty_strip (bb_Manufacturer bb) = Ok manu ->
  or_empty_strip (bb_Product bb) = Ok product ->
  manu <> [] \/ product <> [] ->
  exists d,
    get_system_info env = Ok d
    /\ d !! "Motherboard"
       = Some (py_strip (_short_vendor manu ++ str " " ++ product)).
Proof.
  intros Hw Hkey Hbb Hmanu Hproduct Hsome.
  pose proof (wmi_strategy_first_board env bb rest manu product
                Hbb Hmanu Hproduct Hsome) as Hname.
  assert (Hboard : windows_board env = wmi_strategy env mobo_init).
  { unfold windows_board, registry_strategy. rewrite Hkey. reflexivity. }
  assert (Ht : truthy_str (py_strip (_short_vendor manu ++ str " " ++ product))
               = true) by apply mobo_name_truthy, short_vendor_head.
  unfold get_system_info. rewrite Hw, Hboard, bind_Ok.
  eexists. split; [reflexivity|].
  rewrite lookup_insert_ne by discriminate.
  unfold or_na. rewrite Hname. cbn [default from_option id].
  rewrite (str_or_truthy _ _ Ht).
  destruct (debug env).
  - unfold windows_debug_fields. rewrite !lookup_insert_ne by discriminate.
    apply lookup_insert_eq.
  - apply lookup_insert_eq.
Qed.

Lemma board_name_from_wmi_witness :
  exists d,
    get_system_info wmi_only_env = Ok d
    /\ d !! "Motherboard" = Some (str "ASUS ROG STRIX B550-F GAMING").
Proof.
  destruct (board_name_from_wmi wmi_only_env PermissionError
              {| bb_Manufacturer := PStr (str "ASUSTeK COMPUTER INC.");
                 bb_Product := PStr (str "ROG STRIX B550-F GAMING");
                 bb_Version := PStr (str "Rev X.0x") |} []
              (str "ASUSTeK COMPUTER INC.") (str "ROG STRIX B550-F GAMING"))
    as (d & Hd & Hm); try reflexivity.
  - left. discriminate.
  - exists d. split; [exact Hd|]. rewrite Hm. vm_compute. reflexivity.
Defined.
(** ** The entries of [get_disk_info] *)

Lemma size_str_of_shape (size_val : option Z) (s : pystr) :
  size_str_of size_val = Ok s ->
  s = str "N/A" \/ exists x, s = x ++ str " GB".
Proof.
  unfold size_str_of. destruct size_val as [v|].
  - destruct (int_truediv v (1024 ^ 3)) as [gb|e]; [|discriminate].
    rewrite bind_Ok. intros H. injection H as <-. right. eauto.
  - intros H. injection H as <-. left. reflexivity.
Qed.

Lemma tier1_item_ok (pd : physical_disk) (ds : list dict) :
  tier1_item pd = Ok ds -> Forall disk_entry_ok ds.
Proof.
  unfold tier1_item.
  destruct (size_str_of _) as [size_str|e] eqn:Esize; [|discriminate].
  rewrite bind_Ok.
  destruct (val_strip _) as [name|e]; [|discriminate]. rewrite bind_Ok.
  intros H. injection H as <-. constructor; [|constructor].
  eexists _, _, _. split; [reflexivity|]. split.
  - destruct (py_int (default (PInt 0) (pd_MediaType pd))) as [mt|e].
    + destruct (mt =? 3); [auto|].
      destruct ((mt =? 4) || (mt =? 5)); [auto|].
      change (str_eqb (str "N/A") (str "N/A")) with true. cbv iota.
      destruct (py_int (default (PInt 0) (pd_SpindleSpeed pd))) as [sp|e];
        [|auto].
      destruct (0 <? sp); [auto|]. destruct (sp =? 0); auto.
    + change (str_eqb (str "N/A") (str "N/A")) with true. cbv iota.
      destruct (py_int (default (PInt 0) (pd_SpindleSpeed pd))) as [sp|e'];
        [|auto].
      destruct (0 <? sp); [auto|]. destruct (sp =? 0); auto.
  - eapply size_str_of_shape, Esize.
Qed.

Lemma tier2_item_ok (it : ps_disk) (ds : list dict) :
  tier2_item it = Ok ds -> Forall disk_entry_ok ds.
Proof.
  unfold tier2_item.
  destruct (val_strip (py_or (ps_FriendlyName it) _)) as [name|e];
    [|discriminate]. rewrite bind_Ok.
  destruct (size_str_of _) as [size_str|e] eqn:Esize; [|discriminate].
  rewrite bind_Ok.
  destruct (val_strip (py_or (ps_MediaType it) _)) as [mt0|e];
    [|discriminate]. rewrite bind_Ok.
  intros H. injection H as <-. constructor; [|constructor].
  eexists _, _, _. split; [reflexivity|]. split.
  - destruct (str_eqb (py_upper mt0) (str "SSD")
              || str_eqb (py_upper mt0) (str "SCM")); [auto|].
    destruct (str_eqb (py_upper mt0) (str "HDD")); auto.
  - eapply size_str_of_shape, Esize.
Qed.

(** What the third tier appends for a drive: nothing, or one entry with
    a determined type and a model that is not empty. *)
Lemma tier3_item_shape (disk : disk_drive) (ds : list dict) :
  tier3_item disk = Ok ds ->
  ds = []
  \/ exists model size type,
       ds = [disk_dict model (size ++ str " GB") type]
       /\ model <> []
       /\ (type = str "SSD" \/ type = str "HDD").
Proof.
  unfold tier3_item. destruct (truthy (dd_Size disk)).
  - destruct (py_int (dd_Size disk)) as [sz|e]; [|discriminate].
    rewrite bind_Ok.
    destruct (int_truediv sz (1024 ^ 3)) as [gb|e]; [|discriminate].
    rewrite bind_Ok.
    destruct (val_strip _) as [model|e]; [|discriminate]. rewrite bind_Ok.
    destruct (val_upper (py_or (default (PStr []) (dd_PNPDeviceID disk)) _))
      as [pnp|e]; [|discriminate]. rewrite bind_Ok.
    destruct (val_upper (py_or (default (PStr []) (dd_SerialNumber disk)) _))
      as [serial|e]; [|discriminate]. rewrite bind_Ok.
    intros H. injection H as <-. right. eexists _, _, _.
    split; [reflexivity|]. split.
    + unfold str_or. destruct model; discriminate.
    + destruct (contains (str "NVME") pnp || contains (str "NVME") (py_upper model)
                || contains (str "NVME") serial); [auto|].
      destruct (contains (str "SSD") (py_upper model)); auto.
  - intros H. injection H as <-. left. reflexivity.
Qed.

Lemma tier3_item_ok (disk : disk_drive) (ds : list dict) :
  tier3_item disk = Ok ds -> Forall disk_entry_ok ds.
Proof.
  intros H. apply tier3_item_shape in H
    as [-> | (model & size & type & -> & _ & Htype)]; [constructor|].
  constructor; [|constructor]. eexists _, _, _. split; [reflexivity|].
  split; [tauto | right; eauto].
Qed.

(** A loop over a provider keeps what holds of the list and of every
    entry it appends. *)
Lemma append_loop_Forall {I : Type} (P : dict -> Prop)
    (f : I -> result (list dict)) (items : list I) :
  (forall it ds, f it = Ok ds -> Forall P ds) ->
  forall acc, Forall P acc -> Forall P (fst (append_loop f items acc)).
Proof.
  intros Hf. induction items as [|it items IH]; intros acc Hacc; simpl;
    [exact Hacc|].
  destruct (f it) as [ds|e] eqn:E; [|exact Hacc].
  apply IH. apply Forall_app. split; [exact Hacc | eapply Hf, E].
Qed.

Lemma run_tier_Forall {I : Type} (P : dict -> Prop)
    (f : I -> result (list dict)) (provider : result (list I)) :
  (forall it ds, f it = Ok ds -> Forall P ds) ->
  forall acc, Forall P acc -> Forall P (fst (run_tier f provider acc)).
Proof.
  intros Hf acc Hacc. unfold run_tier. destruct provider as [items|e];
    [apply append_loop_Forall; assumption | exact Hacc].
Qed.

Lemma append_loop_prefix {I : Type} (f : I -> result (list dict))
    (items : list I) :
  forall acc, acc `prefix_of` fst (append_loop f items acc).
Proof.
  induction items as [|it items IH]; intros acc; simpl; [reflexivity|].
  destruct (f it) as [ds|e]; [|reflexivity].
  etransitivity; [|apply IH]. apply prefix_app_r. reflexivity.
Qed.

Lemma run_tier_prefix {I : Type} (f : I -> result (list dict))
    (provider : result (list I)) (acc : list dict) :
  acc `prefix_of` fst (run_tier f provider acc).
Proof.
  unfold run_tier. destruct provider; [apply append_loop_prefix | reflexivity].
Qed.

(** X7. Every entry that [get_disk_info] returns on Windows has the keys
    ["Model"], ["Size"] and ["Type"] and no other, its type is ["SSD"],
    ["HDD"] or ["N/A"], and its size is ["N/A"] or ends in [" GB"],
    whatever the three providers answer. *)
Theorem disk_info_entries_ok (env : disk_env) :
  Forall disk_entry_ok (snd (get_disk_info env)).
Proof.
  unfold get_disk_info, last_resort.
  pose proof (run_tier_Forall disk_entry_ok tier1_item (msft_physicaldisk env)
                tier1_item_ok [] (Forall_nil_2 _)) as H1.
  destruct (run_tier tier1_item (msft_physicaldisk env) []) as [d1 r1].
  cbn [fst] in H1.
  destruct r1.
  - pose proof (run_tier_Forall disk_entry_ok tier2_item (get_physicaldisk env)
                  tier2_item_ok d1 H1) as H2.
    destruct (run_tier tier2_item (get_physicaldisk env) d1) as [d2 r2].
    cbn [fst] in H2.
    destruct (negb r2 && nonempty d2); cbn [snd]; [exact H2|].
    apply run_tier_Forall; [exact tier3_item_ok | exact H2].
  - destruct (nonempty d1); cbn [snd]; [exact H1|].
    apply run_tier_Forall; [exact tier3_item_ok | exact H1].
Qed.

(** X8. The disks that the first tier appended before it ended or raised
    stay in the list: the result of [get_disk_info] starts with them, and
    what later tiers find is appended behind. *)
Theorem disk_info_keeps_partial_results (env : disk_env) :
  fst (run_tier tier1_item (msft_physicaldisk env) [])
  `prefix_of` snd (get_disk_info env).
Proof.
  unfold get_disk_info, last_resort.
  destruct (run_tier tier1_item (msft_physicaldisk env) []) as [d1 r1].
  cbn [fst]. destruct r1.
  - pose proof (run_tier_prefix tier2_item (get_physicaldisk env) d1) as H2.
    destruct (run_tier tier2_item (get_physicaldisk env) d1) as [d2 r2].
    cbn [fst] in H2.
    destruct (negb r2 && nonempty d2); cbn [snd]; [exact H2|].
    etransitivity; [exact H2 | apply run_tier_prefix].
  - destruct (nonempty d1); cbn [snd]; [reflexivity | apply run_tier_prefix].
Qed.

(** A first tier that lists a disk and then fails leaves that disk in
    the list, and the second tier lists it once more. *)
Example disk_info_lists_a_disk_twice :
  snd (get_disk_info stumbling_storage_env)
  = [disk_dict (str "Samsung SSD 970 EVO") (str "465.8 GB") (str "SSD");
     disk_dict (str "Samsung SSD 970 EVO") (str "465.8 GB") (str "SSD")].
Proof. vm_compute. reflexivity. Qed.

(** X9. In the first tier a disk without the attribute [SpindleSpeed]
    never keeps the type ["N/A"]: unless the media type says HDD it is
    reported as SSD, also when the media type is unspecified. *)
Theorem tier1_absent_spindle_speed (pd : physical_disk) (ds : list dict) :
  pd_SpindleSpeed pd = None ->
  tier1_item pd = Ok ds ->
  Forall disk_type_known ds.
Proof.
  intros Hsp. unfold tier1_item. rewrite Hsp.
  destruct (size_str_of _) as [size_str|e]; [|discriminate]. rewrite bind_Ok.
  destruct (val_strip _) as [name|e]; [|discriminate]. rewrite bind_Ok.
  intros H. injection H as <-. constructor; [|constructor].
  unfold disk_type_known, disk_dict.
  rewrite !lookup_insert_ne by discriminate. rewrite !lookup_insert_eq.
  destruct (py_int (default (PInt 0) (pd_MediaType pd))) as [mt|e].
  - destruct (mt =? 3); [auto|].
    destruct ((mt =? 4) || (mt =? 5)); [auto|]. left. reflexivity.
  - left. reflexivity.
Qed.

Lemma tier1_absent_spindle_speed_witness :
  Forall disk_type_known
    [disk_dict (str "WDC WD10EZEX") (str "931.5 GB") (str "SSD")].
Proof.
  apply (tier1_absent_spindle_speed a_silent_physical_disk); reflexivity.
Defined.

(** X10. The third tier never leaves a type undetermined and never an
    empty model: every entry it appends has the type ["SSD"] or ["HDD"],
    a model that is not empty and a size in GB; a drive without a size
    is passed over. *)
Theorem tier3_entries_determined (disk : disk_drive) (ds : list dict) :
  tier3_item disk = Ok ds ->
  (truthy (dd_Size disk) = false -> ds = [])
  /\ Forall (fun d =>
       disk_type_known d
       /\ (exists model, d !! "Model" = Some model /\ model <> [])
       /\ (exists x, d !! "Size" = Some (x ++ str " GB"))) ds.
Proof.
  intros H. split.
  - intros Hsize. unfold tier3_item in H. rewrite Hsize in H.
    injection H as <-. reflexivity.
  - apply tier3_item_shape in H
      as [-> | (model & size & type & -> & Hmodel & Htype)]; [constructor|].
    constructor; [|constructor]. unfold disk_type_known, disk_dict.
    rewrite !lookup_insert_ne by discriminate. rewrite !lookup_insert_eq.
    rewrite lookup_insert_ne by discriminate. rewrite lookup_insert_eq.
    split; [destruct Htype as [-> | ->]; auto|]. split; eauto.
Qed.

Lemma tier3_entries_determined_witness :
  Forall (fun d =>
       disk_type_known d
       /\ (exists model, d !! "Model" = Some model /\ model <> [])
       /\ (exists x, d !! "Size" = Some (x ++ str " GB")))
    [disk_dict (str "KINGSTON SNV2S1000G") (str "931.5 GB") (str "SSD")].
Proof.
  apply (tier3_entries_determined an_nvme_drive). reflexivity.
Defined.

(** ** More on rounding *)

Open Scope Q_scope.

Lemma Qle_bool_compat (a b c d : Q) :
  a == b -> c == d -> Qle_bool a c = Qle_bool b d.
Proof.
  intros H1 H2.
  destruct (Qle_bool a c) eqn:E1; destruct (Qle_bool b d) eqn:E2;
    try reflexivity; exfalso.
  - apply Qle_bool_iff in E1. rewrite H1, H2 in E1.
    apply Qle_bool_iff in E1. congruence.
  - apply Qle_bool_iff in E2. rewrite <- H1, <- H2 in E2.
    apply Qle_bool_iff in E2. congruence.
Qed.

(** Rounding does not depend on how the rational is written. *)
Lemma round_mag_compat (q1 q2 : Q) : q1 == q2 -> round_mag q1 = round_mag q2.
Proof.
  intros H. unfold round_mag.
  rewrite (Qle_bool_compat q1 q2 0 0 H (Qeq_refl 0)).
  destruct (Qle_bool q2 0) eqn:E0; [reflexivity|].
  assert (Hq2 : 0 < q2).
  { apply Qnot_le_lt. intros Hle. apply Qle_bool_iff in Hle. congruence. }
  assert (Hq1 : 0 < q1) by (rewrite H; exact Hq2).
  assert (H12 : q1 <= q2) by (rewrite H; apply Qle_refl).
  assert (H21 : q2 <= q1) by (rewrite H; apply Qle_refl).
  pose proof (round_core_mono q1 q2 Hq1 H12) as Ha.
  pose proof (round_core_mono q2 q1 Hq2 H21) as Hb.
  set (v1 := inject_Z (rne (q1 / pow2 (Z.max (ilog2 q1 - 52) (-1074))))
             * pow2 (Z.max (ilog2 q1 - 52) (-1074))) in *.
  set (v2 := inject_Z (rne (q2 / pow2 (Z.max (ilog2 q2 - 52) (-1074))))
             * pow2 (Z.max (ilog2 q2 - 52) (-1074))) in *.
  assert (E : v1 == v2) by (apply Qle_antisym; assumption).
  rewrite (Qle_bool_compat (pow2 1024) (pow2 1024) v1 v2 (Qeq_refl _) E).
  destruct (Qle_bool (pow2 1024) v2); [reflexivity|].
  f_equal. apply Qred_complete, E.
Qed.

Lemma ilog2_unique (q : Q) (k : Z) :
  pow2 k <= q -> q < pow2 (k + 1) -> ilog2 q = k.
Proof.
  intros Hlow Hup.
  assert (Hq : 0 < q) by (pose proof (pow2_pos k); lra).
  destruct (ilog2_spec q Hq) as [Ha Hb].
  assert (H1 : pow2 k < pow2 (ilog2 q + 1)) by lra.
  assert (H2 : pow2 (ilog2 q) < pow2 (k + 1)) by lra.
  apply pow2_lt_inv in H1, H2. lia.
Qed.

(** An integer of at most 53 bits is a float. *)
Lemma round_mag_small_int (k : Z) :
  (0 <= k < 2 ^ 53)%Z -> round_mag (inject_Z k) = Some (inject_Z k).
Proof.
  intros [Hk0 Hk]. destruct (Z.eq_dec k 0%Z) as [->|Hne]; [reflexivity|].
  assert (Hpos : (0 < k)%Z) by lia.
  unfold round_mag.
  assert (E0 : Qle_bool (inject_Z k) 0 = false).
  { destruct (Qle_bool (inject_Z k) 0) eqn:E; [|reflexivity].
    apply Qle_bool_iff in E. change 0 with (inject_Z 0) in E.
    rewrite <- Zle_Qle in E. lia. }
  rewrite E0.
  destruct (Zlog2_pow2_bounds k Hpos) as [Hlow Hup].
  pose proof (Z.log2_nonneg k) as Hn.
  assert (Hl : (Z.log2 k < 53)%Z) by (apply Z.log2_lt_pow2; lia).
  assert (He : ilog2 (inject_Z k) = Z.log2 k).
  { apply ilog2_unique; [exact Hlow|].
    rewrite pow2_plus. change (pow2 1) with 2. lra. }
  rewrite He. set (e := Z.log2 k) in *.
  rewrite Z.max_l by lia.
  assert (Ediv : inject_Z k / pow2 (e - 52) == inject_Z (k * 2 ^ (52 - e))).
  { rewrite inject_Z_mult, <- pow2_Z by lia.
    assert (Hp : pow2 (52 - e) * pow2 (e - 52) == 1).
    { rewrite <- pow2_plus. replace (52 - e + (e - 52))%Z with 0%Z by lia.
      reflexivity. }
    pose proof (pow2_pos (e - 52)) as Hpp.
    apply Qmult_inj_r with (pow2 (e - 52)); [lra|].
    unfold Qdiv. rewrite <- !Qmult_assoc, Hp.
    rewrite (Qmult_comm (/ pow2 (e - 52))), Qmult_inv_r by lra. reflexivity. }
  rewrite (rne_compat _ _ Ediv), rne_inject_Z.
  assert (Ev : inject_Z (k * 2 ^ (52 - e)) * pow2 (e - 52) == inject_Z k).
  { rewrite inject_Z_mult, <- pow2_Z by lia. rewrite <- Qmult_assoc.
    rewrite <- pow2_plus. replace (52 - e + (e - 52))%Z with 0%Z by lia.
    change (pow2 0) with 1. ring. }
  rewrite (Qle_bool_compat (pow2 1024) (pow2 1024) _ (inject_Z k)
             (Qeq_refl _) Ev).
  assert (Eo : Qle_bool (pow2 1024) (inject_Z k) = false).
  { destruct (Qle_bool (pow2 1024) (inject_Z k)) eqn:E; [|reflexivity].
    apply Qle_bool_iff in E. rewrite pow2_Z in E by lia.
    rewrite <- Zle_Qle in E. exfalso.
    assert ((2 ^ 53 < 2 ^ 1024)%Z) by (apply Z.pow_lt_mono_r; lia). lia. }
  rewrite Eo. f_equal.
  rewrite (Qred_complete _ _ Ev). apply Qred_identity. simpl.
  apply Z.gcd_1_r.
Qed.

Close Scope Q_scope.
(** ** Sizes: rendering and reading back *)

Lemma to_float_mono (q1 q2 : Q) :
  (q1 <= q2)%Q -> fltb (to_float q2) (to_float q1) = false.
Proof.
  intros H. unfold to_float.
  destruct (round_mag q2) as [v2|] eqn:E2.
  - destruct (round_mag_mono q1 q2 v2 H E2) as (v1 & -> & Hv).
    apply fltb_Fin_false. exact Hv.
  - destruct (round_mag q1); reflexivity.
Qed.

Lemma to_float_compat (q1 q2 : Q) : (q1 == q2)%Q -> to_float q1 = to_float q2.
Proof. intros H. unfold to_float. rewrite (round_mag_compat q1 q2 H). reflexivity. Qed.

Lemma digit_of_digit_val (k : Z) :
  0 <= k < 10 -> is_digit (ascii_of_N (Z.to_N k + 48)) = true.
Proof.
  intros Hk.
  assert (H : k = 0 \/ k = 1 \/ k = 2 \/ k = 3 \/ k = 4 \/ k = 5 \/ k = 6
              \/ k = 7 \/ k = 8 \/ k = 9) by lia.
  repeat (destruct H as [->|H]; [reflexivity|]). subst k. reflexivity.
Qed.

Lemma str_of_nonneg_nonempty (z : Z) : str_of_nonneg z <> [].
Proof. destruct (str_of_nonneg_head z) as (c & rest & -> & _). discriminate. Qed.

Lemma fixed_text_is_decimal (t : Z) : 0 <= t -> is_decimal (fixed_text 1 t).
Proof.
  intros Ht. right. exists (str_of_nonneg (t / 10 ^ Z.of_nat 1)), (frac_digits 1 t).
  split; [reflexivity|]. split.
  - split; [apply str_of_nonneg_nonempty | apply str_of_nonneg_digits].
  - split; [discriminate|]. cbn [frac_digits].
    constructor; [|constructor].
    apply digit_of_digit_val. apply Z.mod_pos_bound. lia.
Qed.

(** The text of [t] tenths, followed by [" GB"], is read as [t / 10]. *)
Lemma parse_fixed_text (t : Z) :
  0 <= t -> _parse_gb (fixed_text 1 t ++ str " GB") = to_float (t # 10).
Proof.
  intros Ht.
  assert (Hm : match_here gb_re (fixed_text 1 t ++ str " " ++ str "GB" ++ [])
               = Some ([], Some (fixed_text 1 t))).
  { apply gb_match_complete.
    - apply fixed_text_is_decimal, Ht.
    - repeat constructor.
    - exists "G"%char, "B"%char. repeat split. }
  assert (Hs : re_search gb_re (fixed_text 1 t ++ str " GB")
               = Some ([], Some (fixed_text 1 t))).
  { apply (re_search_first gb_re _ 0%nat).
    - intros j Hj. lia.
    - rewrite drop_0. exact Hm. }
  unfold _parse_gb. rewrite Hs.
  assert (Hne : truthy_str (fixed_text 1 t ++ str " GB") = true)
    by (apply truthy_app_r; reflexivity).
  rewrite Hne. cbn [negb]. unfold py_float.
  apply to_float_compat, fixed_text_value, Ht.
Qed.

(** What [_fmt_gb_from_bytes] returns on an integer. *)
Lemma fmt_gb_text (n : Z) (s : pystr) :
  _fmt_gb_from_bytes (PInt n) = Ok s ->
  exists v,
    round_mag (inject_Z (if n <? 0 then 0 else n) / inject_Z (1024 ^ 3)) = Some v
    /\ s = fixed_text 1 (fixed_units 1 (shown v)) ++ str " GB"
    /\ 0 <= fixed_units 1 (shown v).
Proof.
  intros H. destruct (fmt_gb_returns_round n s H) as (v & Hr).
  pose proof (round_mag_nonneg _ _ Hr) as Hv.
  rewrite (fmt_gb_of_round n v Hr) in H. injection H as <-.
  exists v. split; [exact Hr|]. split; [reflexivity|].
  destruct (shown_mono v v Hv (Qle_refl v)) as [Hs _].
  apply (fixed_units_mono (shown v) (shown v) Hs (Qle_refl _)).
Qed.

(** X12. A text rendered by [_fmt_gb_from_bytes] is read back by
    [_parse_gb] as the number it shows: the text is that of some number
    [t] of tenths, and its reading is the float nearest to [t / 10]. *)
Theorem fmt_gb_then_parse_gb (n : Z) (s : pystr) :
  _fmt_gb_from_bytes (PInt n) = Ok s ->
  exists t : Z,
    0 <= t
    /\ s = fixed_text 1 t ++ str " GB"
    /\ _parse_gb s = to_float (t # 10).
Proof.
  intros H. destruct (fmt_gb_text n s H) as (v & _ & -> & Ht).
  eexists. split; [exact Ht|]. split; [reflexivity|].
  apply parse_fixed_text, Ht.
Qed.

Lemma fmt_gb_then_parse_gb_witness :
  exists t : Z,
    0 <= t
    /\ str "8.0 GB" = fixed_text 1 t ++ str " GB"
    /\ _parse_gb (str "8.0 GB") = to_float (t # 10).
Proof.
  apply (fmt_gb_then_parse_gb 8589934592). vm_compute. reflexivity.
Defined.

(** X13. Rendering and reading back keep the order of the byte counts:
    of two adapters the one with more bytes of memory never reads as
    less. *)
Theorem fmt_gb_parse_gb_monotone (n m : Z) (sn sm : pystr) :
  n <= m ->
  _fmt_gb_from_bytes (PInt n) = Ok sn ->
  _fmt_gb_from_bytes (PInt m) = Ok sm ->
  fltb (_parse_gb sm) (_parse_gb sn) = false.
Proof.
  intros Hnm Hn Hm.
  destruct (fmt_gb_text n sn Hn) as (v1 & Hr1 & -> & Ht1).
  destruct (fmt_gb_text m sm Hm) as (v2 & Hr2 & -> & Ht2).
  destruct (round_mag_mono _ _ _ (clamped_quotient n m Hnm) Hr2)
    as (v1' & Hr1' & H12).
  rewrite Hr1 in Hr1'. injection Hr1' as <-.
  pose proof (round_mag_nonneg _ _ Hr1) as Hv1.
  destruct (shown_mono v1 v2 Hv1 H12) as [Hs1 Hs12].
  destruct (fixed_units_mono (shown v1) (shown v2) Hs1 Hs12) as [_ Hu].
  rewrite !parse_fixed_text by assumption.
  apply to_float_mono. unfold Qle. simpl. lia.
Qed.

Lemma fmt_gb_parse_gb_monotone_witness :
  fltb (_parse_gb (str "16.0 GB")) (_parse_gb (str "8.0 GB")) = false.
Proof.
  apply (fmt_gb_parse_gb_monotone 8589934592 17179869184);
    [lia | vm_compute; reflexivity | vm_compute; reflexivity].
Defined.

(** X14. A whole number of gibibytes is rendered exactly: [k * 1024^3]
    bytes give the text of [k] followed by [".0 GB"], for every [k] below
    2^53. *)
Theorem fmt_gb_whole_gibibytes (k : Z) :
  0 <= k < 2 ^ 53 ->
  _fmt_gb_from_bytes (PInt (k * 1024 ^ 3)) = Ok (py_str_int k ++ str ".0 GB").
Proof.
  intros Hk.
  assert (Hn : (k * 1024 ^ 3 <? 0) = false) by (apply Z.ltb_ge; lia).
  assert (Hq : (inject_Z (k * 1024 ^ 3) / inject_Z (1024 ^ 3) == inject_Z k)%Q).
  { rewrite inject_Z_mult. field. intros H0. vm_compute in H0. discriminate. }
  assert (Hr : round_mag (inject_Z (if k * 1024 ^ 3 <? 0 then 0 else k * 1024 ^ 3)
                          / inject_Z (1024 ^ 3)) = Some (inject_Z k)).
  { rewrite Hn, (round_mag_compat _ _ Hq). apply round_mag_small_int, Hk. }
  rewrite (fmt_gb_of_round _ _ Hr).
  assert (Hu : fixed_units 1 (shown (inject_Z k)) = k * 10).
  { unfold shown.
    assert (Hk0 : (0 <= inject_Z k)%Q)
      by (change 0%Q with (inject_Z 0); rewrite <- Zle_Qle; lia).
    rewrite (Qle_bool_abs c005 _ Hk0).
    destruct (Qle_bool c005 (inject_Z k)) eqn:E.
    - rewrite (fixed_units_nonneg_arg _ Hk0).
      rewrite <- inject_Z_mult. apply rne_inject_Z.
    - assert (k = 0).
      { destruct (Z.eq_dec k 0) as [->|Hne]; [reflexivity|]. exfalso.
        assert (Hc : Qle_bool c005 (inject_Z k) = true).
        { apply Qle_bool_iff. apply Qle_trans with (inject_Z 1).
          - vm_compute. discriminate.
          - rewrite <- Zle_Qle. lia. }
        congruence. }
      subst k. reflexivity. }
  rewrite Hu. unfold fixed_text. cbn [frac_digits Z.of_nat Pos.of_succ_nat Pos.succ].
  change (10 ^ Z.pos 1) with 10. change (10 ^ 0) with 1.
  rewrite Z.div_mul by lia. rewrite Z.div_1_r.
  replace ((k * 10) mod 10) with 0 by (symmetry; apply Z.mod_mul; lia).
  unfold py_str_int.
  assert (Hneg : (k <? 0) = false) by (apply Z.ltb_ge; lia).
  rewrite Hneg. rewrite <- app_assoc. reflexivity.
Qed.

Lemma fmt_gb_whole_gibibytes_witness :
  _fmt_gb_from_bytes (PInt (24 * 1024 ^ 3)) = Ok (py_str_int 24 ++ str ".0 GB").
Proof. apply fmt_gb_whole_gibibytes. lia. Defined.

(** ** [get_gpu_info]: the shape of the entries *)

Lemma str_or_nonempty (a b : pystr) : b <> [] -> str_or a b <> [].
Proof.
  intros Hb. unfold str_or. destruct a as [|c a]; simpl; [exact Hb|discriminate].
Qed.

Lemma wmi_adapter_entries_ok (nvml_gpus dxgi_gpus : list gpu_entry)
    (gpu : video_controller) (ds : list dict) :
  wmi_adapter nvml_gpus dxgi_gpus gpu = Ok ds -> Forall gpu_entry_ok ds.
Proof.
  unfold wmi_adapter.
  destruct (negb (truthy (vc_Name gpu))).
  { intros H. injection H as <-. constructor. }
  destruct (vc_Name gpu) as [|z|name|]; try discriminate.
  destruct (contains (str "Microsoft") name).
  { intros H. injection H as <-. constructor. }
  intros H. injection H as <-. constructor; [|constructor].
  eexists _, _. split; [reflexivity|].
  apply str_or_nonempty. discriminate.
Qed.

Lemma collect_Forall {I : Type} (P : dict -> Prop) (f : I -> result (list dict)) :
  (forall it ds, f it = Ok ds -> Forall P ds) ->
  forall items out, collect f items = Ok out -> Forall P out.
Proof.
  intros Hf. induction items as [|it items IH]; simpl; intros out H.
  - injection H as <-. constructor.
  - destruct (f it) as [ds|e] eqn:E; simpl in H; [|discriminate].
    destruct (collect f items) as [more|e]; simpl in H; [|discriminate].
    injection H as <-. apply Forall_app. split; [eapply Hf, E | apply IH; reflexivity].
Qed.

Lemma entry_dicts_ok (l : list gpu_entry) :
  Forall vram_ok l -> Forall gpu_entry_ok (map entry_dict l).
Proof.
  induction 1 as [|g l Hg _ IH]; simpl; constructor; [|exact IH].
  exists (g_model g), (g_vram g). split; [reflexivity|].
  unfold vram_ok in Hg. destruct (g_vram g); [discriminate Hg|discriminate].
Qed.

(** The entries of [get_gpu_info] are well formed. *)
Lemma gpu_info_entries_ok_aux (env : gpu_env) :
  Forall gpu_entry_ok (get_gpu_info env).
Proof.
  unfold get_gpu_info.
  assert (Hfb : Forall gpu_entry_ok
                  (if nonempty (nvml_gpus_of env)
                   then map entry_dict (nvml_gpus_of env)
                   else map entry_dict (dxgi_gpus_of env))).
  { destruct (nonempty (nvml_gpus_of env));
      apply entry_dicts_ok; [apply nvml_gpus_vram_ok | apply dxgi_gpus_vram_ok]. }
  cbv zeta.
  destruct (win32_videocontroller env) as [gpus|e]; simpl; [|exact Hfb].
  destruct (collect _ gpus) as [wmi_list|e] eqn:E; [|exact Hfb].
  destruct (nonempty wmi_list); [|exact Hfb].
  eapply collect_Forall; [|exact E].
  intros it ds. apply wmi_adapter_entries_ok.
Qed.

(** X15. Every entry that [get_gpu_info] returns on Windows has exactly
    the keys ["Model"] and ["VRAM"], and its VRAM text is never empty,
    whichever providers answer or fail. *)
Theorem gpu_info_entries_ok (env : gpu_env) :
  Forall gpu_entry_ok (get_gpu_info env).
Proof. exact (gpu_info_entries_ok_aux env). Qed.

Lemma max_from_In {A : Type} (key : A -> pyfloat) (l : list A) :
  forall best : A, In (max_from key best l) (best :: l).
Proof.
  induction l as [|x l IH]; intros best; simpl; [left; reflexivity|].
  destruct (fgtb (key x) (key best)).
  - right. apply (IH x).
  - destruct (IH best) as [H|H]; [left; exact H | right; right; exact H].
Qed.

(** X16. The primary GPU chosen from a Windows detection is always a
    well-formed entry (["Model"] and a non-empty ["VRAM"]): the ["N/A"]
    entry when nothing was detected, and one of the detected entries
    otherwise. *)
Theorem primary_gpu_of_detection (env : gpu_env) :
  let g := _choose_primary_gpu (get_gpu_info env) in
  gpu_entry_ok g
  /\ (get_gpu_info env = [] -> g = na_gpu)
  /\ (get_gpu_info env <> [] -> In g (get_gpu_info env)).
Proof.
  cbv zeta. pose proof (gpu_info_entries_ok_aux env) as Hok.
  destruct (get_gpu_info env) as [|d l] eqn:E; simpl.
  - split; [|split; [reflexivity|congruence]].
    exists (str "N/A"), (str "N/A"). split; [reflexivity|discriminate].
  - pose proof (max_from_In gpu_key l d) as Hin.
    split; [|split; [discriminate|intros _; exact Hin]].
    rewrite List.Forall_forall in Hok. apply Hok, Hin.
Qed.

(** ** [get_ram_info] *)

Lemma win_module_index (i : Z) (module : physical_memory) (e : ram_module_entry) :
  win_module i module = Ok e -> rm_Module e = i.
Proof.
  unfold win_module.
  destruct (v ← pm_Manufacturer module; or_empty_strip v) as [manu|x];
    [|discriminate].
  rewrite bind_Ok.
  destruct (v ← pm_PartNumber module; or_empty_strip v) as [part|x];
    [|discriminate].
  rewrite bind_Ok. intros H. injection H as <-. reflexivity.
Qed.

Lemma win_modules_appends (ms : list physical_memory) :
  forall (k : nat) (acc : list ram_module_entry),
    exists es,
      win_modules (enumerate (Z.of_nat k) ms) acc = acc ++ es
      /\ map rm_Module es = map Z.of_nat (seq k (length es)).
Proof.
  induction ms as [|module ms IH]; intros k acc; simpl.
  - exists []. rewrite app_nil_r. split; reflexivity.
  - destruct (win_module (Z.of_nat k) module) as [e|x] eqn:E.
    + replace (Z.of_nat k + 1) with (Z.of_nat (S k)) by lia.
      destruct (IH (S k) (acc ++ [e])) as (es & -> & Hes).
      exists (e :: es). rewrite <- app_assoc. split; [reflexivity|].
      simpl. rewrite Hes, (win_module_index _ _ _ E). reflexivity.
    + exists []. rewrite app_nil_r. split; reflexivity.
Qed.

Lemma enumerate_indices {A : Type} (l : list A) :
  forall k : nat,
    map fst (enumerate (Z.of_nat k) l) = map Z.of_nat (seq k (length l)).
Proof.
  induction l as [|x l IH]; intros k; simpl; [reflexivity|].
  replace (Z.of_nat k + 1) with (Z.of_nat (S k)) by lia.
  rewrite IH. reflexivity.
Qed.

Lemma linux_modules_numbered (mods : list dict) :
  map rm_Module (map linux_module (enumerate 1 mods))
  = one_to (length (map linux_module (enumerate 1 mods))).
Proof.
  unfold one_to. rewrite !length_map.
  assert (Hlen : forall (k : Z) (l : list dict), length (enumerate k l) = length l).
  { intros k l. revert k. induction l as [|x l IH]; intros k; simpl;
      [reflexivity | rewrite IH; reflexivity]. }
  rewrite Hlen, <- (enumerate_indices mods 1), map_map.
  apply map_ext. intros [i m]. reflexivity.
Qed.

Lemma get_ram_info_modules (env : ram_env) (r : ram_report) :
  get_ram_info env = Ok r ->
  Modules r
  = if ram_on_windows env then
      match win32_physicalmemory env with
      | Ok modules => win_modules (enumerate 1 modules) []
      | Raise _ => []
      end
    else
      match (out ← dmidecode env;
             dmi_lines (py_split newline out) ([], ∅)) with
      | Ok (modules, _) => map linux_module (enumerate 1 modules)
      | Raise _ => []
      end.
Proof.
  unfold get_ram_info, ram_on_windows.
  destruct (virtual_memory_total env) as [total|x]; [|discriminate].
  rewrite bind_Ok.
  destruct (int_truediv total (1024 ^ 3)) as [gb|x]; [|discriminate].
  rewrite bind_Ok. intros H. injection H as <-. reflexivity.
Qed.

(** X17. The modules that [get_ram_info] reports are numbered 1, 2, ...
    without a gap, on either platform and also when the enumeration was
    cut short by a failure. *)
Theorem ram_modules_numbered (env : ram_env) (r : ram_report) :
  get_ram_info env = Ok r ->
  map rm_Module (Modules r) = one_to (length (Modules r)).
Proof.
  intros H. rewrite (get_ram_info_modules env r H).
  destruct (ram_on_windows env).
  - destruct (win32_physicalmemory env) as [modules|x]; [|reflexivity].
    destruct (win_modules_appends modules 1 []) as (es & Heq & Hes).
    change (Z.of_nat 1) with 1 in Heq. rewrite Heq. exact Hes.
  - destruct (out ← dmidecode env; dmi_lines (py_split newline out) ([], ∅))
      as [[modules cur]|x]; [|reflexivity].
    apply linux_modules_numbered.
Qed.

Lemma ram_modules_numbered_witness :
  map rm_Module [{| rm_Module := 1; rm_Manufacturer := str "Kingston";
                    rm_Capacity := str "8.0 GB"; rm_Speed := str "3200 MHz";
                    rm_PartNumber := str "KF432C16BB/8" |}]
  = one_to 1.
Proof.
  apply (ram_modules_numbered windows_ram_env
           {| Total_RAM := str "16.0 GB";
              Modules := [{| rm_Module := 1; rm_Manufacturer := str "Kingston";
                             rm_Capacity := str "8.0 GB";
                             rm_Speed := str "3200 MHz";
                             rm_PartNumber := str "KF432C16BB/8" |}] |}).
  vm_compute. reflexivity.
Defined.

Lemma win_module_ok (i : Z) (module : physical_memory) (e : ram_module_entry) :
  win_module i module = Ok e -> ram_entry_ok e.
Proof.
  unfold win_module.
  destruct (v ← pm_Manufacturer module; or_empty_strip v) as [manu|x] eqn:Em;
    [|discriminate].
  rewrite bind_Ok.
  destruct (v ← pm_PartNumber module; or_empty_strip v) as [part|x] eqn:Ep;
    [|discriminate].
  rewrite bind_Ok. intros H. injection H as <-.
  assert (Hm : exists s, manu = py_strip s).
  { destruct (pm_Manufacturer module) as [v|x]; [|discriminate].
    rewrite bind_Ok in Em. eapply or_empty_strip_result, Em. }
  assert (Hp : exists s, part = py_strip s).
  { destruct (pm_PartNumber module) as [v|x]; [|discriminate].
    rewrite bind_Ok in Ep. eapply or_empty_strip_result, Ep. }
  destruct Hm as (sm & ->). destruct Hp as (sp & ->).
  unfold ram_entry_ok. cbn [rm_Manufacturer rm_Speed rm_PartNumber rm_Capacity].
  repeat split.
  - destruct (negb (truthy_str (py_strip sm)) || _) eqn:E; [discriminate|].
    apply orb_false_iff in E. destruct E as [E _].
    destruct (py_strip sm); [discriminate E | discriminate].
  - destruct (negb (truthy_str (py_strip sm)) || _); [reflexivity|].
    apply py_strip_idem.
  - destruct (negb (truthy_str (py_strip sm)) || _) eqn:E; [left; reflexivity|].
    right. apply orb_false_iff in E. apply E.
  - unfold ram_speed_ok.
    match goal with |- context [match ?sv with Some _ => _ | None => _ end] =>
      destruct sv as [z|] end; [|left; reflexivity].
    destruct (z =? 0) eqn:Ez; cbn [negb]; [left; reflexivity|].
    right. exists z. split; [apply Z.eqb_neq, Ez | reflexivity].
  - unfold str_or. destruct (py_strip sp); discriminate.
  - unfold str_or. destruct (truthy_str (py_strip sp)); [|reflexivity].
    apply py_strip_idem.
  - match goal with |- context [match ?c with Ok _ => _ | Raise _ => _ end] =>
      destruct c as [s|x] eqn:Ec end; [|left; reflexivity].
    right.
    destruct (pm_Capacity module) as [v|y]; [|discriminate].
    rewrite bind_Ok in Ec.
    destruct (py_int v) as [n|y]; [|discriminate]. rewrite bind_Ok in Ec.
    destruct (int_truediv n (1024 ^ 3)) as [gb|y]; [|discriminate].
    rewrite bind_Ok in Ec. injection Ec as <-. eauto.
Qed.

Lemma win_modules_Forall (P : ram_module_entry -> Prop)
    (ms : list (Z * physical_memory)) :
  (forall i module e, win_module i module = Ok e -> P e) ->
  forall acc, Forall P acc -> Forall P (win_modules ms acc).
Proof.
  intros HP. induction ms as [|[i module] ms IH]; intros acc Hacc; simpl;
    [exact Hacc|].
  destruct (win_module i module) as [e|x] eqn:E; [|exact Hacc].
  apply IH. apply Forall_app. split; [exact Hacc|].
  constructor; [eapply HP, E | constructor].
Qed.

(** X18. On Windows every module of [get_ram_info] is filled in: the
    manufacturer is trimmed, not empty, and ["N/A"] in place of a
    placeholder vendor; the speed is ["N/A"] or an integer other than zero
    with its unit; the part number is trimmed and not empty; the capacity
    is ["N/A"] or ends in [" GB"]. *)
Theorem windows_ram_entries_ok (env : ram_env) (r : ram_report) :
  ram_on_windows env = true ->
  get_ram_info env = Ok r ->
  Forall ram_entry_ok (Modules r).
Proof.
  intros Hw H. rewrite (get_ram_info_modules env r H), Hw.
  destruct (win32_physicalmemory env) as [modules|x]; [|constructor].
  apply win_modules_Forall; [|constructor].
  intros i module e. apply win_module_ok.
Qed.

Lemma windows_ram_entries_ok_witness :
  Forall ram_entry_ok
    [{| rm_Module := 1; rm_Manufacturer := str "Kingston";
        rm_Capacity := str "8.0 GB"; rm_Speed := str "3200 MHz";
        rm_PartNumber := str "KF432C16BB/8" |}].
Proof.
  apply (windows_ram_entries_ok windows_ram_env
           {| Total_RAM := str "16.0 GB";
              Modules := [{| rm_Module := 1; rm_Manufacturer := str "Kingston";
                             rm_Capacity := str "8.0 GB";
                             rm_Speed := str "3200 MHz";
                             rm_PartNumber := str "KF432C16BB/8" |}] |});
    vm_compute; reflexivity.
Defined.

Lemma module_dict_speed (e : ram_module_entry) :
  dict_get (module_dict e) "Speed" [] = rm_Speed e.
Proof.
  unfold dict_get, module_dict.
  rewrite lookup_insert_ne by discriminate.
  rewrite lookup_insert_ne by discriminate.
  rewrite lookup_insert_eq. reflexivity.
Qed.

Lemma digits_match_here (t rest : pystr) :
  t <> [] -> Forall (fun c => is_digit c = true) t -> stops is_digit rest ->
  match_here digits_re (t ++ rest) = Some (rest, Some t).
Proof.
  intros Hne Ht Hstop. unfold match_here, digits_re. rewrite m_Grp.
  apply m_plus_greedy; try assumption.
  rewrite take_app_diff. reflexivity.
Qed.

Lemma speed_of_nonneg_text (z : Z) :
  0 <= z -> speed_of (str_of_nonneg z ++ str " MHz") = Some z.
Proof.
  intros Hz. unfold speed_of.
  rewrite re_search_unfold, digits_match_here.
  - rewrite (digits_value_str_of_nonneg z Hz). reflexivity.
  - apply str_of_nonneg_nonempty.
  - apply str_of_nonneg_digits.
  - reflexivity.
Qed.

Lemma speed_of_skip (c : ascii) (s : pystr) :
  is_digit c = false -> speed_of (c :: s) = speed_of s.
Proof.
  intros Hc. unfold speed_of. rewrite (re_search_unfold digits_re (c :: s)).
  unfold match_here at 1, digits_re at 1. rewrite m_Grp. unfold Plus.
  rewrite m_Seq, m_CC_cons, Hc. reflexivity.
Qed.

Lemma speed_of_mhz (z : Z) :
  speed_of (py_str_int z ++ str " MHz") = Some (Z.abs z).
Proof.
  unfold py_str_int. destruct (z <? 0) eqn:E.
  - apply Z.ltb_lt in E.
    change (("-"%char :: str_of_nonneg (- z)) ++ str " MHz")
      with ("-"%char :: (str_of_nonneg (- z) ++ str " MHz")).
    rewrite speed_of_skip by reflexivity.
    rewrite speed_of_nonneg_text by lia. f_equal. lia.
  - apply Z.ltb_ge in E. rewrite speed_of_nonneg_text by lia. f_equal. lia.
Qed.

Lemma win_module_speed_read_back (i : Z) (module : physical_memory)
    (e : ram_module_entry) :
  win_module i module = Ok e -> speed_read_back e.
Proof.
  intros H. pose proof (win_module_ok i module e H) as Hok.
  destruct Hok as (_ & _ & _ & Hs & _).
  unfold speed_read_back, module_speed. rewrite module_dict_speed.
  destruct Hs as [Hs | (z & Hz & Hs)]; rewrite Hs.
  - left. split; reflexivity.
  - right. exists z. split; [exact Hz|]. split; [reflexivity|].
    apply speed_of_mhz.
Qed.

(** X19. What the Windows branch of [get_ram_info] writes as the speed
    of a module is what [_summarize_ram] reads back: no speed from
    ["N/A"], and from a number with its unit the magnitude of that number
    (a sign is lost). *)
Theorem windows_ram_speed_read_back (env : ram_env) (r : ram_report) :
  ram_on_windows env = true ->
  get_ram_info env = Ok r ->
  Forall speed_read_back (Modules r).
Proof.
  intros Hw H. rewrite (get_ram_info_modules env r H), Hw.
  destruct (win32_physicalmemory env) as [modules|x]; [|constructor].
  apply win_modules_Forall; [|constructor].
  exact win_module_speed_read_back.
Qed.

Lemma windows_ram_speed_read_back_witness :
  Forall speed_read_back
    [{| rm_Module := 1; rm_Manufacturer := str "Kingston";
        rm_Capacity := str "8.0 GB"; rm_Speed := str "3200 MHz";
        rm_PartNumber := str "KF432C16BB/8" |}].
Proof.
  apply (windows_ram_speed_read_back windows_ram_env
           {| Total_RAM := str "16.0 GB";
              Modules := [{| rm_Module := 1; rm_Manufacturer := str "Kingston";
                             rm_Capacity := str "8.0 GB";
                             rm_Speed := str "3200 MHz";
                             rm_PartNumber := str "KF432C16BB/8" |}] |});
    vm_compute; reflexivity.
Defined.

Lemma win_module_unreadable (i : Z) (module : physical_memory) :
  module_unreadable module -> exists e, win_module i module = Raise e.
Proof.
  unfold win_module. intros [(e & H) | (e & H)].
  - rewrite H. exists e. reflexivity.
  - destruct (v ← pm_Manufacturer module; or_empty_strip v) as [manu|x].
    + rewrite bind_Ok, H. exists e. reflexivity.
    + exists x. reflexivity.
Qed.

Lemma win_modules_cut (ms1 ms2 : list physical_memory) (module : physical_memory) :
  module_unreadable module ->
  forall (i : Z) (acc : list ram_module_entry),
    win_modules (enumerate i (ms1 ++ module :: ms2)) acc
    = win_modules (enumerate i ms1) acc.
Proof.
  intros Hbad. induction ms1 as [|m1 ms1 IH]; intros i acc; simpl.
  - destruct (win_module_unreadable i module Hbad) as (e & ->). reflexivity.
  - destruct (win_module i m1); [apply IH | reflexivity].
Qed.

(** X20. A memory module that cannot be read ends the enumeration of
    the Windows branch: the report is the same as if the list of the
    provider had stopped before that module. *)
Theorem unreadable_module_ends_enumeration (env : ram_env)
    (ms1 ms2 : list physical_memory) (module : physical_memory) :
  module_unreadable module ->
  get_ram_info (with_physicalmemory env (Ok (ms1 ++ module :: ms2)))
  = get_ram_info (with_physicalmemory env (Ok ms1)).
Proof.
  intros Hbad. unfold get_ram_info, with_physicalmemory.
  cbn [ram_platform_system virtual_memory_total win32_physicalmemory dmidecode].
  rewrite (win_modules_cut ms1 ms2 module Hbad). reflexivity.
Qed.

Lemma unreadable_module_ends_enumeration_witness :
  get_ram_info (with_physicalmemory windows_ram_env
                  (Ok ([a_dimm 3200] ++ a_broken_dimm :: [a_dimm 3200])))
  = get_ram_info (with_physicalmemory windows_ram_env (Ok [a_dimm 3200])).
Proof.
  apply unreadable_module_ends_enumeration.
  left. exists AttributeError. vm_compute. reflexivity.
Defined.

(** *** The parser of the dmidecode output *)

Lemma py_split_nonempty (sep : ascii) (s : pystr) : py_split sep s <> [].
Proof.
  destruct s as [|c s]; simpl; [discriminate|].
  destruct (ascii_eqb c sep); [discriminate|].
  destruct (py_split sep s); discriminate.
Qed.

Lemma ascii_eqb_refl (c : ascii) : ascii_eqb c c = true.
Proof. apply ascii_eqb_eq. reflexivity. Qed.

Lemma py_split_app (sep : ascii) (a b : pystr) :
  py_split sep (a ++ sep :: b) = py_split sep a ++ py_split sep b.
Proof.
  induction a as [|c a IH]; simpl.
  - rewrite ascii_eqb_refl. reflexivity.
  - destruct (ascii_eqb c sep); [rewrite IH; reflexivity|].
    rewrite IH. pose proof (py_split_nonempty sep a) as Hne.
    destruct (py_split sep a) as [|p ps]; [congruence|]. reflexivity.
Qed.

Lemma startswith_In (p s : pystr) (c : ascii) :
  startswith p s = true -> In c p -> In c s.
Proof.
  revert s. induction p as [|x p IH]; intros s H Hc; [destruct Hc|].
  destruct s as [|y s]; simpl in H; [discriminate|].
  apply andb_true_iff in H. destruct H as [Hxy Hps].
  apply ascii_eqb_eq in Hxy. subst y.
  destruct Hc as [->|Hc]; [left; reflexivity | right; apply IH; assumption].
Qed.

Lemma contains_In (p s : pystr) (c : ascii) :
  contains p s = true -> In c p -> In c s.
Proof.
  intros H Hc. induction s as [|y s IH].
  - simpl in H. rewrite orb_false_r in H. eapply startswith_In; eassumption.
  - simpl in H. apply orb_true_iff in H. destruct H as [H|H].
    + eapply startswith_In; eassumption.
    + right. apply IH, H.
Qed.

Lemma py_split_second (sep : ascii) (s : pystr) :
  In sep s -> exists v, py_split sep s !! 1%nat = Some v.
Proof.
  induction s as [|c s IH]; intros H; [destruct H|]. simpl.
  destruct (ascii_eqb c sep) eqn:E.
  - pose proof (py_split_nonempty sep s) as Hne.
    destruct (py_split sep s) as [|p ps]; [congruence|]. exists p. reflexivity.
  - destruct H as [->|H]; [rewrite ascii_eqb_refl in E; discriminate|].
    destruct (IH H) as (v & Hv).
    destruct (py_split sep s) as [|p ps]; [discriminate|].
    exists v. exact Hv.
Qed.

(** A line that holds one of the field names has a second part. *)
Lemma field_value_ok (key line : pystr) :
  In colon key -> contains key line = true ->
  exists v, field_value line = Ok v.
Proof.
  intros Hk Hc. unfold field_value.
  destruct (py_split_second colon line (contains_In key line colon Hc Hk))
    as (v & ->).
  eauto.
Qed.

Lemma dmi_line_ok (st : list dict * dict) (line : pystr) :
  exists st', dmi_line st line = Ok st'
              /\ (no_device_marker line -> fst st' = fst st).
Proof.
  destruct st as [mods cur]. unfold dmi_line, no_device_marker.
  destruct (contains (str "Size:") line) eqn:E1; cbn [andb].
  - destruct (field_value_ok (str "Size:") line) as (v & Hv);
      [vm_compute; tauto | exact E1 |].
    destruct (negb (contains (str "No Module Installed") line)).
    + rewrite Hv, bind_Ok. eexists. split; [reflexivity|]. reflexivity.
    + destruct (contains (str "Speed:") line) eqn:E2.
      { destruct (field_value_ok (str "Speed:") line) as (w & Hw);
          [vm_compute; tauto | exact E2 |].
        rewrite Hw, bind_Ok. eexists. split; reflexivity. }
      destruct (contains (str "Part Number:") line) eqn:E3.
      { rewrite Hv, bind_Ok. eexists. split; reflexivity. }
      destruct (contains (str "Manufacturer:") line) eqn:E4.
      { rewrite Hv, bind_Ok. eexists. split; reflexivity. }
      destruct (contains (str "Memory Device") line) eqn:E5; cbn [andb].
      * destruct (negb (bool_decide (cur = ∅))).
        -- eexists. split; [reflexivity|]. discriminate.
        -- eexists. split; reflexivity.
      * eexists. split; reflexivity.
  - destruct (contains (str "Speed:") line) eqn:E2.
    { destruct (field_value_ok (str "Speed:") line) as (w & Hw);
        [vm_compute; tauto | exact E2 |].
      rewrite Hw, bind_Ok. eexists. split; reflexivity. }
    destruct (contains (str "Part Number:") line) eqn:E3.
    { destruct (field_value_ok (str "Part Number:") line) as (w & Hw);
        [vm_compute; tauto | exact E3 |].
      rewrite Hw, bind_Ok. eexists. split; reflexivity. }
    destruct (contains (str "Manufacturer:") line) eqn:E4.
    { destruct (field_value_ok (str "Manufacturer:") line) as (w & Hw);
        [vm_compute; tauto | exact E4 |].
      rewrite Hw, bind_Ok. eexists. split; reflexivity. }
    destruct (contains (str "Memory Device") line) eqn:E5; cbn [andb].
    + destruct (negb (bool_decide (cur = ∅))).
      * eexists. split; [reflexivity|]. discriminate.
      * eexists. split; reflexivity.
    + eexists. split; reflexivity.
Qed.

Lemma dmi_lines_ok (lines : list pystr) :
  forall st, exists st', dmi_lines lines st = Ok st'
                         /\ (Forall no_device_marker lines -> fst st' = fst st).
Proof.
  induction lines as [|line lines IH]; intros st; simpl.
  - exists st. split; reflexivity.
  - destruct (dmi_line_ok st line) as (st1 & -> & H1). rewrite bind_Ok.
    destruct (IH st1) as (st2 & -> & H2).
    exists st2. split; [reflexivity|].
    intros HF. inversion HF; subst. rewrite H2, H1; auto.
Qed.

Lemma dmi_lines_app (l1 l2 : list pystr) :
  forall st, dmi_lines (l1 ++ l2) st = (st' ← dmi_lines l1 st; dmi_lines l2 st').
Proof.
  induction l1 as [|line l1 IH]; intros st; simpl; [reflexivity|].
  destruct (dmi_line st line) as [st1|x]; [|reflexivity].
  rewrite !bind_Ok. apply IH.
Qed.

(** X21. No output of dmidecode makes the parser of [get_ram_info]
    fail: every line that holds a field name has a part after its first
    colon, so the index [1] is always in range. *)
Theorem dmidecode_parser_total (out : pystr) :
  exists modules current_module,
    dmi_lines (py_split newline out) ([], ∅) = Ok (modules, current_module).
Proof.
  destruct (dmi_lines_ok (py_split newline out) ([], ∅)) as ([mods cur] & H & _).
  eauto.
Qed.

(** X22. Off Windows, [get_ram_info] reports a memory device only when a
    later line opens the next one: whatever follows the last line with
    "Memory Device" does not change the report, so the fields of the last
    device are never reported. *)
Theorem dmidecode_last_device_dropped (env : ram_env) (out tail : pystr) :
  ram_on_windows env = false ->
  Forall no_device_marker (py_split newline tail) ->
  get_ram_info (with_dmidecode env (Ok (out ++ newline :: tail)))
  = get_ram_info (with_dmidecode env (Ok out)).
Proof.
  intros Hw Htail. unfold get_ram_info, with_dmidecode.
  cbn [ram_platform_system virtual_memory_total win32_physicalmemory dmidecode].
  unfold ram_on_windows in Hw. rewrite Hw, !bind_Ok.
  rewrite py_split_app, dmi_lines_app.
  destruct (dmi_lines (py_split newline out) ([], ∅)) as [[mods cur]|x];
    [|reflexivity].
  rewrite bind_Ok.
  destruct (dmi_lines_ok (py_split newline tail) (mods, cur))
    as ([mods' cur'] & -> & Hsame).
  simpl in Hsame. rewrite (Hsame Htail). reflexivity.
Qed.

Lemma dmidecode_last_device_dropped_witness :
  get_ram_info (with_dmidecode (linux_ram_env [])
                  (Ok (two_dimm_head ++ newline :: second_dimm_fields)))
  = get_ram_info (with_dmidecode (linux_ram_env []) (Ok two_dimm_head)).
Proof.
  apply dmidecode_last_device_dropped.
  - vm_compute. reflexivity.
  - repeat constructor.
Defined.

(** ** Detection off Windows: graphics adapters and disks *)

Lemma lspci_lines_ok (lines : list pystr) :
  forall acc, Forall linux_gpu_ok acc -> Forall linux_gpu_ok (lspci_lines lines acc).
Proof.
  induction lines as [|line lines IH]; intros acc Hacc; simpl; [exact Hacc|].
  destruct (truthy_str (py_strip line)); [|apply IH, Hacc].
  destruct (py_split colon line !! 2%nat) as [mdl|]; [|exact Hacc].
  apply IH. apply Forall_app. split; [exact Hacc|].
  constructor; [|constructor]. exists (py_strip mdl). reflexivity.
Qed.

Lemma gpu_key_na (model : pystr) : gpu_key (gpu_dict model (str "N/A")) = Fin 0.
Proof.
  unfold gpu_key, dict_get, gpu_dict.
  rewrite lookup_insert_ne by discriminate.
  rewrite lookup_insert_eq. reflexivity.
Qed.

Lemma max_from_equal_keys {A : Type} (key : A -> pyfloat) (l : list A) :
  forall best : A,
    key best = Fin 0 -> Forall (fun x => key x = Fin 0) l ->
    max_from key best l = best.
Proof.
  induction l as [|x l IH]; intros best Hb Hl; simpl; [reflexivity|].
  inversion Hl as [|? ? Hx Hl']; subst.
  rewrite Hx, Hb. change (fgtb (Fin 0) (Fin 0)) with false.
  apply IH; assumption.
Qed.

(** X23. Off Windows [get_gpu_info] never determines the VRAM, so every
    entry reads as 0 GB and [_choose_primary_gpu] always picks the first
    adapter listed (the ["N/A"] entry when there is none). *)
Theorem linux_primary_gpu_is_first (lspci : result pystr) :
  Forall linux_gpu_ok (get_gpu_info_linux lspci)
  /\ _choose_primary_gpu (get_gpu_info_linux lspci)
     = default na_gpu (head (get_gpu_info_linux lspci)).
Proof.
  assert (Hok : Forall linux_gpu_ok (get_gpu_info_linux lspci)).
  { unfold get_gpu_info_linux. destruct lspci as [out|x]; [|constructor].
    apply lspci_lines_ok. constructor. }
  split; [exact Hok|].
  destruct (get_gpu_info_linux lspci) as [|g rest]; [reflexivity|].
  inversion Hok as [|? ? Hg Hrest]; subst. simpl.
  apply max_from_equal_keys.
  - destruct Hg as (mdl & ->). apply gpu_key_na.
  - eapply Forall_impl; [exact Hrest|].
    intros d (mdl & ->). apply gpu_key_na.
Qed.

Lemma py_split_ws_tokens (s : pystr) :
  Forall (fun t => t <> [] /\ Forall (fun c => is_space c = false) t)
    (py_split_ws s).
Proof.
  induction s as [|c s IH]; simpl; [constructor|].
  destruct (is_space c) eqn:Ec; [exact IH|].
  destruct s as [|d s'].
  - constructor; [|constructor]. split; [discriminate|]. repeat constructor. exact Ec.
  - destruct (is_space d) eqn:Ed.
    + constructor; [|exact IH]. split; [discriminate|]. repeat constructor. exact Ec.
    + destruct (py_split_ws (d :: s')) as [|p ps].
      * constructor; [|constructor]. split; [discriminate|].
        repeat constructor. exact Ec.
      * inversion IH as [|? ? [Hp1 Hp2] Hps]; subst.
        constructor; [|exact Hps]. split; [discriminate|].
        constructor; assumption.
Qed.

Lemma disk_dict_type (model size type : pystr) :
  disk_dict model size type !! "Type" = Some type.
Proof.
  unfold disk_dict.
  rewrite lookup_insert_ne by discriminate.
  rewrite lookup_insert_ne by discriminate.
  apply lookup_insert_eq.
Qed.

Lemma lsblk_line_ok (line : pystr) : Forall linux_disk_ok (lsblk_line line).
Proof.
  unfold lsblk_line. destruct (truthy_str (py_strip line)); [|constructor].
  cbv zeta. destruct (3 <=? length (py_split_ws line))%nat eqn:E; [|constructor].
  apply Nat.leb_le in E.
  constructor; [|constructor].
  eexists _, _, _. split; [reflexivity|]. split.
  - destruct (str_eqb _ _); [left | right]; reflexivity.
  - destruct (lookup_lt_is_Some_2 (py_split_ws line)
                (length (py_split_ws line) - 2)%nat ltac:(lia)) as (t & Ht).
    rewrite Ht. cbn [default from_option id].
    pose proof (py_split_ws_tokens line) as Htok.
    rewrite Forall_lookup in Htok. exact (Htok _ _ Ht).
Qed.

Lemma linux_disks_ok (lsblk : result pystr) :
  Forall linux_disk_ok (get_disk_info_linux lsblk).
Proof.
  unfold get_disk_info_linux. destruct lsblk as [out|x]; [|constructor].
  induction (drop 1 (py_split newline out)) as [|line lines IH]; simpl;
    [constructor|].
  apply Forall_app. split; [apply lsblk_line_ok | exact IH].
Qed.

Lemma counted_once (l : list dict) :
  Forall linux_disk_ok l ->
  (counted_as (str "SSD") l + counted_as (str "HDD") l)%nat = length l.
Proof.
  unfold counted_as.
  induction 1 as [|d l (mdl & size & type & -> & Ht & _) _ IH]; [reflexivity|].
  rewrite !filter_cons.
  destruct (decide (has_type (str "SSD") (disk_dict mdl size type) = true))
    as [Hs|Hs];
    destruct (decide (has_type (str "HDD") (disk_dict mdl size type) = true))
    as [Hh|Hh];
    rewrite has_type_spec, disk_dict_type in Hs, Hh.
  - exfalso. rewrite Hs in Hh. vm_compute in Hh. discriminate.
  - simpl. rewrite IH. reflexivity.
  - simpl. rewrite <- IH. lia.
  - exfalso. destruct Ht as [-> | ->]; [apply Hs | apply Hh]; reflexivity.
Qed.

(** X24. Off Windows every entry of [get_disk_info] has the three keys,
    the type ["SSD"] or ["HDD"] and a size that is one token of the line
    (not empty, without white space); so [_summarize_storage] counts each
    listed disk under exactly one of the two types. *)
Theorem linux_disk_entries (lsblk : result pystr) :
  Forall linux_disk_ok (get_disk_info_linux lsblk)
  /\ (counted_as (str "SSD") (get_disk_info_linux lsblk)
      + counted_as (str "HDD") (get_disk_info_linux lsblk))%nat
     = length (get_disk_info_linux lsblk).
Proof.
  split; [apply linux_disks_ok | apply counted_once, linux_disks_ok].
Qed.

(** ** [_deep_update] and [load_config] *)

Lemma entries_get_set (k k' : string) (v : json) (d : entries) :
  entries_get k' (entries_set k v d)
  = if String.eqb k' k then Some v else entries_get k' d.
Proof.
  induction d as [|[k0 v0] d IH]; simpl.
  - destruct (String.eqb k' k); reflexivity.
  - destruct (String.eqb k k0) eqn:E; simpl.
    + apply String.eqb_eq in E. subst k0.
      destruct (String.eqb k' k); reflexivity.
    + rewrite IH. destruct (String.eqb k' k0) eqn:E0; [|reflexivity].
      apply String.eqb_eq in E0. subst k0.
      rewrite String.eqb_sym, E. reflexivity.
Qed.

Lemma entries_get_absent (k : string) (d : entries) :
  ~ In k (keys d) -> entries_get k d = None.
Proof.
  induction d as [|[k0 v0] d IH]; simpl; intros H; [reflexivity|].
  destruct (String.eqb k k0) eqn:E.
  - apply String.eqb_eq in E. subst k0. exfalso. apply H. left. reflexivity.
  - apply IH. intros Hin. apply H. right. exact Hin.
Qed.

Lemma entries_set_keys (k : string) (v : json) (d : entries) :
  (In k (keys d) /\ keys (entries_set k v d) = keys d)
  \/ (~ In k (keys d) /\ keys (entries_set k v d) = keys d ++ [k]).
Proof.
  induction d as [|[k0 v0] d IH]; simpl.
  - right. split; [tauto | reflexivity].
  - destruct (String.eqb k k0) eqn:E; simpl.
    + apply String.eqb_eq in E. subst k0. left. split; [left|]; reflexivity.
    + apply String.eqb_neq in E.
      destruct IH as [[Hin Hk] | [Hin Hk]]; unfold keys in *; rewrite Hk.
      * left. split; [right; exact Hin | reflexivity].
      * right. split; [|reflexivity]. intros [H|H]; [congruence | tauto].
Qed.

Lemma update_entry_set (rec : json -> entries -> entries) (base : entries)
    (k : string) (v : json) :
  update_entry rec base (k, v)
  = entries_set k
      (match v, entries_get k base with
       | JDict _, Some (JDict bv) => JDict (rec v bv)
       | _, _ => v
       end) base.
Proof.
  unfold update_entry. destruct v; try reflexivity.
  destruct (entries_get k base) as [[]|]; reflexivity.
Qed.

Lemma deep_update_dict (base ov : entries) (r : entries) :
  _deep_update base (JDict ov) = Ok r ->
  r = fold_left (update_entry deep_update_with) ov base.
Proof.
  unfold _deep_update. destruct ov as [|kv ov]; simpl; intros H;
    injection H as <-; reflexivity.
Qed.

Lemma fold_update_get (ov : entries) :
  NoDup (keys ov) ->
  forall (base : entries) (k : string),
    entries_get k (fold_left (update_entry deep_update_with) ov base)
    = match entries_get k ov with
      | None => entries_get k base
      | Some v => Some (merged_value v (entries_get k base))
      end.
Proof.
  induction ov as [|[k0 v0] ov IH]; intros Hnd base k;
    cbn [fold_left entries_get]; [reflexivity|].
  apply NoDup_cons in Hnd. destruct Hnd as [Hk0 Hnd].
  rewrite (IH Hnd), update_entry_set, entries_get_set.
  destruct (String.eqb k k0) eqn:E.
  - apply String.eqb_eq in E. subst k0.
    rewrite entries_get_absent; [reflexivity|].
    intros Hin. apply Hk0. apply list_elem_of_In. exact Hin.
  - reflexivity.
Qed.

(** X25. [_deep_update] merges key by key: a key that [override] does not
    mention keeps the value of [base]; a key under which both hold a dict
    gets the merge of the two dicts; any other key of [override] gets the
    value of [override]. *)
Theorem deep_update_merge (base ov r : entries) (k : string) :
  NoDup (keys ov) ->
  _deep_update base (JDict ov) = Ok r ->
  entries_get k r
  = match entries_get k ov with
    | None => entries_get k base
    | Some v => Some (merged_value v (entries_get k base))
    end.
Proof.
  intros Hnd H. rewrite (deep_update_dict base ov r H).
  apply fold_update_get, Hnd.
Qed.

Lemma deep_update_merge_witness :
  entries_get "font_sizes"
    (entries_set "font_sizes"
       (JDict [("title"%string, JInt 80); ("h2"%string, JInt 36);
               ("body"%string, JInt 28); ("small"%string, JInt 24)])
       _default_config)
  = match entries_get "font_sizes"
            [("font_sizes"%string, JDict [("title"%string, JInt 80)])] with
    | None => entries_get "font_sizes" _default_config
    | Some v => Some (merged_value v (entries_get "font_sizes" _default_config))
    end.
Proof.
  apply (deep_update_merge _default_config
           [("font_sizes"%string, JDict [("title"%string, JInt 80)])]).
  - apply NoDup_cons. split; [intros H; inversion H | apply NoDup_nil; exact I].
  - vm_compute. reflexivity.
Defined.

Lemma fold_update_keys (ov : entries) :
  forall base : entries,
    let r := fold_left (update_entry deep_update_with) ov base in
    keys base `prefix_of` keys r
    /\ (NoDup (keys base) -> NoDup (keys r))
    /\ (forall k, In k (keys r) <-> In k (keys base) \/ In k (keys ov)).
Proof.
  induction ov as [|[k0 v0] ov IH]; intros base; cbv zeta; cbn [fold_left].
  - split; [reflexivity|]. split; [auto | simpl; tauto].
  - destruct (IH (update_entry deep_update_with base (k0, v0)))
      as (Hpre & Hnd & Hin).
    rewrite update_entry_set in Hpre, Hnd, Hin |- *.
    match type of Hpre with context [entries_set k0 ?x base] =>
      destruct (entries_set_keys k0 x base) as [[Hk Hs] | [Hk Hs]] end;
      rewrite Hs in Hpre, Hnd, Hin.
    + split; [exact Hpre|]. split; [exact Hnd|].
      intros k. rewrite Hin. unfold keys in *. simpl. split; [tauto|].
      intros [H|[H|H]]; [tauto | subst; tauto | tauto].
    + split; [etransitivity; [apply prefix_app_r; reflexivity | exact Hpre]|].
      split.
      * intros Hb. apply Hnd. apply NoDup_app. split; [exact Hb|].
        split; [|apply NoDup_singleton].
        intros x Hx Hx'. apply list_elem_of_In in Hx.
        apply list_elem_of_In in Hx'. destruct Hx' as [<-|[]]. tauto.
      * intros k. rewrite Hin, in_app_iff. unfold keys. simpl. tauto.
Qed.

Lemma deep_update_keys (base : entries) (override : json) (r : entries) :
  _deep_update base override = Ok r ->
  keys base `prefix_of` keys r
  /\ (NoDup (keys base) -> NoDup (keys r))
  /\ (forall k, In k (keys r)
                <-> In k (keys base)
                    \/ exists ov, override = JDict ov /\ In k (keys ov)).
Proof.
  intros H.
  assert (Hcases : r = base /\ (forall ov, override = JDict ov -> ov = [])
                   \/ exists ov, override = JDict ov).
  { unfold _deep_update in H. destruct (negb (json_truthy override)) eqn:E.
    - injection H as <-. left. split; [reflexivity|].
      intros ov ->. destruct ov; [reflexivity | discriminate E].
    - destruct override; try discriminate. right. eauto. }
  destruct Hcases as [[-> Hov] | (ov & ->)].
  - split; [reflexivity|]. split; [auto|]. intros k. split; [tauto|].
    intros [Hk | (ov & -> & Hk)]; [exact Hk|].
    rewrite (Hov ov eq_refl) in Hk. destruct Hk.
  - rewrite (deep_update_dict base ov r H).
    destruct (fold_update_keys ov base) as (Hpre & Hnd & Hin).
    split; [exact Hpre|]. split; [exact Hnd|]. intros k. rewrite Hin.
    split; [intros [Hk|Hk]; [left; exact Hk | right; eauto]|].
    intros [Hk | (ov' & Heq & Hk)]; [left; exact Hk|].
    injection Heq as <-. right. exact Hk.
Qed.

(** X26. [_deep_update] keeps the shape of [base]: the keys of [base]
    stay where they are and new keys are put behind them, unique keys
    stay unique, and the keys of the result are those of [base] and of
    [override], no other. *)
Theorem deep_update_keeps_keys (base : entries) (override : json) (r : entries) :
  _deep_update base override = Ok r ->
  keys base `prefix_of` keys r
  /\ (NoDup (keys base) -> NoDup (keys r))
  /\ (forall k, In k (keys r)
                <-> In k (keys base)
                    \/ exists ov, override = JDict ov /\ In k (keys ov)).
Proof. exact (deep_update_keys base override r). Qed.

Lemma deep_update_keeps_keys_witness :
  keys _default_config
  `prefix_of` keys (_default_config ++ [("watermark"%string, JBool true)])
  /\ (NoDup (keys _default_config)
      -> NoDup (keys (_default_config ++ [("watermark"%string, JBool true)])))
  /\ (forall k, In k (keys (_default_config ++ [("watermark"%string, JBool true)]))
                <-> In k (keys _default_config)
                    \/ exists ov, JDict [("watermark"%string, JBool true)] = JDict ov
                                  /\ In k (keys ov)).
Proof.
  apply (deep_update_keeps_keys _default_config
           (JDict [("watermark"%string, JBool true)])).
  vm_compute. reflexivity.
Defined.

Lemma default_config_keys_unique : NoDup (keys _default_config).
Proof.
  apply NoDup_ListNoDup. vm_compute.
  repeat (constructor; [simpl; intros H; repeat (destruct H as [H|H]; [discriminate H|]); exact H|]).
  constructor.
Qed.

(** X27. Whatever the two candidate files hold, a configuration that
    [load_config] returns has all the keys of [_default_config], first and
    in their order, and no key twice; a key that the file in use does not
    mention has its default value.  When the defaults are written out, the
    configuration is [_default_config] itself. *)
Theorem load_config_keeps_defaults (env : config_env) (c : loaded_config) :
  load_config env = Ok c ->
  keys _default_config `prefix_of` keys (cfg c)
  /\ NoDup (keys (cfg c))
  /\ (default_written c = true -> cfg c = _default_config)
  /\ (forall ov k,
        first_loaded [next_to_program env; in_working_dir env] = Some (JDict ov) ->
        NoDup (keys ov) -> ~ In k (keys ov) ->
        entries_get k (cfg c) = entries_get k _default_config).
Proof.
  unfold load_config. intros H.
  destruct (first_loaded _) as [v|] eqn:Ev; cbn [default from_option id] in H.
  - destruct (json_truthy v) eqn:Et.
    + destruct (_deep_update _default_config v) as [r|x] eqn:Er; [|discriminate].
      rewrite bind_Ok in H. injection H as <-. cbn [cfg default_written].
      destruct (deep_update_keys _ _ _ Er) as (Hpre & Hnd & _).
      split; [exact Hpre|]. split; [apply Hnd, default_config_keys_unique|].
      split; [discriminate|].
      intros ov k Hov Hnd' Hk. injection Hov as ->.
      rewrite (deep_update_dict _ _ _ Er), (fold_update_get ov Hnd').
      rewrite (entries_get_absent k ov Hk). reflexivity.
    + injection H as <-. cbn [cfg default_written].
      split; [reflexivity|]. split; [apply default_config_keys_unique|].
      split; [reflexivity|]. intros ov k Hov _ Hk. reflexivity.
  - simpl in H. injection H as <-. cbn [cfg default_written].
    split; [reflexivity|]. split; [apply default_config_keys_unique|].
    split; [reflexivity|]. intros ov k Hov. discriminate.
Qed.

Lemma load_config_keeps_defaults_witness :
  keys _default_config `prefix_of` keys (cfg a_loaded_config)
  /\ NoDup (keys (cfg a_loaded_config))
  /\ (default_written a_loaded_config = true
      -> cfg a_loaded_config = _default_config)
  /\ (forall ov k,
        first_loaded [next_to_program a_config_env; in_working_dir a_config_env]
        = Some (JDict ov) ->
        NoDup (keys ov) -> ~ In k (keys ov) ->
        entries_get k (cfg a_loaded_config) = entries_get k _default_config).
Proof.
  apply (load_config_keeps_defaults a_config_env). vm_compute. reflexivity.
Defined.

(** ** [_as_rgb] *)

Lemma hex_val_range (c : ascii) : is_hex_ci c = true -> 0 <= hex_val c <= 15.
Proof.
  destruct c as [[] [] [] [] [] [] [] []]; vm_compute;
    intros H; try discriminate H; split; discriminate.
Qed.

Lemma hex_not_hash (c : ascii) :
  is_hex_ci c = true -> ascii_eqb "#"%char c = false.
Proof.
  destruct c as [[] [] [] [] [] [] [] []]; vm_compute;
    intros H; try discriminate H; reflexivity.
Qed.

Lemma hex_digit_ok (k : Z) :
  0 <= k < 16 -> is_hex_ci (hex_digit k) = true /\ hex_val (hex_digit k) = k.
Proof.
  intros Hk.
  assert (H : k = 0 \/ k = 1 \/ k = 2 \/ k = 3 \/ k = 4 \/ k = 5 \/ k = 6
              \/ k = 7 \/ k = 8 \/ k = 9 \/ k = 10 \/ k = 11 \/ k = 12
              \/ k = 13 \/ k = 14 \/ k = 15) by lia.
  repeat (destruct H as [->|H]; [split; reflexivity|]).
  subst k. split; reflexivity.
Qed.

Lemma int16_pair (a b : ascii) : int16 [a; b] = hex_val a * 16 + hex_val b.
Proof. unfold int16. simpl. reflexivity. Qed.

(** A match of the pattern of [_as_rgb] captures six hexadecimal
    digits. *)
Lemma rgb_match_sound (s rest hexv : pystr) :
  match_here rgb_re s = Some (rest, Some hexv) ->
  exists a b c d e f,
    hexv = [a; b; c; d; e; f]
    /\ Forall (fun x => is_hex_ci x = true) hexv.
Proof.
  unfold match_here. intros H.
  apply m_sound in H as (t1 & rest1 & cap1 & -> & HM & Hk).
  injection Hk as -> ->.
  unfold rgb_re in HM. cbn [Rep] in HM.
  inv HM.
  match goal with H : Matches (Grp _) _ _ _ _ |- _ => inv H end.
  repeat match goal with H : Matches (Seq (CC _) _) _ _ _ _ |- _ => inv H end.
  repeat match goal with H : Matches (CC is_hex_ci) _ _ _ _ |- _ => inv H end.
  match goal with H : Matches Eps _ _ _ _ |- _ => inv H end.
  simpl. do 6 eexists. split; [reflexivity|].
  repeat constructor; assumption.
Qed.

Lemma rgb_match_six (a b c d e f : ascii) (tail : pystr) :
  Forall (fun x => is_hex_ci x = true) [a; b; c; d; e; f] ->
  m (Grp (Rep 6 (CC is_hex_ci))) (a :: b :: c :: d :: e :: f :: tail) None
    (fun s1 cap => Some (s1, cap))
  = Some (tail, Some [a; b; c; d; e; f]).
Proof.
  intros H.
  repeat match goal with
         | H : Forall _ (_ :: _) |- _ =>
             let Hx := fresh "Hx" in
             apply Forall_cons in H; destruct H as [Hx H]
         end.
  cbn [m Rep]. rewrite Hx, Hx0, Hx1, Hx2, Hx3, Hx4.
  change (a :: b :: c :: d :: e :: f :: tail) with ([a; b; c; d; e; f] ++ tail).
  rewrite take_app_diff. reflexivity.
Qed.

Lemma rgb_match_complete (hash : bool) (a b c d e f : ascii) (tail : pystr) :
  Forall (fun x => is_hex_ci x = true) [a; b; c; d; e; f] ->
  match_here rgb_re ((if hash then str "#" else []) ++ a :: b :: c :: d :: e :: f :: tail)
  = Some (tail, Some [a; b; c; d; e; f]).
Proof.
  intros H. pose proof (rgb_match_six a b c d e f tail H) as Hsix.
  unfold match_here, rgb_re. rewrite m_Seq, m_Opt.
  destruct hash.
  - change (str "#" ++ a :: b :: c :: d :: e :: f :: tail)
      with ("#"%char :: a :: b :: c :: d :: e :: f :: tail).
    rewrite m_CC_cons. change (ascii_eqb "#"%char "#"%char) with true.
    cbv iota. rewrite Hsix. reflexivity.
  - cbn [app]. rewrite m_CC_cons.
    apply Forall_cons in H. destruct H as [Ha _].
    rewrite (hex_not_hash a Ha). exact Hsix.
Qed.

(** X28. From a text [_as_rgb] returns the default or three numbers
    between 0 and 255. *)
Theorem as_rgb_text_in_range (s : pystr) (dflt : rgb) :
  _as_rgb (JStr s) dflt = dflt
  \/ exists r g b,
       _as_rgb (JStr s) dflt = (r, g, b)
       /\ is_byte r /\ is_byte g /\ is_byte b.
Proof.
  unfold _as_rgb.
  destruct (match_here rgb_re s) as [[rest [hexv|]]|] eqn:E;
    [|left; reflexivity|left; reflexivity].
  right. destruct (rgb_match_sound s rest hexv E) as (a & b & c & d & e & f & -> & H).
  repeat match goal with
         | H : Forall _ (_ :: _) |- _ =>
             let Hx := fresh "Hx" in
             apply Forall_cons in H; destruct H as [Hx H]
         end.
  do 3 eexists. split; [reflexivity|].
  cbn [take drop]. rewrite !int16_pair. unfold is_byte.
  pose proof (hex_val_range a Hx). pose proof (hex_val_range b Hx0).
  pose proof (hex_val_range c Hx1). pose proof (hex_val_range d Hx2).
  pose proof (hex_val_range e Hx3). pose proof (hex_val_range f Hx4).
  lia.
Qed.

(** X29. [_as_rgb] reads a colour written as six hexadecimal digits: the
    three numbers are returned whether or not a ["#"] goes before, and
    whatever follows the sixth digit. *)
Theorem as_rgb_reads_hex (hash : bool) (r g b : Z) (tail : pystr) (dflt : rgb) :
  is_byte r -> is_byte g -> is_byte b ->
  _as_rgb (JStr ((if hash then str "#" else []) ++ hex2 r ++ hex2 g ++ hex2 b ++ tail))
    dflt
  = (r, g, b).
Proof.
  unfold is_byte. intros Hr Hg Hb.
  assert (Hd : forall n, 0 <= n <= 255 ->
             is_hex_ci (hex_digit (n / 16)) = true
             /\ is_hex_ci (hex_digit (n mod 16)) = true
             /\ hex_val (hex_digit (n / 16)) * 16 + hex_val (hex_digit (n mod 16)) = n).
  { intros n Hn.
    assert (H1 : 0 <= n / 16 < 16)
      by (split; [apply Z.div_pos; lia | apply Z.div_lt_upper_bound; lia]).
    assert (H2 : 0 <= n mod 16 < 16) by (apply Z.mod_pos_bound; lia).
    destruct (hex_digit_ok _ H1) as [-> ->].
    destruct (hex_digit_ok _ H2) as [-> ->].
    split; [reflexivity|]. split; [reflexivity|].
    pose proof (Z.div_mod n 16 ltac:(lia)). lia. }
  destruct (Hd r Hr) as (Hr1 & Hr2 & Hrv).
  destruct (Hd g Hg) as (Hg1 & Hg2 & Hgv).
  destruct (Hd b Hb) as (Hb1 & Hb2 & Hbv).
  unfold _as_rgb, hex2. cbn [app].
  rewrite rgb_match_complete by (repeat constructor; assumption).
  cbn [take drop]. rewrite !int16_pair, Hrv, Hgv, Hbv. reflexivity.
Qed.

Lemma as_rgb_reads_hex_witness :
  _as_rgb (JStr ((if true then str "#" else [])
                 ++ hex2 0 ++ hex2 255 ++ hex2 157 ++ str "80")) (0, 0, 0)
  = (0, 255, 157).
Proof. apply as_rgb_reads_hex; unfold is_byte; lia. Defined.

(** ** [get_cpu_info] *)





